(** * Build-description generation for nextpnr and Symbiflow (edalize)

    A shallow embedding of [edalize/nextpnr.py] and [edalize/symbiflow.py]:
    the two [configure_main] entry points, the file classification loops
    they run, and the stage list they hand to [EdaCommands].

    Python values are modelled as follows.
    - A string is a [string]; [None] where a string is expected is the
      [None] of [option string]; the truth value of a string is "non empty".
    - [tool_options] is read only through [.get] on fixed keys, with the
      value types announced by [get_doc]; it is a record with one optional
      field per key that the code reads, [None] standing for an absent key.
    - An exception aborts the run; what was logged, rendered and written up
      to that point stays in the [world]. *)

From Stdlib Require Import String Ascii List Bool Arith Lia.
Import ListNotations.

Open Scope string_scope.
Open Scope list_scope.

Infix "+:+" := String.append (at level 60, right associativity).

(** ** Python strings *)

(** [bool(s)] for a string. *)
Definition truthy (s : string) : bool := negb (s =? EmptyString).

(** [bool(x)] where [x] is a string or [None]. *)
Definition truthy_opt (x : option string) : bool :=
  match x with
  | Some s => truthy s
  | None => false
  end.

Definition is_None {A : Type} (x : option A) : bool :=
  match x with
  | Some _ => false
  | None => true
  end.

(** [str(x)], as [str.format] and [%s] apply it to a string or [None]. *)
Definition str (x : option string) : string :=
  match x with
  | Some s => s
  | None => "None"
  end.

(** [sub in s] for two strings. *)
Fixpoint contains (sub s : string) : bool :=
  String.prefix sub s ||
  match s with
  | EmptyString => false
  | String _ s' => contains sub s'
  end.

(** [s.split(sep)[0]] for a one-character separator. *)
Fixpoint split_head (sep : ascii) (s : string) : string :=
  match s with
  | EmptyString => EmptyString
  | String c s' => if Ascii.eqb c sep then EmptyString else String c (split_head sep s')
  end.

Fixpoint ends_with (c : ascii) (s : string) : bool :=
  match s with
  | EmptyString => false
  | String d EmptyString => Ascii.eqb d c
  | String _ s' => ends_with c s'
  end.

(** [os.path.join(a, b)] on POSIX for a relative [b]. *)
Definition path_join (a b : string) : string :=
  if a =? EmptyString then b
  else if ends_with "/" a then a +:+ b
  else a +:+ "/" +:+ b.

(** [x in l] for a list of strings, [x] a string or [None]. *)
Definition mem (x : option string) (l : list string) : bool :=
  match x with
  | Some s => existsb (String.eqb s) l
  | None => false
  end.

(** [x == lit] for [x] a string or [None]. *)
Definition eq_lit (x : option string) (lit : string) : bool :=
  match x with
  | Some s => s =? lit
  | None => false
  end.

(** ** Input files *)

Module File.
Record t := mk { name : string; file_type : string }.
End File.

(** ** Exceptions and results *)

Inductive exn :=
| RuntimeError (msg : string)
| KeyError (key : string)
| NameError (var : string)          (* UnboundLocalError is a NameError *)
| TypeError
| AttributeError
| IndexError
| AssertionError (args : list string).

Inductive result (A : Type) :=
| Ok (a : A)
| Raise (e : exn).
Arguments Ok {A} a.
Arguments Raise {A} e.

(** The errors the configurators raise on purpose, with a message. *)
Definition named_error (e : exn) : bool :=
  match e with
  | RuntimeError _ => true
  | _ => false
  end.

(** ** The command graph *)

(** A command token is a string, or [None] when the code puts a variable
    that holds [None] into the list. *)
Definition token := option string.

Definition toks (l : list string) : list token := map Some l.

Record Command := mkCommand
  { command : list token;
    targets : list string;
    depends : list string }.

(** Modelled from the spec: [EdaCommands] of [edalize.utils] is not part of
    the sources.  Section 4.3 gives it an ordered list of stages, header
    text, variable lines and a default target; [add], [add_var] and
    [set_default_target] only record their arguments, and [write] emits the
    graph to a path.  The emitted file is represented by the graph itself,
    with the default target resolved by the documented fallback (the first
    output of the stage registered last). *)
Module EdaCommands.
Record t := mk
    { commands : list Command;
      header : string;
      variables : list string;
      default_target : option string }.

Definition new : t :=
    {| commands := []; header := EmptyString; variables := []; default_target := None |}.

Definition add (c : t) (cmd : list token) (tg dp : list string) : t :=
    {| commands := commands c ++ [mkCommand cmd tg dp];
       header := header c;
       variables := variables c;
       default_target := default_target c |}.

Definition add_var (c : t) (v : string) : t :=
    {| commands := commands c;
       header := header c;
       variables := variables c ++ [v];
       default_target := default_target c |}.

Definition add_header (c : t) (h : string) : t :=
    {| commands := commands c;
       header := header c +:+ h;
       variables := variables c;
       default_target := default_target c |}.

Definition set_commands (c : t) (l : list Command) : t :=
    {| commands := l;
       header := header c;
       variables := variables c;
       default_target := default_target c |}.

Definition set_default_target (c : t) (d : string) : t :=
    {| commands := commands c;
       header := header c;
       variables := variables c;
       default_target := Some d |}.

Definition fallback_target (c : t) : option string :=
    match default_target c with
    | Some d => Some d
    | None =>
        match rev (commands c) with
        | s :: _ => hd_error (targets s)
        | [] => None
        end
    end.

Definition finalize (c : t) : t :=
    {| commands := commands c;
       header := header c;
       variables := variables c;
       default_target := fallback_target c |}.
End EdaCommands.

(** The default target of a graph is the output of one of its stages. *)
Definition default_is_stage_output (g : EdaCommands.t) : bool :=
  match EdaCommands.default_target g with
  | Some d =>
      existsb (fun c => existsb (String.eqb d) (targets c)) (EdaCommands.commands g)
  | None => false
  end.

(** ** The world: everything a run can change *)

Inductive tparam :=
| PStr (s : option string)
| PClocks (c : option (list (string * string))).

Record rendering := mkRendering
  { template : string;
    outfile : string;
    params : list (string * tparam) }.

Record world := mkWorld
  { log : list string;                       (* records of logger.error *)
    rendered : list rendering;               (* calls of render_template *)
    edam_files : list File.t;                (* self.edam["files"] *)
    self_commands : list Command;            (* self.commands *)
    written : list (string * EdaCommands.t)  (* files written by commands.write *) }.

Definition M (A : Type) : Type := world -> result A * world.

Definition ret {A} (a : A) : M A := fun w => (Ok a, w).

Definition raise {A} (e : exn) : M A := fun w => (Raise e, w).

Definition bind {A B} (m : M A) (k : A -> M B) : M B :=
  fun w =>
    match m w with
    | (Ok a, w') => k a w'
    | (Raise e, w') => (Raise e, w')
    end.

Definition lift {A} (r : result A) : M A := fun w => (r, w).

Declare Scope py_scope.
Delimit Scope py_scope with py.
Notation "x <- m ;; k" := (bind m (fun x => k))
  (at level 100, m at next level, right associativity) : py_scope.
Notation "' p <- m ;; k" := (bind m (fun x => let p := x in k))
  (at level 100, p pattern, m at next level, right associativity) : py_scope.
Notation "m ;; k" := (bind m (fun _ => k))
  (at level 100, right associativity) : py_scope.
Open Scope py_scope.

Definition when (b : bool) (m : M unit) : M unit := if b then m else ret tt.

(** The updates of the world, one per kind of effect. *)
Definition add_log (w : world) (msg : string) : world :=
  mkWorld (log w ++ [msg]) (rendered w) (edam_files w) (self_commands w) (written w).

Definition add_rendering (w : world) (r : rendering) : world :=
  mkWorld (log w) (rendered w ++ [r]) (edam_files w) (self_commands w) (written w).

Definition with_edam_files (w : world) (l : list File.t) : world :=
  mkWorld (log w) (rendered w) l (self_commands w) (written w).

Definition with_self_commands (w : world) (l : list Command) : world :=
  mkWorld (log w) (rendered w) (edam_files w) l (written w).

Definition add_written (w : world) (path : string) (g : EdaCommands.t) : world :=
  mkWorld (log w) (rendered w) (edam_files w) (self_commands w) (written w ++ [(path, g)]).

Definition logger_error (msg : string) : M unit :=
  fun w => (Ok tt, add_log w msg).

(** [self.render_template] belongs to the templating facility; a call is
    recorded and returns. *)
Definition render_template (tpl out : string) (ps : list (string * tparam)) : M unit :=
  fun w => (Ok tt, add_rendering w (mkRendering tpl out ps)).

Definition set_edam_files (l : list File.t) : M unit :=
  fun w => (Ok tt, with_edam_files w l).

Definition set_self_commands (l : list Command) : M unit :=
  fun w => (Ok tt, with_self_commands w l).

Definition write (c : EdaCommands.t) (path : string) : M unit :=
  fun w => (Ok tt, add_written w path (EdaCommands.finalize c)).

(** A local variable that may be unbound when it is read. *)
Definition read_local {A : Type} (var : string) (x : option A) : M A :=
  match x with
  | Some v => ret v
  | None => raise (NameError var)
  end.

(** [a + b] where [a] is a string and [b] a string or [None]. *)
Definition str_add (a : string) (b : option string) : M string :=
  match b with
  | Some s => ret (a +:+ s)
  | None => raise TypeError
  end.

(** [a + b] where [a] is a string or [None] and [b] a string. *)
Definition add_str (a : option string) (b : string) : M string :=
  match a with
  | Some s => ret (s +:+ b)
  | None => raise TypeError
  end.

(** [sub in x] where [x] is a string or [None]. *)
Definition str_in (sub : string) (x : option string) : M bool :=
  match x with
  | Some s => ret (contains sub s)
  | None => raise TypeError
  end.

(** Folding a loop body that may raise over a list, in order. *)
Fixpoint for_each {A S : Type} (body : S -> A -> result S) (l : list A) (s : S)
  : result S :=
  match l with
  | [] => Ok s
  | x :: l' =>
      match body s x with
      | Ok s' => for_each body l' s'
      | Raise e => Raise e
      end
  end.

Definition run {A} (m : M A) (w : world) : result A := fst (m w).
Definition exec {A} (m : M A) (w : world) : world := snd (m w).

Definition world0 : world := mkWorld [] [] [] [] [].

(** ** nextpnr.py *)

Module Nextpnr.

  (** The keys of [self.tool_options] that [configure_main] reads. *)
Record tool_options := mkOptions
    { chipdb : option string;
      package : option string;
      device : option string;
      nextpnr_options : option (list string) }.

Record t := mk
    { name : string;
      work_root : string;
      files : list File.t;
      flow_config_arch : option string;   (* self.flow_config["arch"], if the key is there *)
      options : tool_options }.

  (** The loop's local variables (lines 28-35). *)
Record locals := mkLocals
    { cst_file : string;
      lpf_file : string;
      pcf_file : string;
      xdc_file : string;
      pdc_file : string;
      qsf_file : string;
      netlist : string;
      unused_files : list File.t }.

Definition locals0 : locals := mkLocals EmptyString EmptyString EmptyString EmptyString EmptyString EmptyString EmptyString [].

Definition set_cst_file (v : locals) (x : string) : locals :=
    mkLocals x (lpf_file v) (pcf_file v) (xdc_file v) (pdc_file v) (qsf_file v)
             (netlist v) (unused_files v).
Definition set_lpf_file (v : locals) (x : string) : locals :=
    mkLocals (cst_file v) x (pcf_file v) (xdc_file v) (pdc_file v) (qsf_file v)
             (netlist v) (unused_files v).
Definition set_pcf_file (v : locals) (x : string) : locals :=
    mkLocals (cst_file v) (lpf_file v) x (xdc_file v) (pdc_file v) (qsf_file v)
             (netlist v) (unused_files v).
Definition set_xdc_file (v : locals) (x : string) : locals :=
    mkLocals (cst_file v) (lpf_file v) (pcf_file v) x (pdc_file v) (qsf_file v)
             (netlist v) (unused_files v).
Definition set_pdc_file (v : locals) (x : string) : locals :=
    mkLocals (cst_file v) (lpf_file v) (pcf_file v) (xdc_file v) x (qsf_file v)
             (netlist v) (unused_files v).
Definition set_qsf_file (v : locals) (x : string) : locals :=
    mkLocals (cst_file v) (lpf_file v) (pcf_file v) (xdc_file v) (pdc_file v) x
             (netlist v) (unused_files v).
Definition set_netlist (v : locals) (x : string) : locals :=
    mkLocals (cst_file v) (lpf_file v) (pcf_file v) (xdc_file v) (pdc_file v)
             (qsf_file v) x (unused_files v).
Definition append_unused (v : locals) (f : File.t) : locals :=
    mkLocals (cst_file v) (lpf_file v) (pcf_file v) (xdc_file v) (pdc_file v)
             (qsf_file v) (netlist v) (unused_files v ++ [f]).

  (** ["Nextpnr only supports one <what>. Found {} and {}".format(a, b)] *)
Definition only_one (what a b : string) : exn :=
    RuntimeError ("Nextpnr only supports one " +:+ what +:+ ". Found " +:+ a
                  +:+ " and " +:+ b).

Definition interchange_wants_interchange (n : string) : exn :=
    RuntimeError
      ("Nextpnr-fpga_interchange requires fpga-interchange logical netlist instead of JSON, found"
       +:+ n).

Definition others_want_json (n : string) : exn :=
    RuntimeError ("Non-interchange variants of Nextpnr require JSON netlist, found" +:+ n).

  (** The body of the loop over [self.files] (lines 47-124): four [if]
      statements in a row, then [if PCF / elif XDC], then
      [if QSF / elif jsonNetlist / elif fpgaInterchangeNetlist / else]. *)
Definition classify_file (is_interchange : bool) (v : locals) (f : File.t)
    : result locals :=
    let ty := File.file_type f in
    let nm := File.name f in
    let step1 :=
      if ty =? "CST" then
        if truthy (cst_file v) then Raise (only_one "CST file" (cst_file v) nm)
        else Ok (set_cst_file v nm)
      else Ok v in
    match step1 with
    | Raise e => Raise e
    | Ok v =>
    let step2 :=
      if ty =? "LPF" then
        if truthy (lpf_file v) then Raise (only_one "LPF file" (pcf_file v) nm)
        else Ok (set_lpf_file v nm)
      else Ok v in
    match step2 with
    | Raise e => Raise e
    | Ok v =>
    let step3 :=
      if ty =? "PDC" then
        if truthy (pdc_file v) then Raise (only_one "PDC file" (pdc_file v) nm)
        else Ok (set_pdc_file v nm)
      else Ok v in
    match step3 with
    | Raise e => Raise e
    | Ok v =>
    let step4 :=
      if ty =? "PCF" then
        if truthy (pcf_file v) then Raise (only_one "PCF file" (pcf_file v) nm)
        else Ok (set_pcf_file v nm)
      else if ty =? "XDC" then
        if truthy (xdc_file v) then Raise (only_one "XDC file" (xdc_file v) nm)
        else Ok (set_xdc_file v nm)
      else Ok v in
    match step4 with
    | Raise e => Raise e
    | Ok v =>
      if ty =? "QSF" then
        if truthy (qsf_file v) then Raise (only_one "QSF file" (qsf_file v) nm)
        else Ok (set_qsf_file v nm)
      else if ty =? "jsonNetlist" then
        if truthy (netlist v) then Raise (only_one "netlist" (netlist v) nm)
        else
          let v := set_netlist v nm in
          if is_interchange then Raise (interchange_wants_interchange nm)
          else Ok (set_netlist v nm)
      else if ty =? "fpgaInterchangeNetlist" then
        if truthy (netlist v) then Raise (only_one "netlist" (netlist v) nm)
        else if negb is_interchange then Raise (others_want_json nm)
        else Ok v
      else Ok (append_unused v f)
    end end end end.

Definition classify (is_interchange : bool) (fs : list File.t) : result locals :=
    for_each (classify_file is_interchange) fs locals0.

Definition missing_device (arch : string) : exn :=
    RuntimeError ("Missing required option 'device' for nextpnr-" +:+ arch).

  (** [["--flag", file] if file else []] *)
Definition flag_if (flag file : string) : list token :=
    if truthy file then toks [flag; file] else [].

  (** The per-architecture table (lines 135-173): architecture options,
      target, constraint flags and output flags. *)
Definition arch_row (self : t) (arch : string) (v : locals)
    : M (list token * string * list token * list token) :=
    if arch =? "ecp5" then
      let targets := name self +:+ ".config" in
      ret ([], targets, flag_if "--lpf" (lpf_file v), toks ["--textcfg"; targets])
    else if arch =? "mistral" then
      let device := device (options self) in
      when (negb (truthy_opt device)) (raise (missing_device "mistral")) ;;
      let targets := name self +:+ ".rbf" in
      ret ([Some "--device"; device], targets, flag_if "--qsf" (qsf_file v),
           toks ["--rbf"; targets])
    else if arch =? "nexus" then
      let device := device (options self) in
      when (negb (truthy_opt device)) (raise (missing_device "nexus")) ;;
      let targets := name self +:+ ".fasm" in
      ret ([Some "--device"; device], targets, flag_if "--pdc" (pdc_file v),
           toks ["--fasm"; targets])
    else if arch =? "gowin" then
      let device := device (options self) in
      when (negb (truthy_opt device)) (raise (missing_device "gowin")) ;;
      let targets := name self +:+ ".pack" in
      ret ([Some "--device"; device], targets, flag_if "--cst" (cst_file v),
           toks ["--write"; targets])
    else if arch =? "fpga_interchange" then
      let targets := name self +:+ ".phys" in
      ret ([], targets, toks ["--xdc"; xdc_file v], toks ["--phys"; targets])
    else
      let targets := name self +:+ ".asc" in
      ret ([], targets, flag_if "--pcf" (pcf_file v), toks ["--asc"; targets]).

Definition configure_main (self : t) : M unit :=
    arch <- match flow_config_arch self with
            | Some a => ret a
            | None => raise (KeyError "arch")
            end ;;
    let is_interchange := arch =? "fpga_interchange" in
    let chipdb := chipdb (options self) in
    when (is_interchange && is_None chipdb)
         (raise (RuntimeError "Nextpnr-fpga_interchange require chipdb to be specified.")) ;;
    let package := package (options self) in
    v <- lift (classify is_interchange (files self)) ;;
    set_edam_files (unused_files v
                    ++ [File.mk (name self +:+ ".asc") "iceboxAscii"]) ;;
    let commands := EdaCommands.new in
    row <- arch_row self arch v ;;
    let '(arch_options, targets, constraints, output) := row in
    let depends := netlist v in
    let command := toks ["nextpnr-" +:+ arch; "-l"; "next.log"] in
    let command :=
      command ++ (arch_options
                  ++ match nextpnr_options (options self) with
                     | Some l => toks l
                     | None => []
                     end) in
    let command := command ++ constraints in
    let command :=
      if is_interchange
      then command ++ [Some "--netlist"; Some depends; Some "--chipdb"; chipdb]
      else command ++ toks ["--json"; depends] in
    let command :=
      if negb (is_None package) then command ++ [Some "--package"; package]
      else command in
    let command := command ++ output in
    let commands := EdaCommands.add commands command [targets] [depends] in
    let commands :=
      EdaCommands.add commands (command ++ toks ["--gui"]) ["build-gui"] [depends] in
    set_self_commands (EdaCommands.commands commands) ;;
    let commands := EdaCommands.set_default_target commands targets in
    write commands (path_join (work_root self) "Makefile").

End Nextpnr.

(** ** symbiflow.py *)

(** The double quote and the newline, for the messages that contain them. *)
Definition dq : string := String (ascii_of_nat 34) EmptyString.
Definition nl : string := String (ascii_of_nat 10) EmptyString.

Module Symbiflow.

  (** The keys of [self.tool_options] that the configurators read, with the
      types [get_doc] gives them. *)
Record tool_options := mkOptions
    { pnr : option string;
      arch : option string;
      package : option string;
      part : option string;
      vendor : option string;
      nextpnr_options : option string;
      vpr_options : option string;
      schema_dir : option string;
      dbroot : option string;
      fasm2bels : option bool;
      clocks : option (list (string * string)) }.

Record t := mk
    { name : string;
      toplevel : string;
      work_root : string;
      src_files : list File.t;          (* self._get_fileset_files(force_slash=True)[0] *)
      yosys : result (list Command);    (* yosys.configure(), then yosys.commands *)
      options : tool_options }.

Definition archs : list string := ["xilinx"; "fpga_interchange"].
Definition fpga_interchange_families : list string := ["xc7"].

  (** [a + b] for two values that are strings or [None]. *)
Definition opt_add (a b : option string) : M string :=
    match a, b with
    | Some x, Some y => ret (x +:+ y)
    | _, _ => raise TypeError
    end.

  (** Lines 161-165: the loop over the families, left at the first one that
      occurs in [part].  Returns [target_family] and the loop variable
      [family], which line 273 reads. *)
Fixpoint family_loop (families : list string) (part family : option string)
    : M (option string * option string) :=
    match families with
    | [] => ret (None, family)
    | fam :: rest =>
        hit <- str_in fam part ;;
        if hit then ret (Some fam, Some fam) else family_loop rest part (Some fam)
    end.

  (** The local variables of the loop of [configure_nextpnr] (lines 174-179). *)
Record nextpnr_locals := mkNextpnrLocals
    { chipdb : option string;
      device : option string;
      placement_constraints : list string;
      vpr_grid : option string;
      rr_graph : option string;
      vpr_capnp_schema : option string }.

Definition nextpnr_locals0 : nextpnr_locals :=
    mkNextpnrLocals None None [] None None None.

  (** Lines 182-196: one [if / elif] chain, every slot overwritten by the
      file seen last. *)
Definition nextpnr_classify_file (v : nextpnr_locals) (f : File.t) : nextpnr_locals :=
    let ty := File.file_type f in
    let nm := File.name f in
    if ty =? "bba" then
      mkNextpnrLocals (Some nm) (device v) (placement_constraints v) (vpr_grid v)
                      (rr_graph v) (vpr_capnp_schema v)
    else if ty =? "device" then
      mkNextpnrLocals (chipdb v) (Some nm) (placement_constraints v) (vpr_grid v)
                      (rr_graph v) (vpr_capnp_schema v)
    else if ty =? "xdc" then
      mkNextpnrLocals (chipdb v) (device v) (placement_constraints v ++ [nm]) (vpr_grid v)
                      (rr_graph v) (vpr_capnp_schema v)
    else if ty =? "RRGraph" then
      mkNextpnrLocals (chipdb v) (device v) (placement_constraints v) (vpr_grid v)
                      (Some nm) (vpr_capnp_schema v)
    else if ty =? "VPRGrid" then
      mkNextpnrLocals (chipdb v) (device v) (placement_constraints v) (Some nm)
                      (rr_graph v) (vpr_capnp_schema v)
    else if ty =? "capnp" then
      mkNextpnrLocals (chipdb v) (device v) (placement_constraints v) (vpr_grid v)
                      (rr_graph v) (Some nm)
    else v.

Definition nextpnr_classify (fs : list File.t) : nextpnr_locals :=
    fold_left nextpnr_classify_file fs nextpnr_locals0.

  (** Lines 212-217 and 397-402: three [if] statements in a row; the
      variable stays unbound when none of them fires. *)
Definition bitstream_device_of (part : option string) : M (option string) :=
    let bitstream_device := None in
    a <- str_in "xc7a" part ;;
    let bitstream_device := if a then Some "artix7" else bitstream_device in
    z <- str_in "xc7z" part ;;
    let bitstream_device := if z then Some "zynq7" else bitstream_device in
    k <- str_in "xc7k" part ;;
    let bitstream_device := if k then Some "kintex7" else bitstream_device in
    ret bitstream_device.

Definition fasm2bels_msg : string :=
    "When using fasm2bels, rr_graph, vpr_grid and database root must be provided".

Definition schema_header : string :=
    "ifndef INTERCHANGE_SCHEMA_PATH" +:+ nl +:+
    "$(error Environment variable INTERCHANGE_SCHEMA_PATH was not found. It should be set to <fpga-interchange-schema path>/interchange)"
    +:+ nl +:+ "endif" +:+ nl.

Definition rapidwright_header : string :=
    "ifndef RAPIDWRIGHT_PATH" +:+ nl +:+
    "$(error Environment variable RAPIDWRIGHT_PATH was not found. It should be set to <rapid wright path>)"
    +:+ nl +:+ "endif" +:+ nl.

  (** [xdcs]: two tokens for every placement constraint (lines 220-222). *)
Definition xdcs_of (placement_constraints : list string) : list string :=
    flat_map (fun x => ["--xdc"; x]) placement_constraints.

  (** [l[i]] *)
Definition index (l : list string) (i : nat) : M string :=
    match nth_error l i with
    | Some x => ret x
    | None => raise IndexError
    end.

Definition is_nil {A : Type} (l : list A) : bool :=
    match l with
    | [] => true
    | _ :: _ => false
    end.

  (** [any(v is None for v in [rr_graph, vpr_grid, dbroot])] *)
Definition any_None (l : list (option string)) : bool := existsb is_None l.

  (** Lines 321-326, 436-441 and 459-464: the two helper scripts of the
      fasm2bels sub-flow. *)
Definition render_fasm2bels (self : t) (partname : option string)
             (placement_constraints : list string) (vivado_params : list (string * tparam))
    : M unit :=
    render_template "symbiflow-fasm2bels-tcl.j2" "fasm2bels.tcl"
                    [("top", PStr (Some (toplevel self)));
                     ("part", PStr partname);
                     ("xdc", PStr (Some (String.concat " " placement_constraints)));
                     ("clocks", PClocks (clocks (options self)))] ;;
    render_template "vivado-sh.j2" "vivado.sh" vivado_params.

Definition configure_nextpnr (self : t) : M unit :=
    let o := options self in
    let src_files := src_files self in
    (* Yosys configuration *)
    yosys_commands <- lift (yosys self) ;;
    (* Nextpnr configuration *)
    let arch := arch o in
    when (negb (mem arch archs))
         (logger_error ("Missing or invalid " +:+ dq +:+ "arch" +:+ dq +:+ " parameter: "
                        +:+ str arch +:+ " in " +:+ dq +:+ "tool_options" +:+ dq)) ;;
    let package := package o in
    when (negb (truthy_opt package))
         (logger_error ("Missing required " +:+ dq +:+ "package" +:+ dq +:+ " parameter")) ;;
    let part := part o in
    when (negb (truthy_opt part))
         (logger_error ("Missing required " +:+ dq +:+ "part" +:+ dq +:+ " parameter")) ;;
    fam <- family_loop fpga_interchange_families part None ;;
    let '(target_family, family) := fam in
    when (is_None target_family && eq_lit arch "fpga_interchange")
         (logger_error ("Couldn't find family for part: " +:+ str part
                        +:+ ". Available families: "
                        +:+ String.concat ", " fpga_interchange_families)) ;;
    let v := nextpnr_classify src_files in
    let chipdb := chipdb v in
    let device := device v in
    let placement_constraints := placement_constraints v in
    let vpr_grid := vpr_grid v in
    let rr_graph := rr_graph v in
    let vpr_capnp_schema := vpr_capnp_schema v in
    when (negb (truthy_opt chipdb)) (logger_error "Missing required chipdb file") ;;
    when (is_nil placement_constraints) (logger_error "Missing required XDC file(s)") ;;
    when (is_None device && eq_lit arch "fpga_interchange")
         (logger_error ("Missing required " +:+ dq +:+ ".device" +:+ dq +:+ " file for "
                        +:+ dq +:+ "fpga_interchange" +:+ dq +:+ " arch")) ;;
    let nextpnr_options := match nextpnr_options o with Some s => s | None => EmptyString end in
    partname <- opt_add part package ;;
    (* Strip speedgrade string when using fpga_interchange *)
    package <- (if eq_lit arch "fpga_interchange" then
                  match package with
                  | Some p => ret (Some (split_head "-" p))
                  | None => raise AttributeError
                  end
                else ret None) ;;
    bitstream_device <- bitstream_device_of part ;;
    let depends := name self +:+ ".json" in
    let xdcs := xdcs_of placement_constraints in
    let clocks := match clocks o with Some c => c | None => [] end in
    let commands := EdaCommands.new in
    let commands := EdaCommands.set_commands commands yosys_commands in
    commands <-
      (if eq_lit arch "fpga_interchange" then
         render_template "interchange-tcl.j2" "interchange.tcl"
                         [("name", PStr (Some (name self)));
                          ("clocks", PClocks (Some clocks));
                          ("part", PStr part)] ;;
         render_template "vivado-sh.j2" "vivado.sh" [("tcl", PStr (Some "interchange"))] ;;
         when (negb (Nat.eqb (length xdcs) 2)) (raise (AssertionError xdcs)) ;;
         let schema_dir := schema_dir o in
         let commands :=
           if is_None schema_dir then EdaCommands.add_header commands schema_header
           else commands in
         let commands := EdaCommands.add_header commands rapidwright_header in
         let schema_tok :=
           match schema_dir with
           | None => Some "$(INTERCHANGE_SCHEMA_PATH)"
           | Some d => Some d
           end in
         let targets := name self +:+ ".netlist" in
         let command := toks ["python"; "-m"; "fpga_interchange.yosys_json"] in
         let command := command ++ [Some "--schema_dir"; schema_tok] in
         let command := command ++ [Some "--device"; device] in
         let command := command ++ toks ["--top"; toplevel self] in
         let command := command ++ toks [depends; targets] in
         let commands := EdaCommands.add commands command [targets] [depends] in

         let depends := name self +:+ ".netlist" in
         let targets := name self +:+ ".phys" in
         exe <- str_add "nextpnr-" arch ;;
         let command := [Some exe; Some "--chipdb"; chipdb] in
         let command := command ++ [Some "--package"; package] in
         let command := command ++ toks xdcs in
         let command := command ++ toks ["--netlist"; depends] in
         let command := command ++ toks ["--write"; name self +:+ ".routed.json"] in
         let command := command ++ toks ["--phys"; targets] in
         let command := command ++ toks [nextpnr_options] in
         let commands := EdaCommands.add commands command [targets] [depends] in

         let depends := name self +:+ ".phys" in
         let targets := name self +:+ ".fasm" in
         let command := toks ["python"; "-m"; "fpga_interchange.fasm_generator"] in
         let command := command ++ [Some "--schema_dir"; schema_tok] in
         family <- read_local "family" family ;;
         let command :=
           command ++ [Some "--family"; Some family; device;
                       Some (name self +:+ ".netlist"); Some depends; Some targets] in
         let commands := EdaCommands.add commands command [targets] [depends] in

         let depends := name self +:+ ".fasm" in
         let targets := name self +:+ ".dcp" in
         let command :=
           toks ["RAPIDWRIGHT_PATH=${RAPIDWRIGHT_PATH} ${RAPIDWRIGHT_PATH}/scripts/invoke_rapidwright.sh com.xilinx.rapidwright.interchange.PhysicalNetlistToDcp"] in
         xdc1 <- index xdcs 1 ;;
         let command :=
           command ++ toks [name self +:+ ".netlist"; name self +:+ ".phys"; xdc1;
                            name self +:+ ".dcp"] in
         let commands := EdaCommands.add commands command [targets] [depends] in

         let depends := name self +:+ ".dcp" in
         let targets := name self +:+ ".timing" in
         let command := toks ["bash vivado.sh"] in
         ret (EdaCommands.add commands command [targets] [depends])
       else
         let targets := name self +:+ ".fasm" in
         exe <- str_add "nextpnr-" arch ;;
         let command := [Some exe; Some "--chipdb"; chipdb] in
         let command := command ++ toks xdcs in
         let command := command ++ toks ["--json"; depends] in
         let command := command ++ toks ["--write"; name self +:+ ".routed.json"] in
         let command := command ++ toks ["--fasm"; targets] in
         let command := command ++ toks ["--log"; "nextpnr.log"] in
         let command := command ++ toks [nextpnr_options] in
         ret (EdaCommands.add commands command [targets] [depends])) ;;

    let depends := name self +:+ ".fasm" in
    let targets := name self +:+ ".bit" in
    bitstream_device <- read_local "bitstream_device" bitstream_device ;;
    let command := toks ["symbiflow_write_bitstream"; "-d"; bitstream_device] in
    let command := command ++ toks ["-f"; depends; "-p"; partname; "-b"; targets] in
    let commands := EdaCommands.add commands command [targets] [depends] in

    let fasm2bels := match fasm2bels o with Some b => b | None => false end in
    let dbroot := dbroot o in
    r <-
      (if fasm2bels then
         when (any_None [rr_graph; vpr_grid; dbroot]) (logger_error fasm2bels_msg) ;;
         render_fasm2bels self (Some partname) placement_constraints
                          [("tcl", PStr (Some "fasm2bels"))] ;;
         let targets := toplevel self +:+ ".bit.v" in
         let command := toks ["python -m fasm2bels"] in
         db <- add_str dbroot ("/" +:+ bitstream_device) ;;
         let command := command ++ toks ["--db_root"; db] in
         let command := command ++ toks ["--part"; partname] in
         let command := command ++ toks ["--bitread bitread"] in
         let command := command ++ toks ["--bit_file"; toplevel self +:+ ".bit"] in
         let command := command ++ toks ["--fasm_file"; toplevel self +:+ ".bit.fasm"] in
         let command := command ++ toks ["--connection_database channels.db"] in
         let command := command ++ [Some "--rr_graph"; rr_graph] in
         let command := command ++ toks ["--route_file"; toplevel self +:+ ".route"] in
         let command := command ++ [Some "--vpr_grid_map"; vpr_grid] in
         let command := command ++ [Some "--vpr_capnp_schema_dir"; vpr_capnp_schema] in
         let command := command ++ toks ["--verilog_file"; toplevel self +:+ ".bit.v"] in
         let command := command ++ toks ["--xdc_file"; toplevel self +:+ ".bit.xdc"] in
         let command := command ++ toks ["&& rm channels.db"] in
         let commands := EdaCommands.add commands command [targets] [] in
         let depends := targets in
         let targets := "timing_summary.rpt" in
         let command := toks ["bash vivado.sh"] in
         ret (EdaCommands.add commands command [targets] [depends], targets)
       else ret (commands, targets)) ;;
    let '(commands, targets) := r in
    let commands := EdaCommands.set_default_target commands targets in
    write commands (path_join (work_root self) "Makefile").

  (** The local variables of the loop of [configure_vpr] (lines 360-367). *)
Record vpr_locals := mkVprLocals
    { file_list : list string;
      timing_constraints : list string;
      pins_constraints : list string;
      vpr_placement_constraints : list string;
      vpr_vpr_grid : option string;
      vpr_rr_graph : option string;
      vpr_vpr_capnp_schema : option string }.

Definition vpr_locals0 : vpr_locals := mkVprLocals [] [] [] [] None None None.

  (** Lines 369-383: seven [if] statements in a row. *)
Definition vpr_classify_file (v : vpr_locals) (f : File.t) : vpr_locals :=
    let ty := File.file_type f in
    let nm := File.name f in
    let v := if ty =? "verilogSource" then
               mkVprLocals (file_list v ++ [nm]) (timing_constraints v) (pins_constraints v)
                           (vpr_placement_constraints v) (vpr_vpr_grid v) (vpr_rr_graph v)
                           (vpr_vpr_capnp_schema v)
             else v in
    let v := if ty =? "SDC" then
               mkVprLocals (file_list v) (timing_constraints v ++ [nm]) (pins_constraints v)
                           (vpr_placement_constraints v) (vpr_vpr_grid v) (vpr_rr_graph v)
                           (vpr_vpr_capnp_schema v)
             else v in
    let v := if ty =? "PCF" then
               mkVprLocals (file_list v) (timing_constraints v) (pins_constraints v ++ [nm])
                           (vpr_placement_constraints v) (vpr_vpr_grid v) (vpr_rr_graph v)
                           (vpr_vpr_capnp_schema v)
             else v in
    let v := if ty =? "xdc" then
               mkVprLocals (file_list v) (timing_constraints v) (pins_constraints v)
                           (vpr_placement_constraints v ++ [nm]) (vpr_vpr_grid v)
                           (vpr_rr_graph v) (vpr_vpr_capnp_schema v)
             else v in
    let v := if ty =? "RRGraph" then
               mkVprLocals (file_list v) (timing_constraints v) (pins_constraints v)
                           (vpr_placement_constraints v) (vpr_vpr_grid v) (Some nm)
                           (vpr_vpr_capnp_schema v)
             else v in
    let v := if ty =? "VPRGrid" then
               mkVprLocals (file_list v) (timing_constraints v) (pins_constraints v)
                           (vpr_placement_constraints v) (Some nm) (vpr_rr_graph v)
                           (vpr_vpr_capnp_schema v)
             else v in
    if ty =? "capnp" then
      mkVprLocals (file_list v) (timing_constraints v) (pins_constraints v)
                  (vpr_placement_constraints v) (vpr_vpr_grid v) (vpr_rr_graph v) (Some nm)
    else v.

Definition vpr_classify (fs : list File.t) : vpr_locals :=
    fold_left vpr_classify_file fs vpr_locals0.

  (** [[flag] + l if l else []] *)
Definition opts_if (flag : string) (l : list string) : list string :=
    if is_nil l then [] else flag :: l.

  (** Lines 547-574: the four quicklogic stages, each made from the bitstream. *)
Definition quicklogic_stage (self : t) (commands : EdaCommands.t) (tool ext : string)
    : EdaCommands.t :=
    let depends := toplevel self +:+ ".bit" in
    let targets := toplevel self +:+ ext in
    let command := toks [tool] in
    let command := command ++ toks [depends] in
    let command := command ++ toks [targets] in
    EdaCommands.add commands command [targets] [depends].

Definition configure_vpr (self : t) : M unit :=
    let o := options self in
    let src_files := src_files self in
    let has_vhdl := existsb (fun x => File.file_type x =? "vhdlSource") src_files in
    let has_vhdl2008 := existsb (fun x => File.file_type x =? "vhdlSource-2008") src_files in
    when (has_vhdl || has_vhdl2008) (logger_error "VHDL files are not supported in Yosys") ;;
    let v := vpr_classify src_files in
    let file_list := file_list v in
    let timing_constraints := timing_constraints v in
    let pins_constraints := pins_constraints v in
    let placement_constraints := vpr_placement_constraints v in
    let vpr_grid := vpr_vpr_grid v in
    let rr_graph := vpr_rr_graph v in
    let vpr_capnp_schema := vpr_vpr_capnp_schema v in
    let part := part o in
    let package := package o in
    let vendor := vendor o in
    when (negb (truthy_opt part))
         (logger_error ("Missing required " +:+ dq +:+ "part" +:+ dq +:+ " parameter")) ;;
    when (negb (truthy_opt package))
         (logger_error ("Missing required " +:+ dq +:+ "package" +:+ dq +:+ " parameter")) ;;
    vars <-
      (if eq_lit vendor "xilinx" then
         bitstream_device <- bitstream_device_of part ;;
         partname <- opt_add part package ;;
         (* a35t are in fact a50t; partname keeps 35 *)
         let part := if eq_lit part "xc7a35t" then Some "xc7a50t" else part in
         let device_suffix := "test" in
         ret (part, Some (Some partname), Some device_suffix, bitstream_device)
       else if eq_lit vendor "quicklogic" then
         let partname := package in
         let device_suffix := "wlcsp" in
         p_ <- add_str part "_" ;;
         let bitstream_device := p_ +:+ device_suffix in
         ret (part, Some partname, Some device_suffix, Some bitstream_device)
       else ret (part, None, None, None)) ;;
    let '(part, partname, device_suffix, bitstream_device) := vars in
    let _vo := vpr_options o in
    let vpr_options :=
      if truthy_opt _vo then ["--additional_vpr_options"; dq +:+ str _vo +:+ dq] else [] in
    let pcf_opts := opts_if "-p" pins_constraints in
    let sdc_opts := opts_if "-s" timing_constraints in
    let xdc_opts := opts_if "-x" placement_constraints in
    let fasm2bels := match fasm2bels o with Some b => b | None => false end in
    let dbroot := dbroot o in
    when fasm2bels
         (when (any_None [rr_graph; vpr_grid; dbroot]) (logger_error fasm2bels_msg) ;;
          partname <- read_local "partname" partname ;;
          render_fasm2bels self partname placement_constraints []) ;;
    when fasm2bels
         (when (any_None [rr_graph; vpr_grid; dbroot]) (logger_error fasm2bels_msg) ;;
          partname <- read_local "partname" partname ;;
          render_fasm2bels self partname placement_constraints
                           [("tcl", PStr (Some "fasm2bels"))]) ;;
    let commands := EdaCommands.new in
    (* Add vendor variables *)
    let commands := EdaCommands.add_var commands ("export EDALIZE_VENDOR=" +:+ str vendor) in
    let commands := EdaCommands.add_var commands ("export EDALIZE_PART=" +:+ str part) in
    (* Synthesis *)
    let targets := toplevel self +:+ ".eblif" in
    let command := toks ["symbiflow_synth"; "-t"; toplevel self] in
    let command := command ++ toks ("-v" :: file_list) in
    bitstream_device <- read_local "bitstream_device" bitstream_device ;;
    let command := command ++ toks ["-d"; bitstream_device] in
    let command := command ++ toks (if is_nil pcf_opts then ["-p"] else pcf_opts) in
    partname <- read_local "partname" partname ;;
    let command := command ++ [Some "-P"; partname] in
    let command :=
      if eq_lit vendor "quicklogic" && negb (is_nil pins_constraints)
      then command ++ toks pcf_opts else command in
    let command := command ++ toks xdc_opts in
    let commands := EdaCommands.add commands command [targets] [] in
    (* P&R *)
    let eblif_opt := ["-e"; toplevel self +:+ ".eblif"] in
    p_ <- add_str part "_" ;;
    device_suffix <- read_local "device_suffix" device_suffix ;;
    let device_opt := ["-d"; p_ +:+ device_suffix] in

    let depends := toplevel self +:+ ".eblif" in
    let targets := toplevel self +:+ ".net" in
    let command := toks (["symbiflow_pack"] ++ eblif_opt ++ device_opt ++ sdc_opts
                         ++ vpr_options) in
    let commands := EdaCommands.add commands command [targets] [depends] in

    let depends := toplevel self +:+ ".net" in
    let targets := toplevel self +:+ ".place" in
    let command := toks (["symbiflow_place"] ++ eblif_opt ++ device_opt) in
    let command := command ++ [Some "-n"; Some depends; Some "-P"; partname] in
    let command := command ++ toks (sdc_opts ++ pcf_opts ++ vpr_options) in
    let commands := EdaCommands.add commands command [targets] [depends] in

    let depends := toplevel self +:+ ".place" in
    let targets := toplevel self +:+ ".route" in
    let command := toks (["symbiflow_route"] ++ eblif_opt ++ device_opt) in
    let command := command ++ toks (sdc_opts ++ vpr_options) in
    let commands := EdaCommands.add commands command [targets] [depends] in

    let depends := toplevel self +:+ ".route" in
    let targets := toplevel self +:+ ".fasm" in
    let command := toks (["symbiflow_write_fasm"] ++ eblif_opt ++ device_opt) in
    let command := command ++ toks (sdc_opts ++ vpr_options) in
    let commands := EdaCommands.add commands command [targets] [depends] in

    let depends := toplevel self +:+ ".fasm" in
    let targets := toplevel self +:+ ".bit" in
    let command := toks (["symbiflow_write_bitstream"] ++ ["-d"; bitstream_device]) in
    let command := command ++ toks ["-f"; depends] in
    let command :=
      command ++ [Some (if eq_lit vendor "xilinx" then "-p" else "-P"); partname] in
    let command := command ++ toks ["-b"; targets] in
    let commands := EdaCommands.add commands command [targets] [depends] in

    r <-
      (if fasm2bels then
         let targets := toplevel self +:+ ".bit.v" in
         let command := toks ["python -m fasm2bels"] in
         db <- add_str dbroot ("/" +:+ bitstream_device) ;;
         let command := command ++ toks ["--db_root"; db] in
         let command := command ++ [Some "--part"; partname] in
         let command := command ++ toks ["--bitread bitread"] in
         let command := command ++ toks ["--bit_file"; toplevel self +:+ ".bit"] in
         let command := command ++ toks ["--fasm_file"; toplevel self +:+ ".bit.fasm"] in
         let command := command ++ toks ["--eblif"; toplevel self +:+ ".eblif"] in
         let command := command ++ toks ["--connection_database channels.db"] in
         let command := command ++ [Some "--rr_graph"; rr_graph] in
         let command := command ++ toks ["--route_file"; toplevel self +:+ ".route"] in
         let command := command ++ [Some "--vpr_grid_map"; vpr_grid] in
         let command := command ++ [Some "--vpr_capnp_schema_dir"; vpr_capnp_schema] in
         let command :=
           if negb (is_nil pins_constraints)
           then command ++ toks ["--pcf " +:+ String.concat " " pins_constraints]
           else command in
         let command := command ++ toks ["--verilog_file"; toplevel self +:+ ".bit.v"] in
         let command := command ++ toks ["--xdc_file"; toplevel self +:+ ".bit.xdc"] in
         let command := command ++ toks ["&& rm channels.db"] in
         let commands := EdaCommands.add commands command [targets] [] in
         let depends := targets in
         let targets := "timing_summary.rpt" in
         let command := toks ["bash vivado.sh"] in
         ret (EdaCommands.add commands command [targets] [depends], targets)
       else ret (commands, targets)) ;;
    let '(commands, targets) := r in

    let commands :=
      if eq_lit vendor "quicklogic" then
        let commands := quicklogic_stage self commands "symbiflow_write_binary" ".bin" in
        let commands := quicklogic_stage self commands "symbiflow_write_bitheader" ".h" in
        let commands :=
          quicklogic_stage self commands "symbiflow_write_openocd" ".openocd.cfg" in
        let commands := quicklogic_stage self commands "symbiflow_write_jlink" ".jlink" in
        EdaCommands.set_default_target
          commands
          (toplevel self +:+ ".bin" +:+ " " +:+ toplevel self +:+ ".h" +:+ " "
           +:+ toplevel self +:+ ".openocd.cfg")
      else EdaCommands.set_default_target commands targets in
    write commands (path_join (work_root self) "Makefile").

Definition configure_main (self : t) : M unit :=
    let pnr := pnr (options self) in
    if eq_lit pnr "nextpnr" then configure_nextpnr self
    else if mem pnr ["vtr"; "vpr"] then configure_vpr self
    else logger_error ("Unsupported PnR tool: " +:+ str pnr).

End Symbiflow.

(** * Vocabulary of the specification *)

(** [wp m Q w]: running [m] from [w] ends in a result and a world that
    satisfy [Q]. *)
Definition wp {A} (m : M A) (Q : result A -> world -> Prop) (w : world) : Prop :=
  Q (fst (m w)) (snd (m w)).

(** The world after [when b (logger_error msg)]. *)
Definition logged (b : bool) (msg : string) (w : world) : world :=
  if b then add_log w msg else w.

(** The log only grows. *)
Definition log_extends (w w' : world) : Prop := exists l, log w' = log w ++ l.

(** [d] is an output of one of the stages in [l]. *)
Definition has_output (l : list Command) (d : string) : Prop :=
  exists c, In c l /\ In d (targets c).

(** ** Roles of the classifiers *)

(** The singular constraint and netlist roles of [Nextpnr.configure_main]
    whose duplicate message reads the slot it guards: the text of the
    message and the slot.  (The LPF branch reads another slot.) *)
Definition role_slot (ty : string) : option (string * (Nextpnr.locals -> string)) :=
  if ty =? "CST" then Some ("CST file", Nextpnr.cst_file)
  else if ty =? "PDC" then Some ("PDC file", Nextpnr.pdc_file)
  else if ty =? "PCF" then Some ("PCF file", Nextpnr.pcf_file)
  else if ty =? "XDC" then Some ("XDC file", Nextpnr.xdc_file)
  else if ty =? "QSF" then Some ("QSF file", Nextpnr.qsf_file)
  else if ty =? "jsonNetlist" then Some ("netlist", Nextpnr.netlist)
  else None.

(** The singular roles of [Symbiflow.configure_nextpnr] and their slots. *)
Definition nextpnr_role_slot (ty : string)
  : option (Symbiflow.nextpnr_locals -> option string) :=
  if ty =? "bba" then Some Symbiflow.chipdb
  else if ty =? "device" then Some Symbiflow.device
  else if ty =? "RRGraph" then Some Symbiflow.rr_graph
  else if ty =? "VPRGrid" then Some Symbiflow.vpr_grid
  else if ty =? "capnp" then Some Symbiflow.vpr_capnp_schema
  else None.

(** The types that the last [if / elif / else] of the loop of
    [Nextpnr.configure_main] keeps out of [unused_files]. *)
Definition leaves_unused (f : File.t) : bool :=
  negb ((File.file_type f =? "QSF") || (File.file_type f =? "jsonNetlist")
        || (File.file_type f =? "fpgaInterchangeNetlist")).

(** The architectures with a row of their own in [Nextpnr.configure_main]. *)
Definition known_arch (a : string) : bool :=
  existsb (String.eqb a) ["ecp5"; "mistral"; "nexus"; "gowin"; "fpga_interchange"].

(** The architectures whose row asks for the [device] option. *)
Definition needs_device (a : string) : bool :=
  existsb (String.eqb a) ["mistral"; "nexus"; "gowin"].

(** [part] names one of the three 7-series families that bind
    [bitstream_device]. *)
Definition names_bitstream_device (p : string) : bool :=
  contains "xc7a" p || contains "xc7z" p || contains "xc7k" p.

(** The number of files with the placement-constraint type of symbiflow.py. *)
Definition count_xdc (fs : list File.t) : nat :=
  length (filter (fun f => File.file_type f =? "xdc") fs).

(** The default target that the quicklogic branch of [configure_vpr] sets. *)
Definition quicklogic_default (self : Symbiflow.t) : string :=
  Symbiflow.toplevel self +:+ ".bin" +:+ " " +:+ Symbiflow.toplevel self +:+ ".h" +:+ " "
  +:+ Symbiflow.toplevel self +:+ ".openocd.cfg".

(** ** Messages of symbiflow.py *)

(** ['Missing required "<key>" parameter'] *)
Definition missing_param_msg (key : string) : string :=
  "Missing required " +:+ dq +:+ key +:+ dq +:+ " parameter".

(** ['Missing or invalid "arch" parameter: {} in "tool_options"'.format(arch)] *)
Definition invalid_arch_msg (arch : option string) : string :=
  "Missing or invalid " +:+ dq +:+ "arch" +:+ dq +:+ " parameter: " +:+ str arch
  +:+ " in " +:+ dq +:+ "tool_options" +:+ dq.

(** ["Unsupported PnR tool: {}".format(pnr)] *)
Definition unsupported_pnr_msg (pnr : option string) : string :=
  "Unsupported PnR tool: " +:+ str pnr.

(** The message of a check, when its condition holds. *)
Definition report (b : bool) (msg : string) : list string := if b then [msg] else [].

Definition family_msg (part : option string) : string :=
  "Couldn't find family for part: " +:+ str part +:+ ". Available families: "
  +:+ String.concat ", " Symbiflow.fpga_interchange_families.

Definition device_file_msg : string :=
  "Missing required " +:+ dq +:+ ".device" +:+ dq +:+ " file for " +:+ dq
  +:+ "fpga_interchange" +:+ dq +:+ " arch".

(** The violations that [configure_nextpnr] detects, as the messages of its
    checks (lines 147-205), in the order of the checks.  The checks after
    the family loop are reached when [part] is a string. *)
Definition nextpnr_detected (self : Symbiflow.t) : list string :=
  let o := Symbiflow.options self in
  let v := Symbiflow.nextpnr_classify (Symbiflow.src_files self) in
  report (negb (mem (Symbiflow.arch o) Symbiflow.archs)) (invalid_arch_msg (Symbiflow.arch o))
  ++ report (negb (truthy_opt (Symbiflow.package o))) (missing_param_msg "package")
  ++ report (negb (truthy_opt (Symbiflow.part o))) (missing_param_msg "part")
  ++ match Symbiflow.part o with
     | None => []
     | Some p =>
         report (negb (contains "xc7" p) && eq_lit (Symbiflow.arch o) "fpga_interchange")
                (family_msg (Symbiflow.part o))
         ++ report (negb (truthy_opt (Symbiflow.chipdb v))) "Missing required chipdb file"
         ++ report (Symbiflow.is_nil (Symbiflow.placement_constraints v))
                   "Missing required XDC file(s)"
         ++ report (is_None (Symbiflow.device v) && eq_lit (Symbiflow.arch o) "fpga_interchange")
                   device_file_msg
     end.

(** The same for [configure_vpr] (lines 358-359 and 391-394). *)
Definition vpr_detected (self : Symbiflow.t) : list string :=
  let o := Symbiflow.options self in
  report (existsb (fun x => File.file_type x =? "vhdlSource") (Symbiflow.src_files self)
          || existsb (fun x => File.file_type x =? "vhdlSource-2008") (Symbiflow.src_files self))
         "VHDL files are not supported in Yosys"
  ++ report (negb (truthy_opt (Symbiflow.part o))) (missing_param_msg "part")
  ++ report (negb (truthy_opt (Symbiflow.package o))) (missing_param_msg "package").

(** And for [Symbiflow.configure_main], by the configurator it selects. *)
Definition detected (self : Symbiflow.t) : list string :=
  if eq_lit (Symbiflow.pnr (Symbiflow.options self)) "nextpnr" then nextpnr_detected self
  else if mem (Symbiflow.pnr (Symbiflow.options self)) ["vtr"; "vpr"] then vpr_detected self
  else [unsupported_pnr_msg (Symbiflow.pnr (Symbiflow.options self))].

(** The value of the [fasm2bels] option, [False] when the key is absent. *)
Definition fasm2bels_enabled (self : Symbiflow.t) : bool :=
  match Symbiflow.fasm2bels (Symbiflow.options self) with
  | Some b => b
  | None => false
  end.



(** The [pnr] option selects one of the two configurators. *)
Definition supported_pnr (self : Symbiflow.t) : bool :=
  eq_lit (Symbiflow.pnr (Symbiflow.options self)) "nextpnr"
  || mem (Symbiflow.pnr (Symbiflow.options self)) ["vtr"; "vpr"].


(** The two identifiers that Symbiflow asks for, by key. *)
Definition identifier (self : Symbiflow.t) (key : string) : option string :=
  if key =? "part" then Symbiflow.part (Symbiflow.options self)
  else Symbiflow.package (Symbiflow.options self).

(** The run takes the xilinx bitstream path: nextpnr, or vpr for the
    xilinx vendor. *)
Definition xilinx_bitstream_path (self : Symbiflow.t) : bool :=
  eq_lit (Symbiflow.pnr (Symbiflow.options self)) "nextpnr"
  || (mem (Symbiflow.pnr (Symbiflow.options self)) ["vtr"; "vpr"]
      && eq_lit (Symbiflow.vendor (Symbiflow.options self)) "xilinx").

(** A string for [arch], with exactly one xdc file when it is
    fpga_interchange: what lets [configure_nextpnr] get to the bitstream
    stage. *)
Definition arch_reaches_bitstream (self : Symbiflow.t) : Prop :=
  exists a, Symbiflow.arch (Symbiflow.options self) = Some a
            /\ (a = "fpga_interchange" -> count_xdc (Symbiflow.src_files self) = 1).

(** ** Sample inputs *)

Definition cst_a : File.t := File.mk "a.cst" "CST".

Definition cst_b : File.t := File.mk "b.cst" "CST".



Definition pcf_self : Nextpnr.t :=
  Nextpnr.mk "top" "build"
    [File.mk "pins.pcf" "PCF"; File.mk "top.json" "jsonNetlist"]
    (Some "ice40")
    (Nextpnr.mkOptions None None None None).

Definition foo_arch_self : Nextpnr.t :=
  Nextpnr.mk "top" "build" [File.mk "top.json" "jsonNetlist"] (Some "foo")
    (Nextpnr.mkOptions None None None None).

Definition gowin_self : Nextpnr.t :=
  Nextpnr.mk "top" "build" [File.mk "top.json" "jsonNetlist"] (Some "gowin")
    (Nextpnr.mkOptions None None None None).


(** Options of a Symbiflow run: [pnr], [arch], [package], [part], [vendor],
    [fasm2bels] and [dbroot]; the other keys are absent. *)
Definition sf_options (pnr arch package part vendor : option string)
           (fasm2bels : option bool) (dbroot : option string) : Symbiflow.tool_options :=
  Symbiflow.mkOptions pnr arch package part vendor None None None dbroot fasm2bels None.

Definition sf_self (fs : list File.t) (o : Symbiflow.tool_options) : Symbiflow.t :=
  Symbiflow.mk "top" "top" "build" fs (Ok []) o.

Definition xilinx_files : list File.t :=
  [File.mk "chipdb.bba" "bba"; File.mk "top.xdc" "xdc"].


Definition two_bba_self : Symbiflow.t :=
  sf_self [File.mk "a.bba" "bba"; File.mk "b.bba" "bba"; File.mk "top.xdc" "xdc"]
    (sf_options (Some "nextpnr") (Some "xilinx") (Some "clg400-1") (Some "xc7a50t") None
                None None).

Definition quartus_self : Symbiflow.t :=
  sf_self xilinx_files
    (sf_options (Some "quartus") (Some "xilinx") (Some "clg400-1") (Some "xc7a50t") None
                None None).

Definition quicklogic_self : Symbiflow.t :=
  sf_self [File.mk "top.v" "verilogSource"]
    (sf_options (Some "vpr") None (Some "PD64") (Some "ql-eos-s3") (Some "quicklogic") None
                None).



Definition fasm2bels_no_rr_graph_self : Symbiflow.t :=
  sf_self [File.mk "top.v" "verilogSource"; File.mk "grid.csv" "VPRGrid"]
    (sf_options (Some "vpr") None (Some "csg324-1") (Some "xc7a35t") (Some "xilinx")
                (Some true) (Some "/db")).

Definition no_fasm2bels_self : Symbiflow.t :=
  sf_self [File.mk "top.v" "verilogSource"]
    (sf_options (Some "vpr") None (Some "csg324-1") (Some "xc7a35t") (Some "xilinx")
                None None).

Definition no_part_self : Symbiflow.t :=
  sf_self xilinx_files
    (sf_options (Some "nextpnr") (Some "xilinx") (Some "clg400-1") None None None None).

Definition spartan_self : Symbiflow.t :=
  sf_self xilinx_files
    (sf_options (Some "nextpnr") (Some "xilinx") (Some "csga324-1") (Some "xc7s50") None
                None None).

Definition artix_self : Symbiflow.t :=
  sf_self xilinx_files
    (sf_options (Some "nextpnr") (Some "xilinx") (Some "clg400-1") (Some "xc7a50t") None
                None None).

Definition interchange_two_xdc_self : Symbiflow.t :=
  sf_self [File.mk "chipdb.bba" "bba"; File.mk "xc7a35t.device" "device";
           File.mk "a.xdc" "xdc"; File.mk "b.xdc" "xdc"]
    (sf_options (Some "nextpnr") (Some "fpga_interchange") (Some "cpg236-1")
                (Some "xc7a35t") None None None).

(** ** Vocabulary of the further properties *)

(** *** Files by type *)

(** The names of the files of [fs] with the tag [ty], in order. *)
Definition names_of (ty : string) (fs : list File.t) : list string :=
  map File.name (filter (fun f => File.file_type f =? ty) fs).

(** The number of files of [fs] with the tag [ty]. *)
Definition count_type (ty : string) (fs : list File.t) : nat :=
  length (filter (fun f => File.file_type f =? ty) fs).

(** The name of the last file of [fs] with the tag [ty]; [acc] if there is
    none. *)
Definition last_from (ty : string) (fs : list File.t) (acc : option string)
  : option string :=
  fold_left (fun acc f => if File.file_type f =? ty then Some (File.name f) else acc)
            fs acc.

Definition last_of (ty : string) (fs : list File.t) : option string :=
  last_from ty fs None.

(** The same for the slots of nextpnr.py, which start as the empty string. *)
Definition pick (ty : string) (f : File.t) (acc : string) : string :=
  if File.file_type f =? ty then File.name f else acc.

Definition last_name_from (ty : string) (fs : list File.t) (acc : string) : string :=
  fold_left (fun acc f => pick ty f acc) fs acc.

Definition last_name (ty : string) (fs : list File.t) : string :=
  last_name_from ty fs EmptyString.

(** Every file has a non-empty name. *)
Definition named (fs : list File.t) : bool :=
  forallb (fun f => truthy (File.name f)) fs.

(** *** The loop of [Nextpnr.configure_main] *)

(** The tags whose slot is guarded by a duplicate check. *)
Definition singular_types : list string :=
  ["CST"; "LPF"; "PDC"; "PCF"; "XDC"; "QSF"; "jsonNetlist"].

(** The netlist format that the variant refuses. *)
Definition refused_netlist (is_interchange : bool) : string :=
  if is_interchange then "jsonNetlist" else "fpgaInterchangeNetlist".

(** At most one file for each guarded tag, and no netlist of the refused
    format. *)
Definition classifiable (is_interchange : bool) (fs : list File.t) : Prop :=
  (forall ty, In ty singular_types -> count_type ty fs <= 1)
  /\ count_type (refused_netlist is_interchange) fs = 0.

(** A slot that holds a name counts for one file of its tag. *)
Definition load (s : string) : nat := if truthy s then 1 else 0.

(** [classifiable] for the rest [l] of the files, from the slots [v]. *)
Definition fits (is_interchange : bool) (v : Nextpnr.locals) (l : list File.t) : Prop :=
  count_type "CST" l + load (Nextpnr.cst_file v) <= 1
  /\ count_type "LPF" l + load (Nextpnr.lpf_file v) <= 1
  /\ count_type "PDC" l + load (Nextpnr.pdc_file v) <= 1
  /\ count_type "PCF" l + load (Nextpnr.pcf_file v) <= 1
  /\ count_type "XDC" l + load (Nextpnr.xdc_file v) <= 1
  /\ count_type "QSF" l + load (Nextpnr.qsf_file v) <= 1
  /\ count_type "jsonNetlist" l + load (Nextpnr.netlist v) <= 1
  /\ count_type (refused_netlist is_interchange) l = 0.

(** *** [Nextpnr.configure_main] *)

(** The extension of the target in each row of the architecture table. *)
Definition arch_ext (a : string) : string :=
  if a =? "ecp5" then ".config"
  else if a =? "mistral" then ".rbf"
  else if a =? "nexus" then ".fasm"
  else if a =? "gowin" then ".pack"
  else if a =? "fpga_interchange" then ".phys"
  else ".asc".

(** What [Nextpnr.configure_main] asks of its inputs: the [arch] key, the
    chip database under fpga_interchange, files that classify, and the
    [device] option in the rows that read it. *)
Definition nextpnr_configurable (self : Nextpnr.t) : Prop :=
  exists a v,
    Nextpnr.flow_config_arch self = Some a
    /\ ((a =? "fpga_interchange") && is_None (Nextpnr.chipdb (Nextpnr.options self))) = false
    /\ Nextpnr.classify (a =? "fpga_interchange") (Nextpnr.files self) = Ok v
    /\ (needs_device a = true
        -> truthy_opt (Nextpnr.device (Nextpnr.options self)) = true).

(** What lines 126-130 leave in [self.edam["files"]]. *)
Definition edam_output (self : Nextpnr.t) : list File.t :=
  filter leaves_unused (Nextpnr.files self)
  ++ [File.mk (Nextpnr.name self +:+ ".asc") "iceboxAscii"].

(** *** Graphs *)

(** Every dependency of a stage of [l] is in [avail] or is an output of a
    stage registered before it. *)
Fixpoint closed_chain (avail : list string) (l : list Command) : Prop :=
  match l with
  | [] => True
  | c :: l' =>
      (forall d, In d (depends c) -> In d avail)
      /\ closed_chain (avail ++ targets c) l'
  end.

(** *** [Symbiflow.configure_nextpnr] *)

(** What [configure_nextpnr] asks of its inputs. *)
Definition nextpnr_ready (self : Symbiflow.t) : Prop :=
  (exists c, Symbiflow.yosys self = Ok c)
  /\ (exists p, Symbiflow.part (Symbiflow.options self) = Some p
                /\ names_bitstream_device p = true)
  /\ (exists k, Symbiflow.package (Symbiflow.options self) = Some k)
  /\ (exists a, Symbiflow.arch (Symbiflow.options self) = Some a
                /\ (a = "fpga_interchange" -> count_xdc (Symbiflow.src_files self) = 1))
  /\ (fasm2bels_enabled self = true
      -> Symbiflow.dbroot (Symbiflow.options self) <> None).

(** The outputs of the stages that [configure_nextpnr] registers, in order. *)
Definition nextpnr_stage_targets (self : Symbiflow.t) : list string :=
  (if eq_lit (Symbiflow.arch (Symbiflow.options self)) "fpga_interchange"
   then [Symbiflow.name self +:+ ".netlist"; Symbiflow.name self +:+ ".phys";
         Symbiflow.name self +:+ ".fasm"; Symbiflow.name self +:+ ".dcp";
         Symbiflow.name self +:+ ".timing"]
   else [Symbiflow.name self +:+ ".fasm"])
  ++ [Symbiflow.name self +:+ ".bit"]
  ++ (if fasm2bels_enabled self
      then [Symbiflow.toplevel self +:+ ".bit.v"; "timing_summary.rpt"]
      else []).

Definition nextpnr_default_target (self : Symbiflow.t) : string :=
  if fasm2bels_enabled self then "timing_summary.rpt"
  else Symbiflow.name self +:+ ".bit".

Definition nextpnr_header (self : Symbiflow.t) : string :=
  if eq_lit (Symbiflow.arch (Symbiflow.options self)) "fpga_interchange"
  then (if is_None (Symbiflow.schema_dir (Symbiflow.options self))
        then Symbiflow.schema_header else EmptyString)
       +:+ Symbiflow.rapidwright_header
  else EmptyString.

(** The files that the run renders from templates, in order. *)
Definition nextpnr_outfiles (self : Symbiflow.t) : list string :=
  (if eq_lit (Symbiflow.arch (Symbiflow.options self)) "fpga_interchange"
   then ["interchange.tcl"; "vivado.sh"] else [])
  ++ (if fasm2bels_enabled self then ["fasm2bels.tcl"; "vivado.sh"] else []).

(** The device family that the three tests on [part] leave in
    [bitstream_device] when one of them fires: the last that fires wins. *)
Definition bitstream_family (p : string) : string :=
  if contains "xc7k" p then "kintex7"
  else if contains "xc7z" p then "zynq7"
  else "artix7".

(** *** [Symbiflow.configure_vpr] *)

(** What [configure_vpr] asks of the options, by vendor. *)
Definition vpr_vendor_ready (self : Symbiflow.t) : Prop :=
  (Symbiflow.vendor (Symbiflow.options self) = Some "xilinx"
   /\ exists p k, Symbiflow.part (Symbiflow.options self) = Some p
                  /\ names_bitstream_device p = true
                  /\ Symbiflow.package (Symbiflow.options self) = Some k)
  \/ (Symbiflow.vendor (Symbiflow.options self) = Some "quicklogic"
      /\ exists p, Symbiflow.part (Symbiflow.options self) = Some p).

Definition vpr_ready (self : Symbiflow.t) : Prop :=
  vpr_vendor_ready self
  /\ (fasm2bels_enabled self = true
      -> Symbiflow.dbroot (Symbiflow.options self) <> None).

(** The outputs of the stages that [configure_vpr] registers, in order. *)
Definition vpr_stage_targets (self : Symbiflow.t) : list string :=
  [Symbiflow.toplevel self +:+ ".eblif"; Symbiflow.toplevel self +:+ ".net";
   Symbiflow.toplevel self +:+ ".place"; Symbiflow.toplevel self +:+ ".route";
   Symbiflow.toplevel self +:+ ".fasm"; Symbiflow.toplevel self +:+ ".bit"]
  ++ (if fasm2bels_enabled self
      then [Symbiflow.toplevel self +:+ ".bit.v"; "timing_summary.rpt"]
      else [])
  ++ (if eq_lit (Symbiflow.vendor (Symbiflow.options self)) "quicklogic"
      then [Symbiflow.toplevel self +:+ ".bin"; Symbiflow.toplevel self +:+ ".h";
            Symbiflow.toplevel self +:+ ".openocd.cfg";
            Symbiflow.toplevel self +:+ ".jlink"]
      else []).

Definition vpr_default_target (self : Symbiflow.t) : string :=
  if eq_lit (Symbiflow.vendor (Symbiflow.options self)) "quicklogic"
  then quicklogic_default self
  else if fasm2bels_enabled self then "timing_summary.rpt"
       else Symbiflow.toplevel self +:+ ".bit".

(** The part that names the device of the xilinx flow: xc7a35t stands for
    xc7a50t (lines 406-409). *)
Definition device_part (p : string) : string :=
  if p =? "xc7a35t" then "xc7a50t" else p.

(** The part that [configure_vpr] exports. *)
Definition vpr_part (self : Symbiflow.t) : option string :=
  if eq_lit (Symbiflow.vendor (Symbiflow.options self)) "xilinx"
     && eq_lit (Symbiflow.part (Symbiflow.options self)) "xc7a35t"
  then Some "xc7a50t"
  else Symbiflow.part (Symbiflow.options self).

Definition vpr_variables (self : Symbiflow.t) : list string :=
  ["export EDALIZE_VENDOR=" +:+ str (Symbiflow.vendor (Symbiflow.options self));
   "export EDALIZE_PART=" +:+ str (vpr_part self)].

Definition vpr_outfiles (self : Symbiflow.t) : list string :=
  if fasm2bels_enabled self
  then ["fasm2bels.tcl"; "vivado.sh"; "fasm2bels.tcl"; "vivado.sh"]
  else [].

(** The four place-and-route stages of [configure_vpr]: tool, extension of
    the output, extension of the dependency. *)
Definition vpr_flow_stages : list (string * string * string) :=
  [("symbiflow_pack", ".net", ".eblif"); ("symbiflow_place", ".place", ".net");
   ("symbiflow_route", ".route", ".place"); ("symbiflow_write_fasm", ".fasm", ".route")].

(** *** [Symbiflow.configure_main] *)

(** What the configurator that [pnr] selects asks of its inputs; nothing,
    when [pnr] selects none. *)
Definition symbiflow_ready (self : Symbiflow.t) : Prop :=
  if eq_lit (Symbiflow.pnr (Symbiflow.options self)) "nextpnr" then nextpnr_ready self
  else if mem (Symbiflow.pnr (Symbiflow.options self)) ["vtr"; "vpr"] then vpr_ready self
  else True.

(** *** Further sample inputs *)

Definition ecp5_self : Nextpnr.t :=
  Nextpnr.mk "top" "build"
    [File.mk "pins.lpf" "LPF"; File.mk "top.json" "jsonNetlist"]
    (Some "ecp5")
    (Nextpnr.mkOptions None (Some "CABGA381") None None).

Definition interchange_ok_self : Nextpnr.t :=
  Nextpnr.mk "top" "build"
    [File.mk "pins.xdc" "XDC"; File.mk "top.netlist" "fpgaInterchangeNetlist"]
    (Some "fpga_interchange")
    (Nextpnr.mkOptions (Some "xc7a35t.bin") (Some "cpg236") None None).

Definition interchange_one_xdc_self : Symbiflow.t :=
  sf_self [File.mk "chipdb.bba" "bba"; File.mk "xc7a35t.device" "device";
           File.mk "a.xdc" "xdc"]
    (sf_options (Some "nextpnr") (Some "fpga_interchange") (Some "cpg236-1")
                (Some "xc7a35t") None None None).

Definition lattice_vpr_self : Symbiflow.t :=
  sf_self [File.mk "top.v" "verilogSource"]
    (sf_options (Some "vpr") None (Some "CABGA381") (Some "LFE5U-85F") (Some "lattice")
                None None).

Definition mixed_files : list File.t :=
  [File.mk "top.v" "verilogSource"; File.mk "pkg.sv" "systemVerilogSource";
   File.mk "a.xdc" "xdc"; File.mk "clk.sdc" "SDC"; File.mk "pins.pcf" "PCF";
   File.mk "b.xdc" "xdc"; File.mk "rr1.bin" "RRGraph"; File.mk "rr2.bin" "RRGraph"].

Definition no_netlist_self : Nextpnr.t :=
  Nextpnr.mk "top" "build" [File.mk "pins.pcf" "PCF"] (Some "ice40")
    (Nextpnr.mkOptions None None None None).
(** * Properties of the configurators *)

(** ** A weakest-precondition reading of runs *)

Section WpRules.
Context {A B : Type}.

Lemma wp_bind (m : M A) (k : A -> M B) Q w :
    wp m (fun r w' => match r with
                      | Ok a => wp (k a) Q w'
                      | Raise e => Q (Raise e) w'
                      end) w ->
    wp (bind m k) Q w.
  Proof.
    unfold wp, bind. destruct (m w) as [[a | e] w']; simpl; auto.
  Qed.

Lemma wp_let (e : A) (f : A -> M B) Q w :
    (forall x, x = e -> wp (f x) Q w) -> wp (let x := e in f x) Q w.
  Proof. intros H. exact (H e eq_refl). Qed.

Lemma wp_ret (a : A) Q w : Q (Ok a) w -> wp (ret a) Q w.
  Proof. exact (fun H => H). Qed.

Lemma wp_raise (e : exn) (Q : result A -> world -> Prop) w :
    Q (Raise e) w -> wp (raise e) Q w.
  Proof. exact (fun H => H). Qed.

Lemma wp_lift (r : result A) Q w : Q r w -> wp (lift r) Q w.
  Proof. exact (fun H => H). Qed.

Lemma wp_if (b : bool) (m1 m2 : M A) Q w :
    (b = true -> wp m1 Q w) -> (b = false -> wp m2 Q w) ->
    wp (if b then m1 else m2) Q w.
  Proof. destruct b; intros H1 H2; [exact (H1 eq_refl) | exact (H2 eq_refl)]. Qed.

Lemma wp_read_local var (x : option A) (Q : result A -> world -> Prop) w :
    (forall v, x = Some v -> Q (Ok v) w) ->
    (x = None -> Q (Raise (NameError var)) w) ->
    wp (read_local var x) Q w.
  Proof. destruct x; unfold wp; simpl; auto. Qed.
End WpRules.

Section WpPrimitives.
Variable w : world.

Lemma wp_when (b : bool) (m : M unit) (Q : result unit -> world -> Prop) :
    (b = true -> wp m Q w) -> (b = false -> Q (Ok tt) w) -> wp (when b m) Q w.
  Proof. destruct b; intros H1 H2; [exact (H1 eq_refl) | exact (H2 eq_refl)]. Qed.

Lemma wp_when_log b msg (Q : result unit -> world -> Prop) :
    Q (Ok tt) (logged b msg w) -> wp (when b (logger_error msg)) Q w.
  Proof. destruct b; exact (fun H => H). Qed.

Lemma wp_logger_error msg (Q : result unit -> world -> Prop) :
    Q (Ok tt) (add_log w msg) -> wp (logger_error msg) Q w.
  Proof. exact (fun H => H). Qed.

Lemma wp_render_template tpl out ps (Q : result unit -> world -> Prop) :
    Q (Ok tt) (add_rendering w (mkRendering tpl out ps)) ->
    wp (render_template tpl out ps) Q w.
  Proof. exact (fun H => H). Qed.

Lemma wp_set_edam_files l (Q : result unit -> world -> Prop) :
    Q (Ok tt) (with_edam_files w l) -> wp (set_edam_files l) Q w.
  Proof. exact (fun H => H). Qed.

Lemma wp_set_self_commands l (Q : result unit -> world -> Prop) :
    Q (Ok tt) (with_self_commands w l) -> wp (set_self_commands l) Q w.
  Proof. exact (fun H => H). Qed.

Lemma wp_write c path (Q : result unit -> world -> Prop) :
    Q (Ok tt) (add_written w path (EdaCommands.finalize c)) -> wp (write c path) Q w.
  Proof. exact (fun H => H). Qed.

Lemma wp_str_add a (b : option string) (Q : result string -> world -> Prop) :
    (forall s, b = Some s -> Q (Ok (a +:+ s)) w) ->
    (b = None -> Q (Raise TypeError) w) ->
    wp (str_add a b) Q w.
  Proof. destruct b; unfold wp; simpl; auto. Qed.

Lemma wp_add_str (a : option string) b (Q : result string -> world -> Prop) :
    (forall s, a = Some s -> Q (Ok (s +:+ b)) w) ->
    (a = None -> Q (Raise TypeError) w) ->
    wp (add_str a b) Q w.
  Proof. destruct a; unfold wp; simpl; auto. Qed.

Lemma wp_str_in sub (x : option string) (Q : result bool -> world -> Prop) :
    (forall s, x = Some s -> Q (Ok (contains sub s)) w) ->
    (x = None -> Q (Raise TypeError) w) ->
    wp (str_in sub x) Q w.
  Proof. destruct x; unfold wp; simpl; auto. Qed.

Lemma wp_opt_add (a b : option string) (Q : result string -> world -> Prop) :
    (forall x y, a = Some x -> b = Some y -> Q (Ok (x +:+ y)) w) ->
    (a = None \/ b = None -> Q (Raise TypeError) w) ->
    wp (Symbiflow.opt_add a b) Q w.
  Proof. destruct a, b; unfold wp; simpl; auto. Qed.

Lemma wp_index l i (Q : result string -> world -> Prop) :
    (forall x, nth_error l i = Some x -> Q (Ok x) w) ->
    (nth_error l i = None -> Q (Raise IndexError) w) ->
    wp (Symbiflow.index l i) Q w.
  Proof. unfold Symbiflow.index, wp. destruct (nth_error l i); simpl; auto. Qed.
End WpPrimitives.

Lemma wp_run {A} (m : M A) Q w : wp m Q w -> Q (run m w) (exec m w).
Proof. exact (fun H => H). Qed.

Lemma wp_if_true {A} (b : bool) (m1 m2 : M A) Q w :
  b = true -> wp m1 Q w -> wp (if b then m1 else m2) Q w.
Proof. intros ->. exact (fun H => H). Qed.

Lemma wp_if_false {A} (b : bool) (m1 m2 : M A) Q w :
  b = false -> wp m2 Q w -> wp (if b then m1 else m2) Q w.
Proof. intros ->. exact (fun H => H). Qed.

Lemma wp_let_in {A B} (e : A) (f : A -> M B) Q w :
  wp (f e) Q w -> wp (let x := e in f x) Q w.
Proof. exact (fun H => H). Qed.

(** A primitive whose argument is known by an equation of the context. *)
Lemma wp_arg_eq {A B} (f : A -> M B) (x v : A) Q w :
  x = v -> wp (f v) Q w -> wp (f x) Q w.
Proof. intros ->. exact (fun H => H). Qed.

(** Close a branch whose newest equation contradicts an older one. *)
Ltac absurd_branch :=
  repeat match goal with
         | H : Some ?a = Some ?b |- _ => is_var b; injection H as <-
         end;
  try match goal with
      | H : ?x = true, H' : ?x = false |- _ => exfalso; congruence
      | H : ?x = Some _, H' : ?x = None |- _ => exfalso; congruence
      | H : Some _ = None \/ Some _ = None |- _ => destruct H as [H | H]; discriminate H
      | H : None = Some _ |- _ => discriminate H
      | H : Some _ = None |- _ => discriminate H
      | H : true = false |- _ => discriminate H
      | H : false = true |- _ => discriminate H
      | H : Raise _ = Ok _ |- _ => discriminate H
      | H : Ok _ = Raise _ |- _ => discriminate H
      end.

(** Use an equation of the context about the argument of a primitive,
    unless the argument is a constructor already. *)
Ltac known_arg f x Q w :=
  lazymatch x with
  | Some _ => fail
  | None => fail
  | _ =>
      match goal with
      | H : x = Some ?v |- _ => refine (wp_arg_eq f x (Some v) Q w H _)
      | H : x = None |- _ => refine (wp_arg_eq f x None Q w H _)
      end
  end.

(** One step of symbolic execution: the head of the program decides. *)
Ltac wp_head :=
  lazymatch goal with
  | |- wp (let x := ?e in @?f x) ?Q ?w =>
      lazymatch type of e with
      | list token => refine (wp_let e f Q w _); intros ? ?
      | list (option string) => refine (wp_let e f Q w _); intros ? ?
      | EdaCommands.t => refine (wp_let e f Q w _); intros ? ?
      | _ => refine (wp_let_in e f Q w _)
      end
  | |- wp (bind _ _) _ _ => refine (wp_bind _ _ _ _ _)
  | |- wp (ret _) _ _ => refine (wp_ret _ _ _ _)
  | |- wp (raise _) _ _ => refine (wp_raise _ _ _ _)
  | |- wp (lift _) _ _ => refine (wp_lift _ _ _ _)
  | |- wp (when _ (logger_error _)) _ _ => refine (wp_when_log _ _ _ _ _)
  | |- wp (logger_error _) _ _ => refine (wp_logger_error _ _ _ _)
  | |- wp (render_template _ _ _) _ _ => refine (wp_render_template _ _ _ _ _ _)
  | |- wp (set_edam_files _) _ _ => refine (wp_set_edam_files _ _ _ _)
  | |- wp (set_self_commands _) _ _ => refine (wp_set_self_commands _ _ _ _)
  | |- wp (write _ _) _ _ => refine (wp_write _ _ _ _ _)
  | |- wp (when ?b ?m) ?Q ?w =>
      first [ let v := eval cbv in b in
              lazymatch v with
              | true => change (wp m Q w)
              | false => change (Q (Ok tt) w)
              end
            | refine (wp_when w b m Q _ _); intros ?; absurd_branch ]
  | |- wp (read_local ?var ?x) ?Q ?w =>
      first [ let T := type of x in known_arg (fun y : T => read_local var y) x Q w
            | refine (wp_read_local _ _ _ _ _ _); [intros ? ? | intros ?]; absurd_branch ]
  | |- wp (str_add ?a ?x) ?Q ?w =>
      first [ known_arg (str_add a) x Q w
            | refine (wp_str_add _ _ _ _ _ _); [intros ? ? | intros ?]; absurd_branch ]
  | |- wp (add_str ?x ?b) ?Q ?w =>
      first [ known_arg (fun y => add_str y b) x Q w
            | refine (wp_add_str _ _ _ _ _ _); [intros ? ? | intros ?]; absurd_branch ]
  | |- wp (str_in ?sub ?x) ?Q ?w =>
      first [ known_arg (str_in sub) x Q w
            | refine (wp_str_in _ _ _ _ _ _); [intros ? ? | intros ?]; absurd_branch ]
  | |- wp (Symbiflow.opt_add ?a ?b) ?Q ?w =>
      first [ known_arg (fun y => Symbiflow.opt_add y b) a Q w
            | known_arg (Symbiflow.opt_add a) b Q w
            | refine (wp_opt_add _ _ _ _ _ _); [intros ? ? ? ? | intros ?]; absurd_branch ]
  | |- wp (Symbiflow.index _ _) _ _ =>
      refine (wp_index _ _ _ _ _ _); [intros ? ? | intros ?]; absurd_branch
  | |- wp (Symbiflow.family_loop _ _ _) _ _ =>
      cbn [Symbiflow.family_loop Symbiflow.fpga_interchange_families]
  | |- wp (Symbiflow.bitstream_device_of _) _ _ =>
      cbv delta [Symbiflow.bitstream_device_of]
  | |- wp (Symbiflow.render_fasm2bels _ _ _ _) _ _ =>
      cbv delta [Symbiflow.render_fasm2bels]
  | |- wp (if ?b then ?m1 else ?m2) ?Q ?w =>
      first [ match goal with
              | H : b = true |- _ => refine (wp_if_true b m1 m2 Q w H _)
              | H : b = false |- _ => refine (wp_if_false b m1 m2 Q w H _)
              end
            | let v := eval cbv in b in
              lazymatch v with
              | true => change (wp m1 Q w)
              | false => change (wp m2 Q w)
              end
            | refine (wp_if b m1 m2 Q w _ _); intros ? ]
  | |- wp (match ?x with _ => _ end) _ _ =>
      first [ is_var x; destruct x | destruct x eqn:? ]; absurd_branch
  | |- match ?x with Ok _ => _ | Raise _ => _ end =>
      first [ is_var x; destruct x | destruct x eqn:? ]; absurd_branch
  end.

Ltac wp_step := cbv beta iota; wp_head.
Ltac wp_run := repeat wp_step; cbv beta iota.

(** ** What each effect leaves untouched *)

Lemma written_add_log w msg : written (add_log w msg) = written w.
Proof. reflexivity. Qed.
Lemma written_logged b msg w : written (logged b msg w) = written w.
Proof. destruct b; reflexivity. Qed.
Lemma written_add_rendering w r : written (add_rendering w r) = written w.
Proof. reflexivity. Qed.
Lemma written_with_edam_files w l : written (with_edam_files w l) = written w.
Proof. reflexivity. Qed.
Lemma written_with_self_commands w l : written (with_self_commands w l) = written w.
Proof. reflexivity. Qed.
Lemma written_add_written w p g : written (add_written w p g) = written w ++ [(p, g)].
Proof. reflexivity. Qed.

Lemma log_add_rendering w r : log (add_rendering w r) = log w.
Proof. reflexivity. Qed.
Lemma log_with_edam_files w l : log (with_edam_files w l) = log w.
Proof. reflexivity. Qed.
Lemma log_with_self_commands w l : log (with_self_commands w l) = log w.
Proof. reflexivity. Qed.
Lemma log_add_written w p g : log (add_written w p g) = log w.
Proof. reflexivity. Qed.
Lemma logged_true msg w : logged true msg w = add_log w msg.
Proof. reflexivity. Qed.
Lemma logged_false msg w : logged false msg w = w.
Proof. reflexivity. Qed.

Create Rewrite HintDb written.
#[global] Hint Rewrite written_add_log written_logged written_add_rendering
  written_with_edam_files written_with_self_commands written_add_written : written.

Lemma log_extends_refl w : log_extends w w.
Proof. exists []. now rewrite app_nil_r. Qed.

Lemma log_extends_trans w1 w2 w3 :
  log_extends w1 w2 -> log_extends w2 w3 -> log_extends w1 w3.
Proof.
  intros [l1 H1] [l2 H2]. exists (l1 ++ l2). now rewrite H2, H1, app_assoc.
Qed.

Lemma log_extends_In w w' msg : log_extends w w' -> In msg (log w) -> In msg (log w').
Proof. intros [l H] Hin. rewrite H. apply in_or_app. now left. Qed.

Lemma log_extends_logged b msg w0 w : log_extends w0 w -> log_extends w0 (logged b msg w).
Proof.
  intros H. apply (log_extends_trans _ _ _ H).
  destruct b; [now exists [msg] | apply log_extends_refl].
Qed.

Lemma log_extends_add_log msg w0 w : log_extends w0 w -> log_extends w0 (add_log w msg).
Proof. apply (log_extends_logged true). Qed.

Lemma log_extends_add_rendering r w0 w :
  log_extends w0 w -> log_extends w0 (add_rendering w r).
Proof. exact (fun H => H). Qed.

Lemma log_extends_with_edam_files l w0 w :
  log_extends w0 w -> log_extends w0 (with_edam_files w l).
Proof. exact (fun H => H). Qed.

Lemma log_extends_with_self_commands l w0 w :
  log_extends w0 w -> log_extends w0 (with_self_commands w l).
Proof. exact (fun H => H). Qed.

Lemma log_extends_add_written p g w0 w :
  log_extends w0 w -> log_extends w0 (add_written w p g).
Proof. exact (fun H => H). Qed.

Create HintDb log_extends discriminated.
#[global] Hint Resolve log_extends_refl log_extends_logged log_extends_add_log
  log_extends_add_rendering log_extends_with_edam_files log_extends_with_self_commands
  log_extends_add_written : log_extends.


(** ** Runs that abort *)

(** A postcondition about aborted runs holds trivially where the run returns. *)
Ltac abort_leaf :=
  let e := fresh "e" in
  let He := fresh "He" in
  intros e He;
  first
    [ discriminate He
    | injection He as <-; split;
      [ autorewrite with written; reflexivity
      | intros; first [ reflexivity | exfalso; congruence ] ] ].

(** [configure_nextpnr] writes nothing when it aborts, and aborts with no
    [RuntimeError] of its own: the only one it can pass on is Yosys's. *)
Lemma configure_nextpnr_abort self w :
  wp (Symbiflow.configure_nextpnr self)
     (fun r w' => forall e, r = Raise e ->
                  written w' = written w /\
                  (forall c, Symbiflow.yosys self = Ok c -> named_error e = false)) w.
Proof.
  cbv delta [Symbiflow.configure_nextpnr]. cbv beta.
  wp_run; abort_leaf.
Qed.

Lemma configure_vpr_abort self w :
  wp (Symbiflow.configure_vpr self)
     (fun r w' => forall e, r = Raise e ->
                  written w' = written w /\ named_error e = false) w.
Proof.
  cbv delta [Symbiflow.configure_vpr]. cbv beta.
  wp_run.
  all: let e := fresh "e" in
       let He := fresh "He" in
       intros e He;
       first [ discriminate He
             | injection He as <-; split;
               [ autorewrite with written; reflexivity | reflexivity ] ].
Qed.

(** ** Loops *)

Lemma for_each_app {A S} (body : S -> A -> result S) l1 l2 s :
  for_each body (l1 ++ l2) s =
  match for_each body l1 s with
  | Ok s' => for_each body l2 s'
  | Raise e => Raise e
  end.
Proof.
  revert s. induction l1 as [| x l1 IH]; intros s; simpl.
  - reflexivity.
  - destruct (body s x); [apply IH | reflexivity].
Qed.

Lemma for_each_invariant {A S} (body : S -> A -> result S) (P : S -> Prop) :
  (forall s x s', P s -> body s x = Ok s' -> P s') ->
  forall l s s', P s -> for_each body l s = Ok s' -> P s'.
Proof.
  intros Hstep. induction l as [| x l IH]; intros s s' Hs; simpl.
  - intros [= <-]. exact Hs.
  - destruct (body s x) as [s1 |] eqn:E; [| discriminate].
    apply IH. eapply Hstep; eauto.
Qed.

(** ** The classifier of nextpnr.py *)

(** Split on the type tag of a file: one of the eight tags that the loop
    tests, or none of them. *)
Ltac case_type ty :=
  destruct (String.eqb_spec ty "CST");
  [ subst ty
  | destruct (String.eqb_spec ty "LPF");
    [ subst ty
    | destruct (String.eqb_spec ty "PDC");
      [ subst ty
      | destruct (String.eqb_spec ty "PCF");
        [ subst ty
        | destruct (String.eqb_spec ty "XDC");
          [ subst ty
          | destruct (String.eqb_spec ty "QSF");
            [ subst ty
            | destruct (String.eqb_spec ty "jsonNetlist");
              [ subst ty
              | destruct (String.eqb_spec ty "fpgaInterchangeNetlist");
                [ subst ty | ] ] ] ] ] ] ] ].

Ltac classify_cases ic v f :=
  let nm := fresh "nm" in
  let ty := fresh "ty" in
  destruct f as [nm ty]; unfold Nextpnr.classify_file; cbn [File.file_type File.name];
  case_type ty; cbn -[truthy String.append];
  repeat match goal with
         | |- context [truthy ?s] => destruct (truthy s) eqn:?
         end;
  try destruct ic; cbn -[truthy String.append].

(** A slot that holds a name keeps it as long as the loop goes on. *)
Lemma classify_file_keeps ic v f v' :
  Nextpnr.classify_file ic v f = Ok v' ->
  forall slot,
    In slot [Nextpnr.cst_file; Nextpnr.lpf_file; Nextpnr.pcf_file; Nextpnr.xdc_file;
             Nextpnr.pdc_file; Nextpnr.qsf_file; Nextpnr.netlist] ->
    truthy (slot v) = true -> slot v' = slot v.
Proof.
  classify_cases ic v f; intros H; inversion H; subst; clear H;
    intros slot Hin Ht; simpl in Hin;
    repeat (destruct Hin as [<- | Hin]; [ first [ reflexivity | cbn in *; congruence ] | ]);
    contradiction.
Qed.

Ltac role_cases H :=
  lazymatch type of H with
  | (if ?s =? ?lit then _ else _) = _ =>
      destruct (String.eqb_spec s lit);
      [ subst; cbn in H; injection H as <- <- | role_cases H ]
  | None = Some _ => discriminate H
  end.

Lemma role_slot_In ty what slot :
  role_slot ty = Some (what, slot) ->
  In slot [Nextpnr.cst_file; Nextpnr.lpf_file; Nextpnr.pcf_file; Nextpnr.xdc_file;
           Nextpnr.pdc_file; Nextpnr.qsf_file; Nextpnr.netlist].
Proof. intros H. unfold role_slot in H. role_cases H; simpl; tauto. Qed.

(** The first file of a singular role fills the slot with its name. *)
Lemma classify_file_fills ic v f v' what slot :
  role_slot (File.file_type f) = Some (what, slot) ->
  Nextpnr.classify_file ic v f = Ok v' ->
  slot v' = File.name f.
Proof.
  destruct f as [nm ty]; cbn [File.file_type File.name]. intros H.
  unfold role_slot in H.
  role_cases H; unfold Nextpnr.classify_file; cbn -[truthy String.append];
    repeat match goal with
           | |- context [truthy ?s] => destruct (truthy s) eqn:?
           end;
    try destruct ic; cbn -[truthy String.append]; intros E; inversion E; reflexivity.
Qed.

(** A file that meets its slot taken raises, and the message has the
    name in the slot and the name of the file. *)
Lemma classify_file_taken ic v f what slot :
  role_slot (File.file_type f) = Some (what, slot) ->
  truthy (slot v) = true ->
  Nextpnr.classify_file ic v f
  = Raise (Nextpnr.only_one what (slot v) (File.name f)).
Proof.
  destruct f as [nm ty]; cbn [File.file_type File.name]. intros H Ht.
  unfold role_slot in H.
  role_cases H; unfold Nextpnr.classify_file; cbn -[truthy String.append];
    cbn -[truthy] in Ht; rewrite Ht; reflexivity.
Qed.

Lemma for_each_classify_keeps ic l v v' slot :
  In slot [Nextpnr.cst_file; Nextpnr.lpf_file; Nextpnr.pcf_file; Nextpnr.xdc_file;
           Nextpnr.pdc_file; Nextpnr.qsf_file; Nextpnr.netlist] ->
  truthy (slot v) = true ->
  for_each (Nextpnr.classify_file ic) l v = Ok v' ->
  slot v' = slot v.
Proof.
  intros Hin Ht H.
  refine (for_each_invariant (Nextpnr.classify_file ic)
            (fun s => slot s = slot v) _ l v v' eq_refl H).
  intros s x s' Hs Hx. rewrite <- Hs.
  apply (classify_file_keeps ic s x s' Hx slot Hin). now rewrite Hs.
Qed.

Lemma truthy_nonempty s : s <> EmptyString -> truthy s = true.
Proof.
  intros H. unfold truthy. destruct (String.eqb_spec s EmptyString); [contradiction | reflexivity].
Qed.

(** The classifier of symbiflow.py: the file seen last wins its slot. *)
Lemma nextpnr_classify_last fs f slot :
  nextpnr_role_slot (File.file_type f) = Some slot ->
  slot (Symbiflow.nextpnr_classify (fs ++ [f])) = Some (File.name f).
Proof.
  unfold Symbiflow.nextpnr_classify. rewrite fold_left_app. simpl.
  generalize (fold_left Symbiflow.nextpnr_classify_file fs Symbiflow.nextpnr_locals0).
  intros v. destruct f as [nm ty]; cbn [File.file_type File.name].
  unfold nextpnr_role_slot, Symbiflow.nextpnr_classify_file; cbn [File.file_type File.name].
  repeat match goal with
         | |- (if ?s =? ?lit then _ else _) = _ -> _ =>
             destruct (String.eqb_spec s lit);
             [ subst; intros [= <-]; reflexivity | ]
         end.
  discriminate.
Qed.

(** C3 (amended).  In [Nextpnr.configure_main], when two files carry the tag
    of the same singular role among CST, PDC, PCF, XDC, QSF and jsonNetlist,
    the first of them has a non-empty name and the files before the second
    classify without error, classification stops at the second with the
    [RuntimeError] "Nextpnr only supports one <role>. Found <first> and
    <second>": both names are in the message, in the order of supply,
    whichever file comes first.  In [Symbiflow.configure_nextpnr] the
    classification has no duplicate error: a singular slot (bba, device,
    RRGraph, VPRGrid, capnp) holds the name of the file listed last. *)
Theorem C3_duplicate_role_names_both
  (ic : bool) (what : string) (slot : Nextpnr.locals -> string)
  (f1 f2 : File.t) (pre mid post : list File.t) (v : Nextpnr.locals)
  (sfiles : list File.t) (sf : File.t) (sslot : Symbiflow.nextpnr_locals -> option string) :
  role_slot (File.file_type f1) = Some (what, slot) ->
  File.file_type f2 = File.file_type f1 ->
  File.name f1 <> EmptyString ->
  for_each (Nextpnr.classify_file ic) (pre ++ f1 :: mid) Nextpnr.locals0 = Ok v ->
  nextpnr_role_slot (File.file_type sf) = Some sslot ->
  Nextpnr.classify ic (pre ++ f1 :: mid ++ f2 :: post)
  = Raise (Nextpnr.only_one what (File.name f1) (File.name f2))
  /\ sslot (Symbiflow.nextpnr_classify (sfiles ++ [sf])) = Some (File.name sf).
Proof.
  intros Hrole Hty Hnm Hpre Hs. split; [| now apply nextpnr_classify_last].
  unfold Nextpnr.classify.
  change (pre ++ f1 :: mid ++ f2 :: post) with (pre ++ (f1 :: mid) ++ f2 :: post).
  rewrite app_assoc, for_each_app.
  rewrite for_each_app in Hpre.
  destruct (for_each (Nextpnr.classify_file ic) pre Nextpnr.locals0) as [v0 |] eqn:E0;
    [| discriminate].
  rewrite for_each_app, E0.
  simpl in Hpre |- *.
  destruct (Nextpnr.classify_file ic v0 f1) as [v1 |] eqn:E1; [| discriminate].
  rewrite Hpre.
  pose proof (classify_file_fills ic v0 f1 v1 what slot Hrole E1) as Hfill.
  assert (Ht : truthy (slot v1) = true) by (rewrite Hfill; now apply truthy_nonempty).
  pose proof (for_each_classify_keeps ic mid v1 v slot (role_slot_In _ _ _ Hrole) Ht Hpre)
    as Hkeep.
  rewrite <- Hty in Hrole.
  rewrite (classify_file_taken ic v f2 what slot Hrole) by (now rewrite Hkeep).
  now rewrite Hkeep, Hfill.
Qed.

Lemma C3_duplicate_role_names_both_witness :
  (Nextpnr.classify false ([] ++ cst_a :: [] ++ cst_b :: [])
   = Raise (Nextpnr.only_one "CST file" "a.cst" "b.cst")
   /\ Symbiflow.chipdb (Symbiflow.nextpnr_classify ([File.mk "a.bba" "bba"] ++ [File.mk "b.bba" "bba"]))
      = Some "b.bba")
  /\ (Nextpnr.classify false ([] ++ cst_b :: [] ++ cst_a :: [])
      = Raise (Nextpnr.only_one "CST file" "b.cst" "a.cst")
      /\ Symbiflow.device (Symbiflow.nextpnr_classify ([] ++ [File.mk "x.device" "device"]))
         = Some "x.device").
Proof.
  split.
  - apply (C3_duplicate_role_names_both false "CST file" Nextpnr.cst_file cst_a cst_b
             [] [] [] (Nextpnr.append_unused (Nextpnr.set_cst_file Nextpnr.locals0 "a.cst") cst_a)
             [File.mk "a.bba" "bba"] (File.mk "b.bba" "bba") Symbiflow.chipdb);
      first [ reflexivity | discriminate ].
  - apply (C3_duplicate_role_names_both false "CST file" Nextpnr.cst_file cst_b cst_a
             [] [] [] (Nextpnr.append_unused (Nextpnr.set_cst_file Nextpnr.locals0 "b.cst") cst_b)
             [] (File.mk "x.device" "device") Symbiflow.device);
      first [ reflexivity | discriminate ].
Defined.








(** ** Stages of a graph *)

Lemma has_output_add_last g cmd d dp :
  has_output (EdaCommands.commands (EdaCommands.add g cmd [d] dp)) d.
Proof.
  exists (mkCommand cmd [d] dp). split; [| now left].
  simpl. apply in_or_app. right. now left.
Qed.

Lemma has_output_add_earlier g cmd tg dp d :
  has_output (EdaCommands.commands g) d ->
  has_output (EdaCommands.commands (EdaCommands.add g cmd tg dp)) d.
Proof.
  intros [c [Hc Hd]]. exists c. split; [| exact Hd].
  simpl. apply in_or_app. now left.
Qed.

Lemma default_set_has_output g d :
  has_output (EdaCommands.commands g) d ->
  default_is_stage_output (EdaCommands.finalize (EdaCommands.set_default_target g d)) = true.
Proof.
  intros [c [Hc Hd]]. unfold default_is_stage_output. simpl.
  apply existsb_exists. exists c. split; [exact Hc |].
  apply existsb_exists. exists d. split; [exact Hd | apply String.eqb_refl].
Qed.

Create HintDb stages discriminated.
#[global] Hint Resolve has_output_add_last has_output_add_earlier : stages.

(** Replace the graph variables of a finished run by what they stand for. *)
Ltac subst_graphs :=
  repeat match goal with
         | H : ?x = _ |- _ =>
             lazymatch type of x with
             | EdaCommands.t => subst x
             end
         end.

(** ** Nextpnr.configure_main *)

Ltac nx_step :=
  first [ wp_step
        | lazymatch goal with
          | |- wp (Nextpnr.arch_row _ _ _) _ _ => cbv delta [Nextpnr.arch_row]; cbv beta
          end ].
Ltac nx_run := repeat nx_step; cbv beta iota.

(** An aborted run has written nothing. *)
Lemma nextpnr_configure_abort self w :
  wp (Nextpnr.configure_main self)
     (fun r w' => forall e, r = Raise e -> written w' = written w) w.
Proof.
  cbv delta [Nextpnr.configure_main]. cbv beta.
  nx_run.
  all: let e := fresh "e" in
       let He := fresh "He" in
       intros e He;
       first [ discriminate He | autorewrite with written; reflexivity ].
Qed.

(** A complete run has written one graph, whose default target is the
    output of the command-line stage. *)
Lemma nextpnr_configure_ok self w :
  wp (Nextpnr.configure_main self)
     (fun r w' => r = Ok tt ->
        exists g, written w' = written w ++ [(path_join (Nextpnr.work_root self) "Makefile", g)]
                  /\ default_is_stage_output g = true) w.
Proof.
  cbv delta [Nextpnr.configure_main]. cbv beta.
  nx_run.
  all: intros Hr; try discriminate Hr.
  all: autorewrite with written.
  all: eexists; split; [ reflexivity | ].
  all: subst_graphs; apply default_set_has_output; auto with stages.
Qed.

Lemma known_arch_false a :
  known_arch a = false ->
  (a =? "ecp5") = false /\ (a =? "mistral") = false /\ (a =? "nexus") = false
  /\ (a =? "gowin") = false /\ (a =? "fpga_interchange") = false.
Proof.
  unfold known_arch. simpl. rewrite orb_false_r.
  intros H. repeat (apply orb_false_elim in H; destruct H as [? H]). tauto.
Qed.

(** An architecture without a row of its own takes the last branch: the run
    completes with the target of ice40, [name.asc]. *)
Lemma nextpnr_configure_unknown_arch self w a v :
  Nextpnr.flow_config_arch self = Some a ->
  known_arch a = false ->
  Nextpnr.classify false (Nextpnr.files self) = Ok v ->
  wp (Nextpnr.configure_main self)
     (fun r w' =>
        r = Ok tt /\
        exists g,
          written w' = written w ++ [(path_join (Nextpnr.work_root self) "Makefile", g)]
          /\ EdaCommands.default_target g = Some (Nextpnr.name self +:+ ".asc")
          /\ map targets (EdaCommands.commands g)
             = [ [Nextpnr.name self +:+ ".asc"]; ["build-gui"] ]
          /\ map (fun c => hd_error (command c)) (EdaCommands.commands g)
             = [Some (Some ("nextpnr-" +:+ a)); Some (Some ("nextpnr-" +:+ a))]) w.
Proof.
  intros Ha Hk Hv. apply known_arch_false in Hk.
  destruct Hk as (He & Hm & Hn & Hg & Hi).
  cbv delta [Nextpnr.configure_main]. cbv beta. rewrite Ha.
  nx_run.
  all: subst; rewrite ?Hi in *; try discriminate; try congruence.
  all: split; [ reflexivity | ].
  all: autorewrite with written.
  all: eexists; split; [ reflexivity | ].
  all: destruct (Nextpnr.package (Nextpnr.options self)); repeat split; reflexivity.
Qed.

Lemma needs_device_cases a :
  needs_device a = true -> a = "mistral" \/ a = "nexus" \/ a = "gowin".
Proof.
  unfold needs_device. simpl. rewrite orb_false_r.
  intros H. repeat (apply orb_prop in H; destruct H as [H | H]);
    apply String.eqb_eq in H; tauto.
Qed.

(** The rows of mistral, nexus and gowin stop without the [device] option. *)
Lemma nextpnr_configure_missing_device self w a v :
  Nextpnr.flow_config_arch self = Some a ->
  needs_device a = true ->
  truthy_opt (Nextpnr.device (Nextpnr.options self)) = false ->
  Nextpnr.classify false (Nextpnr.files self) = Ok v ->
  wp (Nextpnr.configure_main self)
     (fun r w' => r = Raise (Nextpnr.missing_device a) /\ written w' = written w) w.
Proof.
  intros Ha Hk Hd Hv. apply needs_device_cases in Hk.
  cbv delta [Nextpnr.configure_main]. cbv beta. rewrite Ha.
  destruct Hk as [-> | [-> | ->]].
  all: nx_run.
  all: subst; rewrite ?Hd in *; cbn in *; try discriminate; try congruence.
  all: split; [ reflexivity | autorewrite with written; reflexivity ].
Qed.

(** ** The configurators of symbiflow.py *)

(** Two readings of the same optional value agree. *)
Ltac unify_some :=
  repeat match goal with
         | H : Some _ = Some _ |- _ => injection H as H; try subst
         | H : Some ?a = ?t |- _ =>
             lazymatch t with Some _ => fail | _ => symmetry in H end
         | H1 : ?t = Some ?a, H2 : ?t = Some ?b |- _ =>
             let E := fresh in
             assert (E : b = a) by congruence;
             clear H2;
             first [ subst b | subst a | rewrite E in * ]
         end.

(** Replace the variables that stand for options, names and tests by what
    they stand for; token lists and graphs stay folded. *)
Ltac subst_small :=
  repeat match goal with
         | H : ?x = _ |- _ =>
             is_var x;
             lazymatch type of x with
             | list token => fail
             | list (option string) => fail
             | EdaCommands.t => fail
             | _ => subst x
             end
         end.

Ltac leaf_norm := subst_small; unify_some.

Lemma names_bitstream_device_bound p v :
  (if contains "xc7k" p then Some "kintex7"
   else if contains "xc7z" p then Some "zynq7"
        else if contains "xc7a" p then Some "artix7" else None) = Some v ->
  names_bitstream_device p = true.
Proof.
  unfold names_bitstream_device.
  destruct (contains "xc7a" p), (contains "xc7z" p), (contains "xc7k" p);
    simpl; intros H; first [ reflexivity | discriminate H ].
Qed.

Lemma names_bitstream_device_unbound p :
  names_bitstream_device p = false ->
  (if contains "xc7k" p then Some "kintex7"
   else if contains "xc7z" p then Some "zynq7"
        else if contains "xc7a" p then Some "artix7" else None) = None.
Proof.
  unfold names_bitstream_device.
  destruct (contains "xc7a" p), (contains "xc7z" p), (contains "xc7k" p);
    simpl; intros H; first [ reflexivity | discriminate H ].
Qed.

(** A complete run of [configure_nextpnr] has written one graph, its default
    target is the output of a stage, and [part] names a 7-series family. *)
Lemma configure_nextpnr_ok self w :
  wp (Symbiflow.configure_nextpnr self)
     (fun r w' => r = Ok tt ->
        (exists g,
            written w' = written w ++ [(path_join (Symbiflow.work_root self) "Makefile", g)]
            /\ default_is_stage_output g = true)
        /\ exists p, Symbiflow.part (Symbiflow.options self) = Some p
                     /\ names_bitstream_device p = true) w.
Proof.
  cbv delta [Symbiflow.configure_nextpnr]. cbv beta.
  wp_run.
  all: intros Hr; try discriminate Hr.
  all: split; [ autorewrite with written; eexists; split; [ reflexivity | ];
                subst_graphs; apply default_set_has_output; auto with stages | ].
  all: leaf_norm.
  all: match goal with
       | H : Symbiflow.part _ = Some ?s |- _ => exists s; split; [ exact H | ]
       end.
  all: eapply names_bitstream_device_bound; eassumption.
Qed.

Lemma has_output_quicklogic_last self g tool ext :
  has_output (EdaCommands.commands (Symbiflow.quicklogic_stage self g tool ext))
             (Symbiflow.toplevel self +:+ ext).
Proof. apply has_output_add_last. Qed.

Lemma has_output_quicklogic_earlier self g tool ext d :
  has_output (EdaCommands.commands g) d ->
  has_output (EdaCommands.commands (Symbiflow.quicklogic_stage self g tool ext)) d.
Proof. apply has_output_add_earlier. Qed.

#[global] Hint Resolve has_output_quicklogic_last has_output_quicklogic_earlier : stages.

Lemma commands_finalize g :
  EdaCommands.commands (EdaCommands.finalize g) = EdaCommands.commands g.
Proof. reflexivity. Qed.

Lemma commands_set_default_target g d :
  EdaCommands.commands (EdaCommands.set_default_target g d) = EdaCommands.commands g.
Proof. reflexivity. Qed.

Lemma default_target_set g d :
  EdaCommands.default_target (EdaCommands.finalize (EdaCommands.set_default_target g d))
  = Some d.
Proof. reflexivity. Qed.

(** A complete run of [configure_vpr] has written one graph.  Its default
    target is the output of a stage, except for quicklogic, where it is the
    outputs of three stages in one string.  For xilinx, [part] names a
    7-series family. *)
Lemma configure_vpr_ok self w :
  wp (Symbiflow.configure_vpr self)
     (fun r w' => r = Ok tt ->
        (exists g,
            written w' = written w ++ [(path_join (Symbiflow.work_root self) "Makefile", g)]
            /\ if eq_lit (Symbiflow.vendor (Symbiflow.options self)) "quicklogic"
               then EdaCommands.default_target g = Some (quicklogic_default self)
                    /\ has_output (EdaCommands.commands g) (Symbiflow.toplevel self +:+ ".bin")
                    /\ has_output (EdaCommands.commands g) (Symbiflow.toplevel self +:+ ".h")
                    /\ has_output (EdaCommands.commands g)
                                  (Symbiflow.toplevel self +:+ ".openocd.cfg")
               else default_is_stage_output g = true)
        /\ (eq_lit (Symbiflow.vendor (Symbiflow.options self)) "xilinx" = true ->
            exists p, Symbiflow.part (Symbiflow.options self) = Some p
                      /\ names_bitstream_device p = true)) w.
Proof.
  cbv delta [Symbiflow.configure_vpr]. cbv beta.
  wp_run.
  all: intros Hr; try discriminate Hr.
  all: split;
    [ autorewrite with written; eexists; split; [ reflexivity | ];
      subst_graphs; subst_small;
      destruct (eq_lit (Symbiflow.vendor (Symbiflow.options self)) "quicklogic");
      [ repeat split;
        first [ apply default_target_set
              | rewrite commands_finalize, commands_set_default_target;
                auto 8 with stages ]
      | apply default_set_has_output; auto with stages ]
    | ].
  all: intros Hx; leaf_norm; try congruence.
  all: match goal with
       | H : Symbiflow.part _ = Some ?s |- _ => exists s; split; [ exact H | ]
       end.
  all: eapply names_bitstream_device_bound; eassumption.
Qed.





(** ** Placement constraints of [configure_nextpnr] *)

Lemma placement_constraints_fold fs v :
  Symbiflow.placement_constraints (fold_left Symbiflow.nextpnr_classify_file fs v)
  = Symbiflow.placement_constraints v
    ++ map File.name (filter (fun f => File.file_type f =? "xdc") fs).
Proof.
  revert v. induction fs as [| f fs IH]; intros v; simpl.
  - now rewrite app_nil_r.
  - rewrite IH. unfold Symbiflow.nextpnr_classify_file.
    destruct (File.file_type f =? "bba") eqn:E1.
    { apply String.eqb_eq in E1. rewrite E1. reflexivity. }
    destruct (File.file_type f =? "device") eqn:E2.
    { apply String.eqb_eq in E2. rewrite E2. reflexivity. }
    destruct (File.file_type f =? "xdc") eqn:E3.
    { simpl. now rewrite <- app_assoc. }
    destruct (File.file_type f =? "RRGraph"); [ reflexivity | ].
    destruct (File.file_type f =? "VPRGrid"); [ reflexivity | ].
    destruct (File.file_type f =? "capnp"); reflexivity.
Qed.

Lemma length_xdcs_of l : length (Symbiflow.xdcs_of l) = 2 * length l.
Proof.
  unfold Symbiflow.xdcs_of. induction l as [| x l IH]; simpl; [ reflexivity | ].
  rewrite IH. lia.
Qed.

(** [xdcs] has two entries for each file of type xdc. *)
Lemma length_xdcs fs :
  length (Symbiflow.xdcs_of
            (Symbiflow.placement_constraints (Symbiflow.nextpnr_classify fs)))
  = 2 * count_xdc fs.
Proof.
  unfold Symbiflow.nextpnr_classify, count_xdc.
  rewrite length_xdcs_of, placement_constraints_fold. simpl.
  now rewrite length_map.
Qed.

Lemma assert_xdcs_iff fs :
  Nat.eqb (length (Symbiflow.xdcs_of
                     (Symbiflow.placement_constraints (Symbiflow.nextpnr_classify fs)))) 2
  = Nat.eqb (count_xdc fs) 1.
Proof.
  rewrite length_xdcs.
  destruct (Nat.eqb_spec (count_xdc fs) 1) as [-> | H]; [ reflexivity | ].
  apply Nat.eqb_neq. lia.
Qed.

Lemma xdcs_second fs :
  count_xdc fs = 1 ->
  nth_error (Symbiflow.xdcs_of
               (Symbiflow.placement_constraints (Symbiflow.nextpnr_classify fs))) 1
  <> None.
Proof.
  intros H E. apply nth_error_None in E. rewrite length_xdcs, H in E. simpl in E. lia.
Qed.

(** ** Runs along a known path *)

(** The facts about a run that the equations of the caller settle. *)
Ltac path_leaf :=
  cbv beta iota;
  try match goal with
      | H : nth_error _ 1 = None |- _ => exfalso; eapply xdcs_second; eassumption
      | H : (if ?c then Some _ else ?x) = None, H' : ?x = Some _ |- _ =>
          exfalso; destruct c; [ | rewrite H' in H ]; discriminate H
      end.

(** With [part] naming none of the three families, a run of
    [configure_nextpnr] that gets to the bitstream stage ends there with
    the [NameError] of [bitstream_device]. *)
Lemma configure_nextpnr_unbound self c w p k a :
  Symbiflow.yosys self = Ok c ->
  Symbiflow.part (Symbiflow.options self) = Some p ->
  names_bitstream_device p = false ->
  Symbiflow.package (Symbiflow.options self) = Some k ->
  Symbiflow.arch (Symbiflow.options self) = Some a ->
  (a = "fpga_interchange" -> count_xdc (Symbiflow.src_files self) = 1) ->
  wp (Symbiflow.configure_nextpnr self)
     (fun r w' => r = Raise (NameError "bitstream_device") /\ written w' = written w) w.
Proof.
  intros Hy Hp Hn Hk Ha Hx.
  apply names_bitstream_device_unbound in Hn.
  assert (Hi : eq_lit (Symbiflow.arch (Symbiflow.options self)) "fpga_interchange"
               = (a =? "fpga_interchange")) by (now rewrite Ha).
  destruct (String.eqb_spec a "fpga_interchange") as [E | E].
  - specialize (Hx E).
    assert (Hassert : negb (Nat.eqb (length (Symbiflow.xdcs_of
                         (Symbiflow.placement_constraints
                            (Symbiflow.nextpnr_classify (Symbiflow.src_files self))))) 2)
                      = false).
    { rewrite assert_xdcs_iff, Hx. reflexivity. }
    cbv delta [Symbiflow.configure_nextpnr]. cbv beta. rewrite Hy.
    wp_run; path_leaf.
    all: split; [ reflexivity | autorewrite with written; reflexivity ].
  - clear Hx.
    cbv delta [Symbiflow.configure_nextpnr]. cbv beta. rewrite Hy.
    wp_run; path_leaf.
    all: split; [ reflexivity | autorewrite with written; reflexivity ].
Qed.

(** The same for [configure_vpr] and the xilinx vendor. *)
Lemma configure_vpr_unbound self w p k :
  Symbiflow.vendor (Symbiflow.options self) = Some "xilinx" ->
  Symbiflow.part (Symbiflow.options self) = Some p ->
  names_bitstream_device p = false ->
  Symbiflow.package (Symbiflow.options self) = Some k ->
  wp (Symbiflow.configure_vpr self)
     (fun r w' => r = Raise (NameError "bitstream_device") /\ written w' = written w) w.
Proof.
  intros Hv Hp Hn Hk.
  apply names_bitstream_device_unbound in Hn.
  assert (Hx : eq_lit (Symbiflow.vendor (Symbiflow.options self)) "xilinx" = true)
    by (now rewrite Hv).
  cbv delta [Symbiflow.configure_vpr]. cbv beta.
  wp_run; path_leaf.
  all: split; [ reflexivity | autorewrite with written; reflexivity ].
Qed.

(** Under fpga_interchange, a run of [configure_nextpnr] that gets to the
    assertion on [xdcs] passes it exactly with one xdc file. *)
Lemma configure_nextpnr_assertion self c w p k :
  Symbiflow.yosys self = Ok c ->
  Symbiflow.arch (Symbiflow.options self) = Some "fpga_interchange" ->
  Symbiflow.part (Symbiflow.options self) = Some p ->
  Symbiflow.package (Symbiflow.options self) = Some k ->
  count_xdc (Symbiflow.src_files self) <> 1 ->
  wp (Symbiflow.configure_nextpnr self)
     (fun r w' =>
        r = Raise (AssertionError
                     (Symbiflow.xdcs_of
                        (Symbiflow.placement_constraints
                           (Symbiflow.nextpnr_classify (Symbiflow.src_files self)))))
        /\ written w' = written w) w.
Proof.
  intros Hy Ha Hp Hk Hx.
  assert (Hassert : negb (Nat.eqb (length (Symbiflow.xdcs_of
                       (Symbiflow.placement_constraints
                          (Symbiflow.nextpnr_classify (Symbiflow.src_files self))))) 2)
                    = true).
  { rewrite assert_xdcs_iff. apply Nat.eqb_neq in Hx. now rewrite Hx. }
  assert (Hi : eq_lit (Symbiflow.arch (Symbiflow.options self)) "fpga_interchange" = true)
    by (now rewrite Ha).
  cbv delta [Symbiflow.configure_nextpnr]. cbv beta. rewrite Hy.
  wp_run; path_leaf.
  all: split; [ reflexivity | autorewrite with written; reflexivity ].
Qed.

Lemma names_bitstream_device_some p :
  names_bitstream_device p = true ->
  exists v,
    (if contains "xc7k" p then Some "kintex7"
     else if contains "xc7z" p then Some "zynq7"
          else if contains "xc7a" p then Some "artix7" else None) = Some v.
Proof.
  unfold names_bitstream_device.
  destruct (contains "xc7a" p), (contains "xc7z" p), (contains "xc7k" p);
    simpl; intros H; first [ discriminate H | eexists; reflexivity ].
Qed.



Lemma In_report b msg m : In m (report b msg) -> b = true /\ m = msg.
Proof. destruct b; simpl; [ intros [<- | []]; auto | intros [] ]. Qed.

(** Split membership in a list of reports into its cases. *)
Ltac report_cases H :=
  repeat match type of H with
         | In _ (_ ++ _) => apply in_app_or in H; destruct H as [H | H]
         | In _ (match ?x with Some _ => _ | None => _ end) =>
             let E := fresh "E" in destruct x eqn:E
         | In _ [] => destruct H
         end;
  try (apply In_report in H; destruct H as [H ->]).

Lemma In_logged_here b msg w : b = true -> In msg (log (logged b msg w)).
Proof. intros ->. simpl. apply in_or_app. right. now left. Qed.

Lemma In_logged_later b msg' w m : In m (log w) -> In m (log (logged b msg' w)).
Proof. apply log_extends_In. apply log_extends_logged, log_extends_refl. Qed.

Lemma In_add_log_later msg' w m : In m (log w) -> In m (log (add_log w msg')).
Proof. apply (In_logged_later true). Qed.

(** Use the equations of the context in [H], then compute. *)
Ltac settle_in H :=
  repeat match goal with
         | E : ?x = ?v |- _ =>
             lazymatch v with
             | Some _ => idtac
             | None => idtac
             | true => idtac
             | false => idtac
             end;
             lazymatch E with
             | H => fail
             | _ => rewrite E in H
             end
         end;
  cbn [negb andb orb is_None truthy_opt] in H.

Ltac settle_goal :=
  repeat match goal with
         | E : ?x = ?v |- _ =>
             lazymatch v with
             | Some _ => idtac
             | None => idtac
             | true => idtac
             | false => idtac
             end;
             rewrite E
         end;
  cbn [negb andb orb is_None truthy_opt].

(** Find in the world of a leaf the report of the condition [H]. *)
Ltac log_search H :=
  repeat first [ rewrite log_add_rendering | rewrite log_with_edam_files
               | rewrite log_with_self_commands | rewrite log_add_written ];
  lazymatch goal with
  | |- In _ (log (logged _ _ _)) =>
      first [ apply In_logged_here; settle_goal; first [ exact H | congruence ]
            | apply In_logged_later; log_search H ]
  | |- In _ (log (add_log _ _)) => apply In_add_log_later; log_search H
  end.

Lemma configure_nextpnr_detected self c w :
  Symbiflow.yosys self = Ok c ->
  wp (Symbiflow.configure_nextpnr self)
     (fun r w' => forall m, In m (nextpnr_detected self) -> In m (log w')) w.
Proof.
  intros Hy.
  cbv delta [Symbiflow.configure_nextpnr]. cbv beta.
  wp_run.
  all: intros m Hm; unfold nextpnr_detected in Hm; cbv zeta in Hm.
  all: report_cases Hm.
  all: unfold invalid_arch_msg, missing_param_msg, family_msg, device_file_msg.
  all: try congruence.
  all: unify_some; settle_in Hm; try discriminate Hm.
  all: log_search Hm.
Qed.

Lemma configure_vpr_detected self w :
  wp (Symbiflow.configure_vpr self)
     (fun r w' => forall m, In m (vpr_detected self) -> In m (log w')) w.
Proof.
  cbv delta [Symbiflow.configure_vpr]. cbv beta.
  wp_run.
  all: intros m Hm; unfold vpr_detected in Hm; cbv zeta in Hm.
  all: report_cases Hm.
  all: unfold missing_param_msg.
  all: unify_some; settle_in Hm; try discriminate Hm.
  all: log_search Hm.
Qed.

(** Every violation that a run of [Symbiflow.configure_main] detects is in
    the log of the run, however the run ends. *)
Lemma symbiflow_detected_logged self c w m :
  Symbiflow.yosys self = Ok c ->
  In m (detected self) ->
  In m (log (exec (Symbiflow.configure_main self) w)).
Proof.
  unfold detected, Symbiflow.configure_main. intros Hy Hm.
  destruct (eq_lit (Symbiflow.pnr (Symbiflow.options self)) "nextpnr").
  - exact (wp_run _ _ _ (configure_nextpnr_detected self c w Hy) m Hm).
  - destruct (mem (Symbiflow.pnr (Symbiflow.options self)) ["vtr"; "vpr"]).
    + exact (wp_run _ _ _ (configure_vpr_detected self w) m Hm).
    + destruct Hm as [<- | []]. simpl. apply in_or_app. right. now left.
Qed.

(** ** Symbiflow.configure_main *)

Lemma configure_main_nextpnr self :
  eq_lit (Symbiflow.pnr (Symbiflow.options self)) "nextpnr" = true ->
  Symbiflow.configure_main self = Symbiflow.configure_nextpnr self.
Proof. unfold Symbiflow.configure_main. now intros ->. Qed.

Lemma configure_main_vpr self :
  eq_lit (Symbiflow.pnr (Symbiflow.options self)) "nextpnr" = false ->
  mem (Symbiflow.pnr (Symbiflow.options self)) ["vtr"; "vpr"] = true ->
  Symbiflow.configure_main self = Symbiflow.configure_vpr self.
Proof. unfold Symbiflow.configure_main. now intros -> ->. Qed.

Lemma configure_main_unsupported self w :
  supported_pnr self = false ->
  Symbiflow.configure_main self w
  = (Ok tt, add_log w (unsupported_pnr_msg (Symbiflow.pnr (Symbiflow.options self)))).
Proof.
  unfold supported_pnr, Symbiflow.configure_main. intros H.
  apply orb_false_elim in H. destruct H as [-> ->]. reflexivity.
Qed.

Lemma supported_pnr_cases self :
  supported_pnr self = true ->
  Symbiflow.configure_main self = Symbiflow.configure_nextpnr self
  /\ eq_lit (Symbiflow.pnr (Symbiflow.options self)) "nextpnr" = true
  \/ Symbiflow.configure_main self = Symbiflow.configure_vpr self
     /\ eq_lit (Symbiflow.pnr (Symbiflow.options self)) "nextpnr" = false.
Proof.
  unfold supported_pnr. intros H.
  destruct (eq_lit (Symbiflow.pnr (Symbiflow.options self)) "nextpnr") eqn:E.
  - left. split; [ now apply configure_main_nextpnr | reflexivity ].
  - right. split; [ now apply configure_main_vpr | reflexivity ].
Qed.

(** Whatever [pnr] is, an aborted run of [Symbiflow.configure_main] has
    written nothing and carries no [RuntimeError] of the configurator. *)
Lemma symbiflow_configure_abort self c w e :
  Symbiflow.yosys self = Ok c ->
  run (Symbiflow.configure_main self) w = Raise e ->
  written (exec (Symbiflow.configure_main self) w) = written w /\ named_error e = false.
Proof.
  intros Hy Hr.
  destruct (supported_pnr self) eqn:Hs.
  - destruct (supported_pnr_cases self Hs) as [[E _] | [E _]]; rewrite E in *.
    + destruct (wp_run _ _ _ (configure_nextpnr_abort self w) e Hr) as [Hw Hn].
      split; [ exact Hw | exact (Hn c Hy) ].
    + exact (wp_run _ _ _ (configure_vpr_abort self w) e Hr).
  - unfold run in Hr. rewrite (configure_main_unsupported self w Hs) in Hr. discriminate Hr.
Qed.

(** ** The claims *)

(** The loop of [Nextpnr.configure_main] puts into [unused_files] every
    file whose type is not QSF, jsonNetlist or fpgaInterchangeNetlist: the
    files of the CST, LPF, PDC, PCF and XDC roles as well. *)
Lemma classify_file_unused ic v f v' :
  Nextpnr.classify_file ic v f = Ok v' ->
  Nextpnr.unused_files v'
  = Nextpnr.unused_files v ++ (if leaves_unused f then [f] else []).
Proof.
  unfold leaves_unused.
  classify_cases ic v f; intros H; inversion H; subst; cbn;
    rewrite ?app_nil_r; try reflexivity.
  all: repeat match goal with
              | H : ?a <> ?b |- context [?a =? ?b] =>
                  rewrite (proj2 (String.eqb_neq a b) H)
              end; reflexivity.
Qed.

Lemma classify_unused ic fs v :
  Nextpnr.classify ic fs = Ok v ->
  Nextpnr.unused_files v = filter leaves_unused fs.
Proof.
  unfold Nextpnr.classify.
  change (filter leaves_unused fs)
    with (Nextpnr.unused_files Nextpnr.locals0 ++ filter leaves_unused fs).
  generalize Nextpnr.locals0. induction fs as [| f fs IH]; intros v0; simpl.
  - intros [= <-]. now rewrite app_nil_r.
  - destruct (Nextpnr.classify_file ic v0 f) as [v1 |] eqn:E; [ | discriminate ].
    intros H. rewrite (IH v1 H), (classify_file_unused ic v0 f v1 E), <- app_assoc.
    destruct (leaves_unused f); reflexivity.
Qed.

(** C1 (the code at the failing inputs).  A PCF file fills the [pcf_file]
    slot and is appended to [unused_files] too, so that it is re-emitted in
    [edam["files"]] although the command uses it; an fpgaInterchangeNetlist
    file under fpga_interchange goes to no slot and not to [unused_files]. *)
Theorem C1_file_in_slot_and_unused :
  Nextpnr.classify false (Nextpnr.files pcf_self)
  = Ok (Nextpnr.mkLocals EmptyString EmptyString "pins.pcf" EmptyString EmptyString EmptyString "top.json" [File.mk "pins.pcf" "PCF"])
  /\ edam_files (exec (Nextpnr.configure_main pcf_self) world0)
     = [File.mk "pins.pcf" "PCF"; File.mk "top.asc" "iceboxAscii"]
  /\ map command (self_commands (exec (Nextpnr.configure_main pcf_self) world0))
     = [toks ["nextpnr-ice40"; "-l"; "next.log"; "--pcf"; "pins.pcf"; "--json"; "top.json";
              "--asc"; "top.asc"];
        toks ["nextpnr-ice40"; "-l"; "next.log"; "--pcf"; "pins.pcf"; "--json"; "top.json";
              "--asc"; "top.asc"; "--gui"]]
  /\ Nextpnr.classify true [File.mk "top.netlist" "fpgaInterchangeNetlist"]
     = Ok Nextpnr.locals0.
Proof. repeat split; vm_compute; reflexivity. Qed.




(** C3 (counterexample).  Two chip databases for [configure_nextpnr]: the
    run returns, and the slot holds the second file. *)
Lemma C3_counterexample :
  run (Symbiflow.configure_main two_bba_self) world0 = Ok tt
  /\ Symbiflow.chipdb (Symbiflow.nextpnr_classify (Symbiflow.src_files two_bba_self))
     = Some "b.bba".
Proof. split; vm_compute; reflexivity. Qed.

(** The message of the LPF branch reads [pcf_file], not [lpf_file]: with
    two LPF files it does not have the name of the first. *)
Lemma lpf_duplicate_message :
  Nextpnr.classify false [File.mk "a.lpf" "LPF"; File.mk "b.lpf" "LPF"]
  = Raise (RuntimeError "Nextpnr only supports one LPF file. Found  and b.lpf").
Proof. vm_compute. reflexivity. Qed.

(** C4 (counterexample).  "foo" is no architecture of nextpnr, and the run
    returns with the Makefile written. *)
Lemma C4_counterexample :
  known_arch "foo" = false
  /\ run (Nextpnr.configure_main foo_arch_self) world0 = Ok tt
  /\ map fst (written (exec (Nextpnr.configure_main foo_arch_self) world0))
     = ["build/Makefile"].
Proof. repeat split; vm_compute; reflexivity. Qed.

(** C4 (amended).  [Nextpnr.configure_main] has no check of the
    architecture: a selector without a row of its own takes the last
    branch, and a run whose files classify returns with the stages of
    "nextpnr-<arch>" and the default target [name.asc].
    [Symbiflow.configure_main], for a [pnr] other than nextpnr, vtr and
    vpr, logs "Unsupported PnR tool: <pnr>" and returns: no stage, no
    file, no exception. *)
Theorem C4_unsupported_selectors
  (nself : Nextpnr.t) (sself : Symbiflow.t) (w : world) (a : string) (v : Nextpnr.locals) :
  Nextpnr.flow_config_arch nself = Some a ->
  known_arch a = false ->
  Nextpnr.classify false (Nextpnr.files nself) = Ok v ->
  supported_pnr sself = false ->
  (run (Nextpnr.configure_main nself) w = Ok tt
   /\ exists g,
       written (exec (Nextpnr.configure_main nself) w)
       = written w ++ [(path_join (Nextpnr.work_root nself) "Makefile", g)]
       /\ EdaCommands.default_target g = Some (Nextpnr.name nself +:+ ".asc")
       /\ map targets (EdaCommands.commands g)
          = [ [Nextpnr.name nself +:+ ".asc"]; ["build-gui"] ]
       /\ map (fun c => hd_error (command c)) (EdaCommands.commands g)
          = [Some (Some ("nextpnr-" +:+ a)); Some (Some ("nextpnr-" +:+ a))])
  /\ Symbiflow.configure_main sself w
     = (Ok tt, add_log w (unsupported_pnr_msg (Symbiflow.pnr (Symbiflow.options sself)))).
Proof.
  intros Ha Hk Hv Hs. split.
  - exact (wp_run _ _ _ (nextpnr_configure_unknown_arch nself w a v Ha Hk Hv)).
  - exact (configure_main_unsupported sself w Hs).
Qed.

Lemma C4_unsupported_selectors_witness :
  (run (Nextpnr.configure_main foo_arch_self) world0 = Ok tt
   /\ exists g,
       written (exec (Nextpnr.configure_main foo_arch_self) world0)
       = written world0 ++ [(path_join "build" "Makefile", g)]
       /\ EdaCommands.default_target g = Some "top.asc"
       /\ map targets (EdaCommands.commands g) = [ ["top.asc"]; ["build-gui"] ]
       /\ map (fun c => hd_error (command c)) (EdaCommands.commands g)
          = [Some (Some "nextpnr-foo"); Some (Some "nextpnr-foo")])
  /\ Symbiflow.configure_main quartus_self world0
     = (Ok tt, add_log world0 "Unsupported PnR tool: quartus").
Proof.
  exact (C4_unsupported_selectors foo_arch_self quartus_self world0 "foo"
           (Nextpnr.set_netlist Nextpnr.locals0 "top.json")
           eq_refl eq_refl eq_refl eq_refl).
Defined.

(** C5 (counterexample).  The quicklogic run returns with a default target
    that is no output of any stage: it is three outputs in one string. *)
Lemma C5_counterexample :
  run (Symbiflow.configure_main quicklogic_self) world0 = Ok tt
  /\ map (fun pg => (EdaCommands.default_target (snd pg), default_is_stage_output (snd pg)))
         (written (exec (Symbiflow.configure_main quicklogic_self) world0))
     = [(Some "top.bin top.h top.openocd.cfg", false)].
Proof. split; vm_compute; reflexivity. Qed.

(** C5 (amended).  After a complete run that registers stages, the graph
    that is written has a default target made of outputs of registered
    stages: the output of one stage in [Nextpnr.configure_main], in
    [Symbiflow.configure_nextpnr] and in [Symbiflow.configure_vpr] for
    every vendor but quicklogic; for quicklogic, the outputs of the
    [.bin], [.h] and [.openocd.cfg] stages, joined with spaces. *)
Theorem C5_default_target_from_stages
  (nself : Nextpnr.t) (sself : Symbiflow.t) (w : world) :
  run (Nextpnr.configure_main nself) w = Ok tt ->
  run (Symbiflow.configure_main sself) w = Ok tt ->
  supported_pnr sself = true ->
  (exists g,
      written (exec (Nextpnr.configure_main nself) w)
      = written w ++ [(path_join (Nextpnr.work_root nself) "Makefile", g)]
      /\ default_is_stage_output g = true)
  /\ (exists g,
         written (exec (Symbiflow.configure_main sself) w)
         = written w ++ [(path_join (Symbiflow.work_root sself) "Makefile", g)]
         /\ if negb (eq_lit (Symbiflow.pnr (Symbiflow.options sself)) "nextpnr")
               && eq_lit (Symbiflow.vendor (Symbiflow.options sself)) "quicklogic"
            then EdaCommands.default_target g = Some (quicklogic_default sself)
                 /\ has_output (EdaCommands.commands g) (Symbiflow.toplevel sself +:+ ".bin")
                 /\ has_output (EdaCommands.commands g) (Symbiflow.toplevel sself +:+ ".h")
                 /\ has_output (EdaCommands.commands g)
                               (Symbiflow.toplevel sself +:+ ".openocd.cfg")
            else default_is_stage_output g = true).
Proof.
  intros Hn Hs Hp. split.
  - exact (wp_run _ _ _ (nextpnr_configure_ok nself w) Hn).
  - destruct (supported_pnr_cases sself Hp) as [[E Ep] | [E Ep]];
      rewrite E in *; rewrite Ep; cbn [negb andb].
    + destruct (wp_run _ _ _ (configure_nextpnr_ok sself w) Hs) as [Hg _]. exact Hg.
    + destruct (wp_run _ _ _ (configure_vpr_ok sself w) Hs) as [Hg _]. exact Hg.
Qed.

Lemma C5_default_target_from_stages_witness :
  (exists g,
      written (exec (Nextpnr.configure_main pcf_self) world0)
      = written world0 ++ [(path_join "build" "Makefile", g)]
      /\ default_is_stage_output g = true)
  /\ (exists g,
         written (exec (Symbiflow.configure_main quicklogic_self) world0)
         = written world0 ++ [(path_join "build" "Makefile", g)]
         /\ (EdaCommands.default_target g = Some "top.bin top.h top.openocd.cfg"
             /\ has_output (EdaCommands.commands g) "top.bin"
             /\ has_output (EdaCommands.commands g) "top.h"
             /\ has_output (EdaCommands.commands g) "top.openocd.cfg")).
Proof.
  exact (C5_default_target_from_stages pcf_self quicklogic_self world0
           eq_refl eq_refl eq_refl).
Defined.




(** A missing [part] or [package] is among the violations detected. *)
Lemma missing_identifier_detected self key :
  supported_pnr self = true ->
  key = "part" \/ key = "package" ->
  identifier self key = None ->
  In (missing_param_msg key) (detected self).
Proof.
  intros Hp Hkey Hid. unfold detected.
  destruct (supported_pnr_cases self Hp) as [[_ Ep] | [_ Ep]]; rewrite Ep.
  - unfold nextpnr_detected. cbv zeta.
    destruct Hkey as [-> | ->]; unfold identifier in Hid; simpl in Hid; rewrite Hid.
    + apply in_or_app. right. apply in_or_app. right. apply in_or_app. left. now left.
    + apply in_or_app. right. apply in_or_app. left. now left.
  - unfold supported_pnr in Hp. rewrite Ep in Hp. simpl in Hp. rewrite Hp.
    unfold vpr_detected. cbv zeta.
    destruct Hkey as [-> | ->]; unfold identifier in Hid; simpl in Hid; rewrite Hid.
    + apply in_or_app. right. apply in_or_app. left. now left.
    + apply in_or_app. right. apply in_or_app. right. now left.
Qed.

(** C7 (counterexample).  Symbiflow without [part]: the absence is logged
    and the run ends with the [TypeError] of ["xc7" in part], which names
    no key. *)
Lemma C7_counterexample :
  Symbiflow.part (Symbiflow.options no_part_self) = None
  /\ run (Symbiflow.configure_main no_part_self) world0 = Raise TypeError
  /\ named_error TypeError = false
  /\ log (exec (Symbiflow.configure_main no_part_self) world0)
     = [missing_param_msg "part"].
Proof. repeat split; vm_compute; reflexivity. Qed.

(** C7 (amended).  For nextpnr-mistral, nextpnr-nexus and nextpnr-gowin,
    a run without the [device] option whose files classify stops with the
    [RuntimeError] "Missing required option 'device' for nextpnr-<arch>"
    and writes nothing.  Symbiflow without [part] or without [package]
    logs 'Missing required "<key>" parameter' and raises no missing-option
    error: an abort of the run carries no [RuntimeError]. *)
Theorem C7_missing_identifier
  (nself : Nextpnr.t) (sself : Symbiflow.t) (w : world) (a : string) (v : Nextpnr.locals)
  (c : list Command) (key : string) :
  Nextpnr.flow_config_arch nself = Some a ->
  needs_device a = true ->
  Nextpnr.device (Nextpnr.options nself) = None ->
  Nextpnr.classify false (Nextpnr.files nself) = Ok v ->
  Symbiflow.yosys sself = Ok c ->
  supported_pnr sself = true ->
  key = "part" \/ key = "package" ->
  identifier sself key = None ->
  (run (Nextpnr.configure_main nself) w = Raise (Nextpnr.missing_device a)
   /\ written (exec (Nextpnr.configure_main nself) w) = written w)
  /\ In (missing_param_msg key) (log (exec (Symbiflow.configure_main sself) w))
  /\ (forall e, run (Symbiflow.configure_main sself) w = Raise e -> named_error e = false).
Proof.
  intros Ha Hd Hdev Hv Hy Hp Hkey Hid. split; [ | split ].
  - assert (Ht : truthy_opt (Nextpnr.device (Nextpnr.options nself)) = false)
      by (now rewrite Hdev).
    exact (wp_run _ _ _ (nextpnr_configure_missing_device nself w a v Ha Hd Ht Hv)).
  - exact (symbiflow_detected_logged sself c w _ Hy
             (missing_identifier_detected sself key Hp Hkey Hid)).
  - intros e He. exact (proj2 (symbiflow_configure_abort sself c w e Hy He)).
Qed.

Lemma C7_missing_identifier_witness :
  (run (Nextpnr.configure_main gowin_self) world0
   = Raise (RuntimeError "Missing required option 'device' for nextpnr-gowin")
   /\ written (exec (Nextpnr.configure_main gowin_self) world0) = written world0)
  /\ In (missing_param_msg "part") (log (exec (Symbiflow.configure_main no_part_self) world0))
  /\ (forall e, run (Symbiflow.configure_main no_part_self) world0 = Raise e ->
                named_error e = false).
Proof.
  exact (C7_missing_identifier gowin_self no_part_self world0 "gowin"
           (Nextpnr.set_netlist Nextpnr.locals0 "top.json") [] "part"
           eq_refl eq_refl eq_refl eq_refl eq_refl eq_refl (or_introl eq_refl) eq_refl).
Defined.

(** C9.  On the xilinx bitstream path (nextpnr, or vpr for the xilinx
    vendor), a run of [Symbiflow.configure_main] returns only if [part] is
    a string with "xc7a", "xc7z" or "xc7k" in it.  For a [part] string
    with none of them, [bitstream_device] stays unbound ([None] in the
    model) and a run that gets to its first use (a string for [package];
    for nextpnr a string for [arch], with one xdc file under
    fpga_interchange) ends there with the [NameError] of
    [bitstream_device], before anything is written; this is no
    [RuntimeError]. *)
Theorem C9_bitstream_device_unbound
  (self : Symbiflow.t) (w : world) (c : list Command) :
  xilinx_bitstream_path self = true ->
  Symbiflow.yosys self = Ok c ->
  (run (Symbiflow.configure_main self) w = Ok tt ->
   exists p, Symbiflow.part (Symbiflow.options self) = Some p
             /\ names_bitstream_device p = true)
  /\ (forall p k,
        Symbiflow.part (Symbiflow.options self) = Some p ->
        names_bitstream_device p = false ->
        Symbiflow.package (Symbiflow.options self) = Some k ->
        (eq_lit (Symbiflow.pnr (Symbiflow.options self)) "nextpnr" = true ->
         arch_reaches_bitstream self) ->
        Symbiflow.bitstream_device_of (Some p) w = (Ok None, w)
        /\ run (Symbiflow.configure_main self) w = Raise (NameError "bitstream_device")
        /\ written (exec (Symbiflow.configure_main self) w) = written w
        /\ named_error (NameError "bitstream_device") = false).
Proof.
  unfold xilinx_bitstream_path. intros Hpath Hy.
  assert (Hcases :
            (Symbiflow.configure_main self = Symbiflow.configure_nextpnr self
             /\ eq_lit (Symbiflow.pnr (Symbiflow.options self)) "nextpnr" = true)
            \/ (Symbiflow.configure_main self = Symbiflow.configure_vpr self
                /\ eq_lit (Symbiflow.pnr (Symbiflow.options self)) "nextpnr" = false
                /\ eq_lit (Symbiflow.vendor (Symbiflow.options self)) "xilinx" = true)).
  { destruct (eq_lit (Symbiflow.pnr (Symbiflow.options self)) "nextpnr") eqn:E.
    - left. split; [ now apply configure_main_nextpnr | reflexivity ].
    - right. simpl in Hpath. apply andb_prop in Hpath. destruct Hpath as [Hm Hv].
      split; [ now apply configure_main_vpr | split; [ reflexivity | exact Hv ] ]. }
  split.
  - intros Hr. destruct Hcases as [[E _] | [E [_ Hv]]]; rewrite E in Hr.
    + exact (proj2 (wp_run _ _ _ (configure_nextpnr_ok self w) Hr)).
    + exact (proj2 (wp_run _ _ _ (configure_vpr_ok self w) Hr) Hv).
  - intros p k Hp Hn Hk Harch.
    split; [ | split; [ | split; [ | reflexivity ] ] ].
    + unfold Symbiflow.bitstream_device_of, bind, str_in, ret.
      now rewrite (names_bitstream_device_unbound p Hn).
    + destruct Hcases as [[E Ep] | [E [_ Hv]]]; rewrite E.
      * destruct (Harch Ep) as [a [Ha Hx]].
        exact (proj1 (wp_run _ _ _
                        (configure_nextpnr_unbound self c w p k a Hy Hp Hn Hk Ha Hx))).
      * destruct (Symbiflow.vendor (Symbiflow.options self)) as [vd |] eqn:Evd;
          [ | discriminate Hv ].
        simpl in Hv. apply String.eqb_eq in Hv. subst vd.
        exact (proj1 (wp_run _ _ _ (configure_vpr_unbound self w p k Evd Hp Hn Hk))).
    + destruct Hcases as [[E Ep] | [E [_ Hv]]]; rewrite E.
      * destruct (Harch Ep) as [a [Ha Hx]].
        exact (proj2 (wp_run _ _ _
                        (configure_nextpnr_unbound self c w p k a Hy Hp Hn Hk Ha Hx))).
      * destruct (Symbiflow.vendor (Symbiflow.options self)) as [vd |] eqn:Evd;
          [ | discriminate Hv ].
        simpl in Hv. apply String.eqb_eq in Hv. subst vd.
        exact (proj2 (wp_run _ _ _ (configure_vpr_unbound self w p k Evd Hp Hn Hk))).
Qed.

Lemma spartan_reaches_bitstream :
  eq_lit (Symbiflow.pnr (Symbiflow.options spartan_self)) "nextpnr" = true ->
  arch_reaches_bitstream spartan_self.
Proof. intros _. exists "xilinx". split; [ reflexivity | discriminate ]. Qed.

Lemma C9_bitstream_device_unbound_witness :
  (run (Symbiflow.configure_main artix_self) world0 = Ok tt ->
   exists p, Symbiflow.part (Symbiflow.options artix_self) = Some p
             /\ names_bitstream_device p = true)
  /\ (Symbiflow.bitstream_device_of (Some "xc7s50") world0 = (Ok None, world0)
      /\ run (Symbiflow.configure_main spartan_self) world0
         = Raise (NameError "bitstream_device")
      /\ written (exec (Symbiflow.configure_main spartan_self) world0) = written world0
      /\ named_error (NameError "bitstream_device") = false).
Proof.
  split.
  - exact (proj1 (C9_bitstream_device_unbound artix_self world0 [] eq_refl eq_refl)).
  - exact (proj2 (C9_bitstream_device_unbound spartan_self world0 [] eq_refl eq_refl)
             "xc7s50" "csga324-1" eq_refl eq_refl eq_refl spartan_reaches_bitstream).
Defined.

(** C10.  In [Symbiflow.configure_nextpnr] with the fpga_interchange
    architecture, [len(xdcs) == 2] holds exactly when one file of the
    placement-constraint type (the tag "xdc" of symbiflow.py) is supplied.
    With none, or with two or more, a run that gets to the assertion (a
    string for [part] and for [package]) aborts with an [AssertionError]
    that carries [xdcs], which is no [RuntimeError], and writes nothing. *)
Theorem C10_xdcs_assertion
  (self : Symbiflow.t) (w : world) (c : list Command) (p k : string) :
  Symbiflow.yosys self = Ok c ->
  Symbiflow.arch (Symbiflow.options self) = Some "fpga_interchange" ->
  Symbiflow.part (Symbiflow.options self) = Some p ->
  Symbiflow.package (Symbiflow.options self) = Some k ->
  (length (Symbiflow.xdcs_of
             (Symbiflow.placement_constraints
                (Symbiflow.nextpnr_classify (Symbiflow.src_files self)))) = 2
   <-> count_xdc (Symbiflow.src_files self) = 1)
  /\ (count_xdc (Symbiflow.src_files self) <> 1 ->
      run (Symbiflow.configure_nextpnr self) w
      = Raise (AssertionError
                 (Symbiflow.xdcs_of
                    (Symbiflow.placement_constraints
                       (Symbiflow.nextpnr_classify (Symbiflow.src_files self)))))
      /\ written (exec (Symbiflow.configure_nextpnr self) w) = written w
      /\ named_error (AssertionError
                        (Symbiflow.xdcs_of
                           (Symbiflow.placement_constraints
                              (Symbiflow.nextpnr_classify (Symbiflow.src_files self)))))
         = false).
Proof.
  intros Hy Ha Hp Hk. split.
  - rewrite length_xdcs. lia.
  - intros Hx.
    destruct (wp_run _ _ _ (configure_nextpnr_assertion self c w p k Hy Ha Hp Hk Hx))
      as [Hr Hw].
    split; [ exact Hr | split; [ exact Hw | reflexivity ] ].
Qed.

Lemma two_xdc_not_one : count_xdc (Symbiflow.src_files interchange_two_xdc_self) <> 1.
Proof. vm_compute. discriminate. Qed.

Lemma C10_xdcs_assertion_witness :
  (length (Symbiflow.xdcs_of
             (Symbiflow.placement_constraints
                (Symbiflow.nextpnr_classify (Symbiflow.src_files interchange_two_xdc_self))))
   = 2
   <-> count_xdc (Symbiflow.src_files interchange_two_xdc_self) = 1)
  /\ run (Symbiflow.configure_nextpnr interchange_two_xdc_self) world0
     = Raise (AssertionError ["--xdc"; "a.xdc"; "--xdc"; "b.xdc"]).
Proof.
  destruct (C10_xdcs_assertion interchange_two_xdc_self world0 [] "xc7a35t" "cpg236-1"
              eq_refl eq_refl eq_refl eq_refl) as [Hiff Habort].
  split; [ exact Hiff | exact (proj1 (Habort two_xdc_not_one)) ].
Defined.
(** * Further properties of the configurators *)

(** ** The loop of [Nextpnr.configure_main] *)

Lemma classify_file_slots ic v f v' :
  Nextpnr.classify_file ic v f = Ok v' ->
  Nextpnr.cst_file v' = pick "CST" f (Nextpnr.cst_file v)
  /\ Nextpnr.lpf_file v' = pick "LPF" f (Nextpnr.lpf_file v)
  /\ Nextpnr.pdc_file v' = pick "PDC" f (Nextpnr.pdc_file v)
  /\ Nextpnr.pcf_file v' = pick "PCF" f (Nextpnr.pcf_file v)
  /\ Nextpnr.xdc_file v' = pick "XDC" f (Nextpnr.xdc_file v)
  /\ Nextpnr.qsf_file v' = pick "QSF" f (Nextpnr.qsf_file v)
  /\ Nextpnr.netlist v' = if ic then Nextpnr.netlist v
                          else pick "jsonNetlist" f (Nextpnr.netlist v).
Proof.
  unfold pick.
  classify_cases ic v f; intros H; inversion H; subst; cbn;
    repeat match goal with
           | H : ?a <> ?b |- context [?a =? ?b] =>
               rewrite (proj2 (String.eqb_neq a b) H)
           end; repeat split; reflexivity.
Qed.


Lemma count_type_cons ty f l :
  count_type ty (f :: l) = (if File.file_type f =? ty then 1 else 0) + count_type ty l.
Proof. unfold count_type. simpl. destruct (File.file_type f =? ty); reflexivity. Qed.

Lemma load_le s : load s <= 1.
Proof. unfold load. destruct (truthy s); lia. Qed.

Lemma no_result {A} (e : exn) : (exists v : A, Raise e = Ok v) <-> False.
Proof. split; [ intros [v H]; discriminate H | intros [] ]. Qed.

Ltac neq_false :=
  repeat match goal with
         | H : ?a <> ?b |- context [?a =? ?b] =>
             rewrite (proj2 (String.eqb_neq a b) H)
         end.

Lemma classify_file_fits ic v f :
  truthy (File.name f) = true ->
  (ic = true -> Nextpnr.netlist v = EmptyString) ->
  match Nextpnr.classify_file ic v f with
  | Ok v1 => (forall l, fits ic v1 l <-> fits ic v (f :: l))
             /\ (ic = true -> Nextpnr.netlist v1 = EmptyString)
  | Raise _ => forall l, ~ fits ic v (f :: l)
  end.
Proof.
  intros Hnm Hic.
  assert (Ht : ic = true -> truthy (Nextpnr.netlist v) = false).
  { intros E. now rewrite (Hic E). }
  unfold fits.
  destruct f as [nm ty]. cbn [File.file_type File.name] in *.
  unfold Nextpnr.classify_file; cbn [File.file_type File.name].
  destruct ic; [ specialize (Ht eq_refl); specialize (Hic eq_refl) | clear Ht Hic ].
  all: case_type ty; cbn -[truthy String.append count_type load Nat.add];
    rewrite ?Ht;
    repeat match goal with
           | |- context [if truthy ?s then _ else _] => destruct (truthy s) eqn:?
           end;
    cbn -[truthy String.append count_type load Nat.add refused_netlist].
  all: try split; try intros l; rewrite ?count_type_cons;
    cbn [File.file_type File.name refused_netlist]; neq_false;
    cbn -[truthy String.append count_type load Nat.add refused_netlist].
  all: try (intros _; assumption).
  all: unfold load; cbn [Nextpnr.cst_file Nextpnr.lpf_file Nextpnr.pdc_file Nextpnr.pcf_file
                          Nextpnr.xdc_file Nextpnr.qsf_file Nextpnr.netlist
                          Nextpnr.set_cst_file Nextpnr.set_lpf_file Nextpnr.set_pdc_file
                          Nextpnr.set_pcf_file Nextpnr.set_xdc_file Nextpnr.set_qsf_file
                          Nextpnr.set_netlist Nextpnr.append_unused];
    rewrite ?Hnm;
    repeat match goal with
           | H : truthy ?s = _ |- _ => rewrite ?H; clear H
           end.
  all: first [ exact Hic | lia ].
Qed.

Lemma for_each_classify_fits ic l : forall v,
  forallb (fun f => truthy (File.name f)) l = true ->
  (ic = true -> Nextpnr.netlist v = EmptyString) ->
  (exists v', for_each (Nextpnr.classify_file ic) l v = Ok v') <-> fits ic v l.
Proof.
  induction l as [| f l IH]; intros v Hn Hic.
  - unfold fits, count_type. simpl.
    pose proof (load_le (Nextpnr.cst_file v)). pose proof (load_le (Nextpnr.lpf_file v)).
    pose proof (load_le (Nextpnr.pdc_file v)). pose proof (load_le (Nextpnr.pcf_file v)).
    pose proof (load_le (Nextpnr.xdc_file v)). pose proof (load_le (Nextpnr.qsf_file v)).
    pose proof (load_le (Nextpnr.netlist v)).
    split; [ intros _; repeat split; assumption | intros _; eexists; reflexivity ].
  - simpl in Hn. apply andb_prop in Hn. destruct Hn as [Hnm Hn].
    pose proof (classify_file_fits ic v f Hnm Hic) as Hstep.
    cbn [for_each].
    destruct (Nextpnr.classify_file ic v f) as [v1 | e].
    + destruct Hstep as [Hfits Hic1]. rewrite <- Hfits. apply IH; assumption.
    + rewrite no_result. split; [ intros [] | apply Hstep ].
Qed.

Lemma fits_locals0 ic fs : fits ic Nextpnr.locals0 fs <-> classifiable ic fs.
Proof.
  unfold fits, classifiable, singular_types, load. cbn [Nextpnr.locals0 Nextpnr.cst_file
    Nextpnr.lpf_file Nextpnr.pdc_file Nextpnr.pcf_file Nextpnr.xdc_file Nextpnr.qsf_file
    Nextpnr.netlist truthy String.eqb negb].
  rewrite !Nat.add_0_r. split.
  - intros (H1 & H2 & H3 & H4 & H5 & H6 & H7 & H8). split; [ | exact H8 ].
    intros ty Hin. simpl in Hin.
    repeat (destruct Hin as [<- | Hin]; [ assumption | ]). contradiction.
  - intros [H H8]. repeat split; first [ exact H8 | apply H; simpl; tauto ].
Qed.

Lemma classify_succeeds (ic : bool) (fs : list File.t) :
  named fs = true ->
  (exists v, Nextpnr.classify ic fs = Ok v) <-> classifiable ic fs.
Proof.
  intros Hn. unfold Nextpnr.classify.
  rewrite (for_each_classify_fits ic fs Nextpnr.locals0 Hn (fun _ => eq_refl)).
  apply fits_locals0.
Qed.


(** ** Runs of [Nextpnr.configure_main] *)

Lemma nextpnr_configure_returns self w :
  wp (Nextpnr.configure_main self)
     (fun r w' => r = Ok tt ->
        exists a v cmd,
          Nextpnr.flow_config_arch self = Some a
          /\ ((a =? "fpga_interchange")
              && is_None (Nextpnr.chipdb (Nextpnr.options self))) = false
          /\ Nextpnr.classify (a =? "fpga_interchange") (Nextpnr.files self) = Ok v
          /\ (needs_device a = true
              -> truthy_opt (Nextpnr.device (Nextpnr.options self)) = true)
          /\ self_commands w'
             = [mkCommand cmd [Nextpnr.name self +:+ arch_ext a] [Nextpnr.netlist v];
                mkCommand (cmd ++ toks ["--gui"]) ["build-gui"] [Nextpnr.netlist v]]
          /\ written w'
             = written w
               ++ [(path_join (Nextpnr.work_root self) "Makefile",
                    EdaCommands.mk (self_commands w') EmptyString []
                                   (Some (Nextpnr.name self +:+ arch_ext a)))]
          /\ edam_files w' = Nextpnr.unused_files v
                             ++ [File.mk (Nextpnr.name self +:+ ".asc") "iceboxAscii"]
          /\ log w' = log w /\ rendered w' = rendered w) w.
Proof.
  cbv delta [Nextpnr.configure_main]. cbv beta.
  nx_run.
  all: intros Hr; try discriminate Hr.
  all: do 3 eexists.
  all: split; [ reflexivity | ]; split; [ eassumption | ]; split; [ eassumption | ].
  all: unfold arch_ext, needs_device; cbn [existsb].
  all: repeat match goal with
              | H : (_ =? _) = true |- _ => apply String.eqb_eq in H; subst
              | H : (?a =? ?b) = false |- context [?a =? ?b] => rewrite H
              end.
  all: cbn [String.eqb Ascii.eqb Bool.eqb orb].
  all: split;
    [ first [ intros _; apply negb_false_iff; assumption | intros E; discriminate E ] | ].
  all: subst_graphs.
  all: repeat split; reflexivity.
Qed.

Lemma nextpnr_configure_total self w :
  nextpnr_configurable self -> run (Nextpnr.configure_main self) w = Ok tt.
Proof.
  intros (a & v & Ha & Hc & Hv & Hd).
  apply (wp_run (Nextpnr.configure_main self) (fun r _ => r = Ok tt) w).
  cbv delta [Nextpnr.configure_main]. cbv beta. rewrite Ha.
  nx_run.
  all: try reflexivity.
  all: try congruence.
  all: exfalso.
  all: repeat match goal with
              | H : (_ =? _) = true |- _ => apply String.eqb_eq in H; subst
              end.
  all: specialize (Hd eq_refl).
  all: match goal with
       | H : negb _ = true |- _ => rewrite Hd in H; discriminate H
       end.
Qed.

(** Where a run aborts: the options, the files, or the [device] of the
    rows that ask for it. *)
Lemma nextpnr_configure_abort_state self w :
  wp (Nextpnr.configure_main self)
     (fun r w' => forall e, r = Raise e ->
        log w' = log w /\ rendered w' = rendered w
        /\ self_commands w' = self_commands w /\ written w' = written w
        /\ (edam_files w' = edam_files w
            \/ exists a v,
                 e = Nextpnr.missing_device a
                 /\ Nextpnr.classify false (Nextpnr.files self) = Ok v
                 /\ edam_files w'
                    = Nextpnr.unused_files v
                      ++ [File.mk (Nextpnr.name self +:+ ".asc") "iceboxAscii"])) w.
Proof.
  cbv delta [Nextpnr.configure_main]. cbv beta.
  nx_run.
  all: intros err He; try discriminate He.
  all: repeat split; try reflexivity.
  all: first [ left; reflexivity | right ].
  all: injection He as <-.
  all: repeat match goal with
              | H : (_ =? _) = true |- _ => apply String.eqb_eq in H; subst
              end.
  all: do 2 eexists; split; [ reflexivity | split; [ eassumption | reflexivity ] ].
Qed.


(** ** Graphs and renderings *)

Lemma commands_add g cmd tg dp :
  EdaCommands.commands (EdaCommands.add g cmd tg dp)
  = EdaCommands.commands g ++ [mkCommand cmd tg dp].
Proof. reflexivity. Qed.
Lemma commands_add_header g h :
  EdaCommands.commands (EdaCommands.add_header g h) = EdaCommands.commands g.
Proof. reflexivity. Qed.
Lemma commands_add_var g x :
  EdaCommands.commands (EdaCommands.add_var g x) = EdaCommands.commands g.
Proof. reflexivity. Qed.
Lemma commands_set_commands g l :
  EdaCommands.commands (EdaCommands.set_commands g l) = l.
Proof. reflexivity. Qed.
Lemma commands_new : EdaCommands.commands EdaCommands.new = [].
Proof. reflexivity. Qed.
Lemma commands_quicklogic_stage self g tool ext :
  EdaCommands.commands (Symbiflow.quicklogic_stage self g tool ext)
  = EdaCommands.commands g
    ++ [mkCommand (toks [tool; Symbiflow.toplevel self +:+ ".bit";
                         Symbiflow.toplevel self +:+ ext])
                  [Symbiflow.toplevel self +:+ ext] [Symbiflow.toplevel self +:+ ".bit"]].
Proof. reflexivity. Qed.

Lemma header_finalize g : EdaCommands.header (EdaCommands.finalize g) = EdaCommands.header g.
Proof. reflexivity. Qed.
Lemma header_set_default_target g d :
  EdaCommands.header (EdaCommands.set_default_target g d) = EdaCommands.header g.
Proof. reflexivity. Qed.
Lemma header_add g cmd tg dp :
  EdaCommands.header (EdaCommands.add g cmd tg dp) = EdaCommands.header g.
Proof. reflexivity. Qed.
Lemma header_add_header g h :
  EdaCommands.header (EdaCommands.add_header g h) = EdaCommands.header g +:+ h.
Proof. reflexivity. Qed.
Lemma header_add_var g x :
  EdaCommands.header (EdaCommands.add_var g x) = EdaCommands.header g.
Proof. reflexivity. Qed.
Lemma header_set_commands g l :
  EdaCommands.header (EdaCommands.set_commands g l) = EdaCommands.header g.
Proof. reflexivity. Qed.
Lemma header_new : EdaCommands.header EdaCommands.new = EmptyString.
Proof. reflexivity. Qed.
Lemma header_quicklogic_stage self g tool ext :
  EdaCommands.header (Symbiflow.quicklogic_stage self g tool ext) = EdaCommands.header g.
Proof. reflexivity. Qed.

Lemma variables_finalize g :
  EdaCommands.variables (EdaCommands.finalize g) = EdaCommands.variables g.
Proof. reflexivity. Qed.
Lemma variables_set_default_target g d :
  EdaCommands.variables (EdaCommands.set_default_target g d) = EdaCommands.variables g.
Proof. reflexivity. Qed.
Lemma variables_add g cmd tg dp :
  EdaCommands.variables (EdaCommands.add g cmd tg dp) = EdaCommands.variables g.
Proof. reflexivity. Qed.
Lemma variables_add_header g h :
  EdaCommands.variables (EdaCommands.add_header g h) = EdaCommands.variables g.
Proof. reflexivity. Qed.
Lemma variables_add_var g x :
  EdaCommands.variables (EdaCommands.add_var g x) = EdaCommands.variables g ++ [x].
Proof. reflexivity. Qed.
Lemma variables_set_commands g l :
  EdaCommands.variables (EdaCommands.set_commands g l) = EdaCommands.variables g.
Proof. reflexivity. Qed.
Lemma variables_new : EdaCommands.variables EdaCommands.new = [].
Proof. reflexivity. Qed.
Lemma variables_quicklogic_stage self g tool ext :
  EdaCommands.variables (Symbiflow.quicklogic_stage self g tool ext)
  = EdaCommands.variables g.
Proof. reflexivity. Qed.

Create Rewrite HintDb graph.
#[global] Hint Rewrite commands_finalize commands_set_default_target commands_add
  commands_add_header commands_add_var commands_set_commands commands_new
  commands_quicklogic_stage
  header_finalize header_set_default_target header_add header_add_header header_add_var
  header_set_commands header_new header_quicklogic_stage
  variables_finalize variables_set_default_target variables_add variables_add_header
  variables_add_var variables_set_commands variables_new variables_quicklogic_stage
  default_target_set : graph.

Lemma rendered_add_log w msg : rendered (add_log w msg) = rendered w.
Proof. reflexivity. Qed.
Lemma rendered_logged b msg w : rendered (logged b msg w) = rendered w.
Proof. destruct b; reflexivity. Qed.
Lemma rendered_add_rendering w r : rendered (add_rendering w r) = rendered w ++ [r].
Proof. reflexivity. Qed.
Lemma rendered_add_written w p g : rendered (add_written w p g) = rendered w.
Proof. reflexivity. Qed.

Create Rewrite HintDb rendered.
#[global] Hint Rewrite rendered_add_log rendered_logged rendered_add_rendering
  rendered_add_written : rendered.

(** The stages that a graph holds beyond the list [c] it started from. *)
Lemma stages_set_commands g c :
  EdaCommands.commands (EdaCommands.set_commands g c) = c ++ [].
Proof. simpl. now rewrite app_nil_r. Qed.
Lemma stages_new : EdaCommands.commands EdaCommands.new = [] ++ [].
Proof. reflexivity. Qed.
Lemma stages_add g c l cmd tg dp :
  EdaCommands.commands g = c ++ l ->
  EdaCommands.commands (EdaCommands.add g cmd tg dp) = c ++ (l ++ [mkCommand cmd tg dp]).
Proof. simpl. intros ->. now rewrite app_assoc. Qed.
Lemma stages_add_header g c l h :
  EdaCommands.commands g = c ++ l ->
  EdaCommands.commands (EdaCommands.add_header g h) = c ++ l.
Proof. exact (fun H => H). Qed.
Lemma stages_add_var g c l x :
  EdaCommands.commands g = c ++ l ->
  EdaCommands.commands (EdaCommands.add_var g x) = c ++ l.
Proof. exact (fun H => H). Qed.
Lemma stages_set_default_target g c l d :
  EdaCommands.commands g = c ++ l ->
  EdaCommands.commands (EdaCommands.set_default_target g d) = c ++ l.
Proof. exact (fun H => H). Qed.
Lemma stages_finalize g c l :
  EdaCommands.commands g = c ++ l ->
  EdaCommands.commands (EdaCommands.finalize g) = c ++ l.
Proof. exact (fun H => H). Qed.
Lemma stages_quicklogic_stage self g c l tool ext :
  EdaCommands.commands g = c ++ l ->
  EdaCommands.commands (Symbiflow.quicklogic_stage self g tool ext)
  = c ++ (l ++ [mkCommand (toks [tool; Symbiflow.toplevel self +:+ ".bit";
                                 Symbiflow.toplevel self +:+ ext])
                          [Symbiflow.toplevel self +:+ ext]
                          [Symbiflow.toplevel self +:+ ".bit"]]).
Proof. apply stages_add. Qed.

Ltac stages_solve :=
  repeat first
    [ simple apply stages_finalize | simple apply stages_set_default_target
    | simple apply stages_add | simple apply stages_add_header
    | simple apply stages_add_var | simple apply stages_quicklogic_stage
    | simple apply stages_set_commands | simple apply stages_new ].

Ltac xdc_count :=
  first
    [ intros _;
      match goal with
      | H : negb (Nat.eqb (length _) 2) = false |- _ =>
          rewrite assert_xdcs_iff in H; apply negb_false_iff in H;
          apply Nat.eqb_eq in H; exact H
      end
    | intros ->;
      match goal with
      | H : eq_lit ?x _ = false, E : ?x = Some _ |- _ =>
          rewrite E in H; discriminate H
      end ].

Ltac in_solve := simpl; repeat first [ left; reflexivity | right ].

Ltac chain_solve :=
  repeat split;
  try (let d := fresh "d" in
       let H := fresh "H" in
       intros d H; simpl in H;
       repeat (destruct H as [<- | H]; [ in_solve | ]); destruct H).

Lemma configure_nextpnr_returns self w :
  wp (Symbiflow.configure_nextpnr self)
     (fun r w' => r = Ok tt ->
        exists c p k a g stages,
          Symbiflow.yosys self = Ok c
          /\ Symbiflow.part (Symbiflow.options self) = Some p
          /\ names_bitstream_device p = true
          /\ Symbiflow.package (Symbiflow.options self) = Some k
          /\ Symbiflow.arch (Symbiflow.options self) = Some a
          /\ (a = "fpga_interchange" -> count_xdc (Symbiflow.src_files self) = 1)
          /\ (fasm2bels_enabled self = true
              -> Symbiflow.dbroot (Symbiflow.options self) <> None)
          /\ written w' = written w ++ [(path_join (Symbiflow.work_root self) "Makefile", g)]
          /\ EdaCommands.commands g = c ++ stages
          /\ map targets stages = map (fun t => [t]) (nextpnr_stage_targets self)
          /\ closed_chain [Symbiflow.name self +:+ ".json"] stages
          /\ EdaCommands.default_target g = Some (nextpnr_default_target self)
          /\ EdaCommands.header g = nextpnr_header self
          /\ EdaCommands.variables g = []
          /\ map outfile (rendered w') = map outfile (rendered w) ++ nextpnr_outfiles self) w.
Proof.
  cbv delta [Symbiflow.configure_nextpnr]. cbv beta.
  wp_run.
  all: intros Hr; try discriminate Hr.
  all: try match goal with
           | |- context [Symbiflow.schema_dir ?o] =>
               let E := fresh "Hsd" in destruct (Symbiflow.schema_dir o) eqn:E
           end.
  all: do 6 eexists.
  all: split; [ first [ reflexivity | eassumption ] | ].
  all: split; [ eassumption | ].
  all: split; [ eapply names_bitstream_device_bound; eassumption | ].
  all: split; [ first [ reflexivity | eassumption ] | ].
  all: split; [ eassumption | ].
  all: split; [ xdc_count | ].
  all: split; [ unfold fasm2bels_enabled; intros E; congruence | ].
  all: unfold nextpnr_stage_targets, nextpnr_default_target, nextpnr_header,
         nextpnr_outfiles, fasm2bels_enabled.
  all: repeat match goal with
              | H : ?b = true |- context [if ?b then _ else _] => rewrite H
              | H : ?b = false |- context [if ?b then _ else _] => rewrite H
              end.
  all: try match goal with
           | E : Symbiflow.schema_dir _ = _ |- _ => rewrite ?E
           end; cbn [is_None].
  all: split; [ autorewrite with written; reflexivity | ].
  all: split; [ stages_solve | ].
  all: split; [ reflexivity | ].
  all: split; [ cbn [closed_chain app targets depends]; chain_solve | ].
  all: split; [ reflexivity | ].
  all: split; [ reflexivity | ].
  all: split; [ reflexivity | ].
  all: autorewrite with rendered; rewrite ?map_app; cbn [map outfile];
    cbn [app]; rewrite ?app_nil_r, <- ?app_assoc; reflexivity.
Qed.

Lemma eq_lit_true x lit : eq_lit x lit = true -> x = Some lit.
Proof. destruct x; simpl; [ intros H; apply String.eqb_eq in H; now subst | discriminate ]. Qed.

Lemma configure_vpr_returns self w :
  wp (Symbiflow.configure_vpr self)
     (fun r w' => r = Ok tt ->
        exists g stages,
          vpr_vendor_ready self
          /\ (fasm2bels_enabled self = true
              -> Symbiflow.dbroot (Symbiflow.options self) <> None)
          /\ written w' = written w ++ [(path_join (Symbiflow.work_root self) "Makefile", g)]
          /\ EdaCommands.commands g = [] ++ stages
          /\ map targets stages = map (fun t => [t]) (vpr_stage_targets self)
          /\ closed_chain [] stages
          /\ EdaCommands.default_target g = Some (vpr_default_target self)
          /\ EdaCommands.header g = EmptyString
          /\ EdaCommands.variables g = vpr_variables self
          /\ map outfile (rendered w') = map outfile (rendered w) ++ vpr_outfiles self) w.
Proof.
  cbv delta [Symbiflow.configure_vpr]. cbv beta.
  wp_run.
  all: intros Hr; try discriminate Hr.
  all: match goal with
       | H : eq_lit (Symbiflow.vendor ?o) "xilinx" = true |- _ =>
           pose proof (eq_lit_true _ _ H) as Hv;
           assert (Hq : eq_lit (Symbiflow.vendor o) "quicklogic" = false)
             by (rewrite Hv; reflexivity)
       | H : eq_lit (Symbiflow.vendor ?o) "quicklogic" = true |- _ =>
           pose proof (eq_lit_true _ _ H) as Hv; pose proof H as Hq
       end.
  all: rewrite ?Hq in *.
  all: do 2 eexists.
  all: split;
    [ first
        [ left; split; [ exact Hv | ];
          do 2 eexists; split; [ eassumption | ];
          split; [ eapply names_bitstream_device_bound; eassumption | eassumption ]
        | right; split; [ exact Hv | ]; eexists; eassumption ] | ].
  all: split; [ unfold fasm2bels_enabled; intros E; congruence | ].
  all: split; [ autorewrite with written; reflexivity | ].
  all: unfold vpr_stage_targets, vpr_default_target, vpr_variables, vpr_part, vpr_outfiles,
         fasm2bels_enabled.
  all: repeat match goal with
              | H : ?b = true |- context [if ?b then _ else _] => rewrite H
              | H : ?b = false |- context [if ?b then _ else _] => rewrite H
              end.
  all: repeat match goal with
              | H : ?b = _ |- context [?b && _] => rewrite H
              end; cbn [andb].
  all: subst_graphs.
  all: split; [ stages_solve | ].
  all: split; [ reflexivity | ].
  all: split; [ cbn [closed_chain app targets depends]; chain_solve | ].
  all: split; [ reflexivity | ].
  all: split; [ reflexivity | ].
  all: split; [ reflexivity | ].
  all: autorewrite with rendered; rewrite ?map_app; cbn [map outfile];
    cbn [app]; rewrite ?app_nil_r, <- ?app_assoc; reflexivity.
Qed.


(** ** Inputs that let the Symbiflow configurators return *)

Lemma configure_nextpnr_total self w :
  nextpnr_ready self -> run (Symbiflow.configure_nextpnr self) w = Ok tt.
Proof.
  intros ([c Hy] & (p & Hp & Hn) & [k Hk] & (a & Ha & Hx) & Hf).
  apply (wp_run (Symbiflow.configure_nextpnr self) (fun r _ => r = Ok tt) w).
  unfold fasm2bels_enabled in Hf.
  apply names_bitstream_device_some in Hn. destruct Hn as [v Hn].
  assert (Hi : eq_lit (Symbiflow.arch (Symbiflow.options self)) "fpga_interchange"
               = (a =? "fpga_interchange")) by (now rewrite Ha).
  destruct (String.eqb_spec a "fpga_interchange") as [E | E].
  - specialize (Hx E).
    assert (Hassert : negb (Nat.eqb (length (Symbiflow.xdcs_of
                         (Symbiflow.placement_constraints
                            (Symbiflow.nextpnr_classify (Symbiflow.src_files self))))) 2)
                      = false).
    { rewrite assert_xdcs_iff, Hx. reflexivity. }
    cbv delta [Symbiflow.configure_nextpnr]. cbv beta. rewrite Hy.
    wp_run; path_leaf.
    all: first [ reflexivity | exfalso; apply Hf; [ assumption | assumption ] ].
  - clear Hx.
    cbv delta [Symbiflow.configure_nextpnr]. cbv beta. rewrite Hy.
    wp_run; path_leaf.
    all: first [ reflexivity | exfalso; apply Hf; [ assumption | assumption ] ].
Qed.

Lemma configure_vpr_total self w :
  vpr_ready self -> run (Symbiflow.configure_vpr self) w = Ok tt.
Proof.
  intros [[(Hv & p & k & Hp & Hn & Hk) | (Hv & p & Hp)] Hf].
  - apply (wp_run (Symbiflow.configure_vpr self) (fun r _ => r = Ok tt) w).
    unfold fasm2bels_enabled in Hf.
    apply names_bitstream_device_some in Hn. destruct Hn as [v Hn].
    assert (Hx : eq_lit (Symbiflow.vendor (Symbiflow.options self)) "xilinx" = true)
      by (now rewrite Hv).
    cbv delta [Symbiflow.configure_vpr]. cbv beta.
    wp_run; path_leaf.
    all: first [ reflexivity | exfalso; apply Hf; [ assumption | assumption ] ].
  - apply (wp_run (Symbiflow.configure_vpr self) (fun r _ => r = Ok tt) w).
    unfold fasm2bels_enabled in Hf.
    assert (Hx : eq_lit (Symbiflow.vendor (Symbiflow.options self)) "xilinx" = false)
      by (now rewrite Hv).
    assert (Hq : eq_lit (Symbiflow.vendor (Symbiflow.options self)) "quicklogic" = true)
      by (now rewrite Hv).
    cbv delta [Symbiflow.configure_vpr]. cbv beta.
    wp_run; path_leaf.
    all: first [ reflexivity | exfalso; apply Hf; [ assumption | assumption ] ].
Qed.


(** ** Commands of the stages *)

Lemma bound_family p v :
  (if contains "xc7k" p then Some "kintex7"
   else if contains "xc7z" p then Some "zynq7"
        else if contains "xc7a" p then Some "artix7" else None) = Some v ->
  v = bitstream_family p.
Proof.
  unfold bitstream_family.
  destruct (contains "xc7k" p), (contains "xc7z" p), (contains "xc7a" p);
    intros H; first [ now injection H as <- | discriminate H ].
Qed.

Lemma In_stage_here g cmd cmd' tg dp :
  cmd = cmd' -> In (mkCommand cmd' tg dp) (EdaCommands.commands (EdaCommands.add g cmd tg dp)).
Proof. intros <-. simpl. apply in_or_app. right. now left. Qed.

Lemma In_stage_later g c cmd tg dp :
  In c (EdaCommands.commands g) -> In c (EdaCommands.commands (EdaCommands.add g cmd tg dp)).
Proof. intros H. simpl. apply in_or_app. now left. Qed.

Lemma In_stage_quicklogic self g c tool ext :
  In c (EdaCommands.commands g) ->
  In c (EdaCommands.commands (Symbiflow.quicklogic_stage self g tool ext)).
Proof. apply In_stage_later. Qed.

Lemma In_stage_finalize g c :
  In c (EdaCommands.commands g) -> In c (EdaCommands.commands (EdaCommands.finalize g)).
Proof. exact (fun H => H). Qed.

Lemma In_stage_set_default_target g c d :
  In c (EdaCommands.commands g) ->
  In c (EdaCommands.commands (EdaCommands.set_default_target g d)).
Proof. exact (fun H => H). Qed.

Lemma placement_constraints_classify fs :
  Symbiflow.placement_constraints (Symbiflow.nextpnr_classify fs) = names_of "xdc" fs.
Proof. unfold Symbiflow.nextpnr_classify. now rewrite placement_constraints_fold. Qed.

Lemma xdcs_single l x :
  negb (Nat.eqb (length (Symbiflow.xdcs_of l)) 2) = false ->
  nth_error (Symbiflow.xdcs_of l) 1 = Some x ->
  l = [x].
Proof.
  intros H. apply negb_false_iff, Nat.eqb_eq in H. rewrite length_xdcs_of in H.
  destruct l as [| y [| z l]]; simpl in H; try lia.
  simpl. now intros [= ->].
Qed.

(** Compare two commands up to the grouping of their pieces. *)
Ltac cmd_eq :=
  unfold Symbiflow.xdcs_of; rewrite ?placement_constraints_classify;
  cbn [toks map app]; rewrite <- ?app_assoc; cbn [app]; reflexivity.

(** Find a stage in a graph by its outputs and dependencies. *)
Ltac stage_search :=
  repeat lazymatch goal with
         | |- In _ (EdaCommands.commands (EdaCommands.finalize _)) =>
             simple apply In_stage_finalize
         | |- In _ (EdaCommands.commands (EdaCommands.set_default_target _ _)) =>
             simple apply In_stage_set_default_target
         | |- In _ (EdaCommands.commands (EdaCommands.add _ _ _ _)) =>
             first [ simple apply In_stage_here; cmd_eq | simple apply In_stage_later ]
         | |- In _ (EdaCommands.commands (Symbiflow.quicklogic_stage _ _ _ _)) =>
             simple apply In_stage_quicklogic
         end.

Lemma configure_nextpnr_commands self w :
  wp (Symbiflow.configure_nextpnr self)
     (fun r w' => r = Ok tt ->
        exists p k a g,
          Symbiflow.part (Symbiflow.options self) = Some p
          /\ Symbiflow.package (Symbiflow.options self) = Some k
          /\ Symbiflow.arch (Symbiflow.options self) = Some a
          /\ written w' = written w ++ [(path_join (Symbiflow.work_root self) "Makefile", g)]
          /\ In (mkCommand
                   (toks ["symbiflow_write_bitstream"; "-d"; bitstream_family p;
                          "-f"; Symbiflow.name self +:+ ".fasm";
                          "-p"; p +:+ k;
                          "-b"; Symbiflow.name self +:+ ".bit"])
                   [Symbiflow.name self +:+ ".bit"] [Symbiflow.name self +:+ ".fasm"])
                (EdaCommands.commands g)
          /\ (a <> "fpga_interchange" ->
              In (mkCommand
                    ([Some ("nextpnr-" +:+ a); Some "--chipdb";
                      Symbiflow.chipdb (Symbiflow.nextpnr_classify (Symbiflow.src_files self))]
                     ++ toks (flat_map (fun x => ["--xdc"; x])
                                       (names_of "xdc" (Symbiflow.src_files self)))
                     ++ toks ["--json"; Symbiflow.name self +:+ ".json";
                              "--write"; Symbiflow.name self +:+ ".routed.json";
                              "--fasm"; Symbiflow.name self +:+ ".fasm";
                              "--log"; "nextpnr.log";
                              match Symbiflow.nextpnr_options (Symbiflow.options self) with
                              | Some s => s
                              | None => EmptyString
                              end])
                    [Symbiflow.name self +:+ ".fasm"] [Symbiflow.name self +:+ ".json"])
                 (EdaCommands.commands g))
          /\ (a = "fpga_interchange" ->
              exists x,
                names_of "xdc" (Symbiflow.src_files self) = [x]
                /\ In (mkCommand
                         ([Some "nextpnr-fpga_interchange"; Some "--chipdb";
                           Symbiflow.chipdb
                             (Symbiflow.nextpnr_classify (Symbiflow.src_files self));
                           Some "--package"; Some (split_head "-" k)]
                          ++ toks ["--xdc"; x;
                                   "--netlist"; Symbiflow.name self +:+ ".netlist";
                                   "--write"; Symbiflow.name self +:+ ".routed.json";
                                   "--phys"; Symbiflow.name self +:+ ".phys";
                                   match Symbiflow.nextpnr_options (Symbiflow.options self) with
                                   | Some s => s
                                   | None => EmptyString
                                   end])
                         [Symbiflow.name self +:+ ".phys"]
                         [Symbiflow.name self +:+ ".netlist"])
                      (EdaCommands.commands g)
                /\ In (mkCommand
                         (toks ["RAPIDWRIGHT_PATH=${RAPIDWRIGHT_PATH} ${RAPIDWRIGHT_PATH}/scripts/invoke_rapidwright.sh com.xilinx.rapidwright.interchange.PhysicalNetlistToDcp";
                                Symbiflow.name self +:+ ".netlist";
                                Symbiflow.name self +:+ ".phys"; x;
                                Symbiflow.name self +:+ ".dcp"])
                         [Symbiflow.name self +:+ ".dcp"]
                         [Symbiflow.name self +:+ ".fasm"])
                      (EdaCommands.commands g))) w.
Proof.
  cbv delta [Symbiflow.configure_nextpnr]. cbv beta.
  wp_run.
  all: intros Hr; try discriminate Hr.
  all: match goal with
       | H : _ = Some ?v |- context [toks ["symbiflow_write_bitstream"; "-d"; ?v]] =>
           apply bound_family in H; subst v
       end.
  all: match goal with
       | H1 : eq_lit ?x "fpga_interchange" = _, H3 : ?x = Some ?s |- _ =>
           pose proof H1 as Harch; rewrite H3 in Harch; cbn [eq_lit] in Harch;
           first [ apply String.eqb_eq in Harch; subst s
                 | apply String.eqb_neq in Harch ]
       end.
  all: try match goal with
           | Hl : negb (Nat.eqb (length (Symbiflow.xdcs_of ?l)) 2) = false,
             Hn : nth_error (Symbiflow.xdcs_of ?l) 1 = Some ?x |- _ =>
               pose proof (xdcs_single l x Hl Hn) as Hone
           end.
  all: do 4 eexists.
  all: split; [ eassumption | ].
  all: split; [ first [ reflexivity | eassumption ] | ].
  all: split; [ eassumption | ].
  all: split; [ autorewrite with written; reflexivity | ].
  all: split; [ stage_search | ].
  all: split.
  all: let E := fresh "E" in
       intros E; try (exfalso; congruence).
  all: try solve [ stage_search ].
  all: eexists.
  all: split; [ rewrite <- placement_constraints_classify; exact Hone | ].
  all: rewrite Hone.
  all: split; stage_search.
Qed.


Lemma string_append_assoc (a b c : string) : (a +:+ b) +:+ c = a +:+ (b +:+ c).
Proof. induction a as [| x a IH]; simpl; [ reflexivity | now rewrite IH ]. Qed.

(** Compare a command with a pattern whose tail is left open. *)
Ltac cmd_eq_open := cbn [toks map app]; rewrite ?string_append_assoc; reflexivity.

Ltac stage_search_open :=
  repeat lazymatch goal with
         | |- In _ (EdaCommands.commands (EdaCommands.finalize _)) =>
             simple apply In_stage_finalize
         | |- In _ (EdaCommands.commands (EdaCommands.set_default_target _ _)) =>
             simple apply In_stage_set_default_target
         | |- In _ (EdaCommands.commands (EdaCommands.add _ _ _ _)) =>
             first [ simple apply In_stage_here; cmd_eq_open | simple apply In_stage_later ]
         | |- In _ (EdaCommands.commands (Symbiflow.quicklogic_stage _ _ _ _)) =>
             simple apply In_stage_quicklogic
         | |- In _ (EdaCommands.commands (let _ := _ in _)) => cbv zeta
         end.

Ltac subst_tokens :=
  repeat match goal with
         | H : ?x = _ |- _ =>
             is_var x;
             lazymatch type of x with
             | list token => subst x
             | list (option string) => subst x
             end
         end.

Lemma alias_part x s0 :
  (if eq_lit x "xc7a35t" then Some "xc7a50t" else x) = Some s0 ->
  forall p, x = Some p -> s0 = device_part p.
Proof.
  intros H p ->. unfold device_part. cbn [eq_lit] in H.
  destruct (p =? "xc7a35t"); now injection H as <-.
Qed.

Lemma configure_vpr_xilinx_commands self w :
  Symbiflow.vendor (Symbiflow.options self) = Some "xilinx" ->
  wp (Symbiflow.configure_vpr self)
     (fun r w' => r = Ok tt ->
        exists g p k,
          Symbiflow.part (Symbiflow.options self) = Some p
          /\ Symbiflow.package (Symbiflow.options self) = Some k
          /\ written w' = written w ++ [(path_join (Symbiflow.work_root self) "Makefile", g)]
          /\ EdaCommands.variables g
             = ["export EDALIZE_VENDOR=xilinx"; "export EDALIZE_PART=" +:+ device_part p]
          /\ (forall tool ext dep,
                 In (tool, ext, dep) vpr_flow_stages ->
                 exists post,
                   In (mkCommand
                         (toks [tool; "-e"; Symbiflow.toplevel self +:+ ".eblif";
                                "-d"; device_part p +:+ "_test"] ++ post)
                         [Symbiflow.toplevel self +:+ ext]
                         [Symbiflow.toplevel self +:+ dep])
                      (EdaCommands.commands g))
          /\ In (mkCommand
                   (toks ["symbiflow_write_bitstream"; "-d"; bitstream_family p;
                          "-f"; Symbiflow.toplevel self +:+ ".fasm";
                          "-p"; p +:+ k;
                          "-b"; Symbiflow.toplevel self +:+ ".bit"])
                   [Symbiflow.toplevel self +:+ ".bit"]
                   [Symbiflow.toplevel self +:+ ".fasm"])
                (EdaCommands.commands g)) w.
Proof.
  intros Hv.
  assert (Hx : eq_lit (Symbiflow.vendor (Symbiflow.options self)) "xilinx" = true)
    by (now rewrite Hv).
  assert (Hq : eq_lit (Symbiflow.vendor (Symbiflow.options self)) "quicklogic" = false)
    by (now rewrite Hv).
  cbv delta [Symbiflow.configure_vpr]. cbv beta.
  wp_run.
  all: intros Hr; try discriminate Hr.
  all: match goal with
       | H : (if contains "xc7k" _ then _ else _) = Some ?v |- _ =>
           apply bound_family in H; subst v
       end.
  all: match goal with
       | H : (if eq_lit ?x "xc7a35t" then _ else _) = Some ?s, Hp : ?x = Some ?p |- _ =>
           pose proof (alias_part x s H p Hp); subst s; clear H
       end.
  all: rewrite ?Hq, ?Hx, ?Hv in *.
  all: subst_tokens.
  all: do 3 eexists.
  all: split; [ eassumption | ].
  all: split; [ eassumption | ].
  all: split; [ autorewrite with written; reflexivity | ].
  all: subst_graphs.
  all: split;
    [ match goal with
      | Hp : Symbiflow.part _ = Some ?p |- _ =>
          autorewrite with graph; rewrite Hp; unfold device_part; cbn [eq_lit str app];
          destruct (p =? "xc7a35t"); reflexivity
      end | ].
  all: split; [ | stage_search ].
  all: intros tool ext dep Hin; simpl in Hin.
  all: repeat (destruct Hin as [Hin | Hin];
               [ injection Hin as <- <- <-; eexists; stage_search_open | ]).
  all: destruct Hin.
Qed.

Lemma configure_vpr_quicklogic_commands self w :
  Symbiflow.vendor (Symbiflow.options self) = Some "quicklogic" ->
  wp (Symbiflow.configure_vpr self)
     (fun r w' => r = Ok tt ->
        exists g p,
          Symbiflow.part (Symbiflow.options self) = Some p
          /\ written w' = written w ++ [(path_join (Symbiflow.work_root self) "Makefile", g)]
          /\ EdaCommands.variables g
             = ["export EDALIZE_VENDOR=quicklogic"; "export EDALIZE_PART=" +:+ p]
          /\ (forall tool ext dep,
                 In (tool, ext, dep) vpr_flow_stages ->
                 exists post,
                   In (mkCommand
                         (toks [tool; "-e"; Symbiflow.toplevel self +:+ ".eblif";
                                "-d"; p +:+ "_wlcsp"] ++ post)
                         [Symbiflow.toplevel self +:+ ext]
                         [Symbiflow.toplevel self +:+ dep])
                      (EdaCommands.commands g))
          /\ In (mkCommand
                   [Some "symbiflow_write_bitstream"; Some "-d"; Some (p +:+ "_wlcsp");
                    Some "-f"; Some (Symbiflow.toplevel self +:+ ".fasm");
                    Some "-P"; Symbiflow.package (Symbiflow.options self);
                    Some "-b"; Some (Symbiflow.toplevel self +:+ ".bit")]
                   [Symbiflow.toplevel self +:+ ".bit"]
                   [Symbiflow.toplevel self +:+ ".fasm"])
                (EdaCommands.commands g)) w.
Proof.
  intros Hv.
  assert (Hx : eq_lit (Symbiflow.vendor (Symbiflow.options self)) "xilinx" = false)
    by (now rewrite Hv).
  assert (Hq : eq_lit (Symbiflow.vendor (Symbiflow.options self)) "quicklogic" = true)
    by (now rewrite Hv).
  cbv delta [Symbiflow.configure_vpr]. cbv beta.
  wp_run.
  all: intros Hr; try discriminate Hr.
  all: leaf_norm.
  all: rewrite ?Hq, ?Hx, ?Hv in *.
  all: subst_tokens.
  all: do 2 eexists.
  all: split; [ eassumption | ].
  all: split; [ autorewrite with written; reflexivity | ].
  all: subst_graphs.
  all: split;
    [ match goal with
      | Hp : Symbiflow.part _ = Some ?p |- _ =>
          autorewrite with graph; rewrite Hp; reflexivity
      end | ].
  all: split; [ | stage_search_open ].
  all: intros tool ext dep Hin; simpl in Hin.
  all: repeat (destruct Hin as [Hin | Hin];
               [ injection Hin as <- <- <-; eexists; stage_search_open | ]).
  all: destruct Hin.
Qed.


(** With no vendor branch taken, the names of the branches stay unbound. *)
Lemma configure_vpr_other_vendor self w :
  eq_lit (Symbiflow.vendor (Symbiflow.options self)) "xilinx" = false ->
  eq_lit (Symbiflow.vendor (Symbiflow.options self)) "quicklogic" = false ->
  wp (Symbiflow.configure_vpr self)
     (fun r w' =>
        r = Raise (NameError (if fasm2bels_enabled self then "partname"
                              else "bitstream_device"))
        /\ written w' = written w) w.
Proof.
  intros Hx Hq. unfold fasm2bels_enabled.
  cbv delta [Symbiflow.configure_vpr]. cbv beta.
  wp_run; path_leaf.
  all: repeat match goal with
              | H : ?b = _ |- context [if ?b then _ else _] => rewrite H
              end.
  all: split; [ reflexivity | autorewrite with written; reflexivity ].
Qed.

(** ** The classifiers of symbiflow.py *)

(** Substitute the names bound to strings; other bindings stay. *)
Ltac zeta_strings :=
  repeat match goal with
         | |- context C [let x := ?a in @?B x] =>
             lazymatch type of a with
             | string =>
                 let t := eval cbv beta in (B a) in
                 let G := context C [t] in
                 change G
             end
         end.

Lemma vpr_classify_file_eq v f :
  Symbiflow.vpr_classify_file v f
  = Symbiflow.mkVprLocals
      (if File.file_type f =? "verilogSource"
       then Symbiflow.file_list v ++ [File.name f] else Symbiflow.file_list v)
      (if File.file_type f =? "SDC"
       then Symbiflow.timing_constraints v ++ [File.name f]
       else Symbiflow.timing_constraints v)
      (if File.file_type f =? "PCF"
       then Symbiflow.pins_constraints v ++ [File.name f]
       else Symbiflow.pins_constraints v)
      (if File.file_type f =? "xdc"
       then Symbiflow.vpr_placement_constraints v ++ [File.name f]
       else Symbiflow.vpr_placement_constraints v)
      (if File.file_type f =? "VPRGrid" then Some (File.name f)
       else Symbiflow.vpr_vpr_grid v)
      (if File.file_type f =? "RRGraph" then Some (File.name f)
       else Symbiflow.vpr_rr_graph v)
      (if File.file_type f =? "capnp" then Some (File.name f)
       else Symbiflow.vpr_vpr_capnp_schema v).
Proof.
  destruct f as [nm ty], v as [fl tc pc xc vg rg cs].
  cbv delta [Symbiflow.vpr_classify_file].
  cbv beta iota delta [File.file_type File.name].
  zeta_strings.
  destruct (ty =? "verilogSource"), (ty =? "SDC"), (ty =? "PCF"), (ty =? "xdc"),
    (ty =? "RRGraph"), (ty =? "VPRGrid"), (ty =? "capnp").
  all: reflexivity.
Qed.

Lemma nextpnr_classify_file_fields v f :
  Symbiflow.placement_constraints (Symbiflow.nextpnr_classify_file v f)
  = Symbiflow.placement_constraints v
    ++ (if File.file_type f =? "xdc" then [File.name f] else [])
  /\ Symbiflow.chipdb (Symbiflow.nextpnr_classify_file v f)
     = (if File.file_type f =? "bba" then Some (File.name f) else Symbiflow.chipdb v)
  /\ Symbiflow.device (Symbiflow.nextpnr_classify_file v f)
     = (if File.file_type f =? "device" then Some (File.name f) else Symbiflow.device v)
  /\ Symbiflow.rr_graph (Symbiflow.nextpnr_classify_file v f)
     = (if File.file_type f =? "RRGraph" then Some (File.name f)
        else Symbiflow.rr_graph v)
  /\ Symbiflow.vpr_grid (Symbiflow.nextpnr_classify_file v f)
     = (if File.file_type f =? "VPRGrid" then Some (File.name f)
        else Symbiflow.vpr_grid v)
  /\ Symbiflow.vpr_capnp_schema (Symbiflow.nextpnr_classify_file v f)
     = (if File.file_type f =? "capnp" then Some (File.name f)
        else Symbiflow.vpr_capnp_schema v).
Proof.
  unfold Symbiflow.nextpnr_classify_file. cbv zeta.
  destruct f as [nm ty]. cbn [File.file_type File.name].
  repeat match goal with
         | |- context [if ?s =? ?lit then _ else _] =>
             lazymatch s with
             | ty => destruct (String.eqb_spec s lit); [ subst ty | ]
             end
         end.
  all: cbn; rewrite ?app_nil_r; repeat split; reflexivity.
Qed.

Lemma names_of_cons ty f fs :
  names_of ty (f :: fs)
  = (if File.file_type f =? ty then [File.name f] else []) ++ names_of ty fs.
Proof. unfold names_of. simpl. destruct (File.file_type f =? ty); reflexivity. Qed.

Lemma app_if_names {A} (b : bool) (l : list A) (x : A) (r : list A) :
  (if b then l ++ [x] else l) ++ r = l ++ (if b then [x] else []) ++ r.
Proof. destruct b; [ now rewrite <- app_assoc | reflexivity ]. Qed.

Lemma vpr_classify_fold fs : forall v,
  fold_left Symbiflow.vpr_classify_file fs v
  = Symbiflow.mkVprLocals
      (Symbiflow.file_list v ++ names_of "verilogSource" fs)
      (Symbiflow.timing_constraints v ++ names_of "SDC" fs)
      (Symbiflow.pins_constraints v ++ names_of "PCF" fs)
      (Symbiflow.vpr_placement_constraints v ++ names_of "xdc" fs)
      (last_from "VPRGrid" fs (Symbiflow.vpr_vpr_grid v))
      (last_from "RRGraph" fs (Symbiflow.vpr_rr_graph v))
      (last_from "capnp" fs (Symbiflow.vpr_vpr_capnp_schema v)).
Proof.
  induction fs as [| f fs IH]; intros v.
  - destruct v. simpl. unfold names_of. simpl. now rewrite !app_nil_r.
  - cbn [fold_left]. rewrite IH, vpr_classify_file_eq.
    cbn [Symbiflow.file_list Symbiflow.timing_constraints Symbiflow.pins_constraints
         Symbiflow.vpr_placement_constraints Symbiflow.vpr_vpr_grid Symbiflow.vpr_rr_graph
         Symbiflow.vpr_vpr_capnp_schema].
    rewrite !names_of_cons, !app_if_names. reflexivity.
Qed.

Lemma nextpnr_classify_fold fs : forall v,
  fold_left Symbiflow.nextpnr_classify_file fs v
  = Symbiflow.mkNextpnrLocals
      (last_from "bba" fs (Symbiflow.chipdb v))
      (last_from "device" fs (Symbiflow.device v))
      (Symbiflow.placement_constraints v ++ names_of "xdc" fs)
      (last_from "VPRGrid" fs (Symbiflow.vpr_grid v))
      (last_from "RRGraph" fs (Symbiflow.rr_graph v))
      (last_from "capnp" fs (Symbiflow.vpr_capnp_schema v)).
Proof.
  induction fs as [| f fs IH]; intros v.
  - destruct v. simpl. unfold names_of. simpl. now rewrite !app_nil_r.
  - cbn [fold_left]. rewrite IH.
    destruct (nextpnr_classify_file_fields v f) as (-> & -> & -> & -> & -> & ->).
    rewrite names_of_cons, <- app_assoc. reflexivity.
Qed.


(** ** What the loop of [Nextpnr.configure_main] returns *)

Lemma last_name_from_cons ty f fs acc :
  last_name_from ty (f :: fs) acc = last_name_from ty fs (pick ty f acc).
Proof. reflexivity. Qed.

Lemma for_each_classify_slots ic fs : forall v0 v,
  for_each (Nextpnr.classify_file ic) fs v0 = Ok v ->
  Nextpnr.cst_file v = last_name_from "CST" fs (Nextpnr.cst_file v0)
  /\ Nextpnr.lpf_file v = last_name_from "LPF" fs (Nextpnr.lpf_file v0)
  /\ Nextpnr.pdc_file v = last_name_from "PDC" fs (Nextpnr.pdc_file v0)
  /\ Nextpnr.pcf_file v = last_name_from "PCF" fs (Nextpnr.pcf_file v0)
  /\ Nextpnr.xdc_file v = last_name_from "XDC" fs (Nextpnr.xdc_file v0)
  /\ Nextpnr.qsf_file v = last_name_from "QSF" fs (Nextpnr.qsf_file v0)
  /\ Nextpnr.netlist v = if ic then Nextpnr.netlist v0
                         else last_name_from "jsonNetlist" fs (Nextpnr.netlist v0).
Proof.
  induction fs as [| f fs IH]; intros v0 v; cbn [for_each].
  - intros [= <-]. destruct ic; repeat split; reflexivity.
  - destruct (Nextpnr.classify_file ic v0 f) as [v1 |] eqn:E; [ | discriminate ].
    intros H. specialize (IH v1 v H).
    destruct (classify_file_slots ic v0 f v1 E) as (E1 & E2 & E3 & E4 & E5 & E6 & E7).
    rewrite !last_name_from_cons, <- E1, <- E2, <- E3, <- E4, <- E5, <- E6.
    destruct ic; [ rewrite <- E7 | rewrite <- E7 ]; exact IH.
Qed.

Lemma classify_result ic fs v :
  Nextpnr.classify ic fs = Ok v ->
  v = Nextpnr.mkLocals (last_name "CST" fs) (last_name "LPF" fs) (last_name "PCF" fs)
                       (last_name "XDC" fs) (last_name "PDC" fs) (last_name "QSF" fs)
                       (if ic then EmptyString else last_name "jsonNetlist" fs)
                       (filter leaves_unused fs).
Proof.
  intros H. pose proof (classify_unused ic fs v H) as Hu.
  destruct (for_each_classify_slots ic fs Nextpnr.locals0 v H)
    as (E1 & E2 & E3 & E4 & E5 & E6 & E7).
  destruct v as [c l p x d q n u]. cbn in *. unfold last_name.
  rewrite <- E1, <- E2, <- E3, <- E4, <- E5, <- E6, <- Hu.
  destruct ic; rewrite E7; reflexivity.
Qed.

Lemma nextpnr_configure_interchange self w :
  Nextpnr.flow_config_arch self = Some "fpga_interchange" ->
  wp (Nextpnr.configure_main self)
     (fun r w' => r = Ok tt ->
        exists db,
          Nextpnr.chipdb (Nextpnr.options self) = Some db
          /\ map depends (self_commands w') = [ [EmptyString]; [EmptyString] ]
          /\ map command (self_commands w')
             = let cmd :=
                 toks ["nextpnr-fpga_interchange"; "-l"; "next.log"]
                 ++ match Nextpnr.nextpnr_options (Nextpnr.options self) with
                    | Some l => toks l
                    | None => []
                    end
                 ++ toks ["--xdc"; last_name "XDC" (Nextpnr.files self);
                          "--netlist"; EmptyString; "--chipdb"; db]
                 ++ match Nextpnr.package (Nextpnr.options self) with
                    | Some p => toks ["--package"; p]
                    | None => []
                    end
                 ++ toks ["--phys"; Nextpnr.name self +:+ ".phys"] in
               [cmd; cmd ++ toks ["--gui"]]) w.
Proof.
  intros Ha.
  cbv delta [Nextpnr.configure_main]. cbv beta. rewrite Ha.
  nx_run.
  all: intros Hr; try discriminate Hr.
  all: match goal with
       | H : Nextpnr.classify _ _ = Ok ?v |- _ =>
           apply classify_result in H; cbn [String.eqb Ascii.eqb Bool.eqb] in H; subst v
       end.
  all: cbn [Nextpnr.netlist Nextpnr.xdc_file] in *.
  all: match goal with
       | H : _ && is_None ?c = false |- _ =>
           destruct c as [db |] eqn:Hdb; [ | discriminate H ]
       end.
  all: exists db; split; [ reflexivity | ].
  all: subst_graphs; subst_tokens.
  all: split; [ reflexivity | ].
  all: cbv zeta; cbn [self_commands add_written with_self_commands with_edam_files
                      EdaCommands.commands EdaCommands.add EdaCommands.new map command app].
  all: change ("fpga_interchange" =? "fpga_interchange") with true; cbv iota.
  all: destruct (Nextpnr.package (Nextpnr.options self));
    cbn [negb is_None toks map app]; rewrite <- ?app_assoc; reflexivity.
Qed.

(** ** What an aborted run leaves behind *)

(** Under fpga_interchange, the two scripts are rendered before the
    assertion on [xdcs] is checked. *)
Lemma configure_nextpnr_assertion_state self c w p k :
  Symbiflow.yosys self = Ok c ->
  Symbiflow.arch (Symbiflow.options self) = Some "fpga_interchange" ->
  Symbiflow.part (Symbiflow.options self) = Some p ->
  Symbiflow.package (Symbiflow.options self) = Some k ->
  count_xdc (Symbiflow.src_files self) <> 1 ->
  wp (Symbiflow.configure_nextpnr self)
     (fun r w' =>
        map (fun x => (template x, outfile x)) (rendered w')
        = map (fun x => (template x, outfile x)) (rendered w)
          ++ [("interchange-tcl.j2", "interchange.tcl"); ("vivado-sh.j2", "vivado.sh")]
        /\ written w' = written w) w.
Proof.
  intros Hy Ha Hp Hk Hx.
  assert (Hassert : negb (Nat.eqb (length (Symbiflow.xdcs_of
                       (Symbiflow.placement_constraints
                          (Symbiflow.nextpnr_classify (Symbiflow.src_files self))))) 2)
                    = true).
  { rewrite assert_xdcs_iff. apply Nat.eqb_neq in Hx. now rewrite Hx. }
  assert (Hi : eq_lit (Symbiflow.arch (Symbiflow.options self)) "fpga_interchange" = true)
    by (now rewrite Ha).
  cbv delta [Symbiflow.configure_nextpnr]. cbv beta. rewrite Hy.
  wp_run; path_leaf.
  all: split; [ | autorewrite with written; reflexivity ].
  all: autorewrite with rendered; rewrite ?map_app; cbn [map template outfile];
    rewrite <- ?app_assoc; reflexivity.
Qed.

(** ** Runs of the configurators, from their inputs *)

(** Close a conjunction whose parts are in the context. *)
Ltac by_parts := repeat (split; [ assumption | ]); assumption.

Lemma app_one_neq {A} (l : list A) (x : A) : l ++ [x] = l -> False.
Proof.
  intros H. apply (f_equal (@length A)) in H. rewrite length_app in H. simpl in H. lia.
Qed.

Lemma nextpnr_configure_returns_iff self w :
  run (Nextpnr.configure_main self) w = Ok tt <-> nextpnr_configurable self.
Proof.
  split.
  - intros Hr.
    destruct (wp_run _ _ _ (nextpnr_configure_returns self w) Hr)
      as (a & v & cmd & Ha & Hc & Hv & Hd & _).
    exists a, v. auto.
  - apply nextpnr_configure_total.
Qed.

Lemma configure_nextpnr_returns_iff self w :
  run (Symbiflow.configure_nextpnr self) w = Ok tt <-> nextpnr_ready self.
Proof.
  split.
  - intros Hr.
    destruct (wp_run _ _ _ (configure_nextpnr_returns self w) Hr)
      as (c & p & k & a & g & stages & Hy & Hp & Hn & Hk & Ha & Hx & Hf & _).
    exact (conj (ex_intro _ c Hy)
             (conj (ex_intro _ p (conj Hp Hn))
                (conj (ex_intro _ k Hk) (conj (ex_intro _ a (conj Ha Hx)) Hf)))).
  - apply configure_nextpnr_total.
Qed.

Lemma configure_vpr_returns_iff self w :
  run (Symbiflow.configure_vpr self) w = Ok tt <-> vpr_ready self.
Proof.
  split.
  - intros Hr.
    destruct (wp_run _ _ _ (configure_vpr_returns self w) Hr)
      as (g & stages & Hready & Hf & _).
    exact (conj Hready Hf).
  - apply configure_vpr_total.
Qed.

(** A configurator hands its graph to [commands.write] exactly when its
    inputs let it get there. *)
Lemma nextpnr_configure_writes_iff self w :
  (exists g, written (exec (Nextpnr.configure_main self) w)
             = written w ++ [(path_join (Nextpnr.work_root self) "Makefile", g)])
  <-> nextpnr_configurable self.
Proof.
  split.
  - intros [g Hg].
    destruct (run (Nextpnr.configure_main self) w) as [[] | e] eqn:Hr.
    + now apply (nextpnr_configure_returns_iff self w).
    + exfalso. pose proof (wp_run _ _ _ (nextpnr_configure_abort self w) e Hr) as Hw.
      cbv beta in Hw. rewrite Hw in Hg. symmetry in Hg. now apply app_one_neq in Hg.
  - intros H. apply (nextpnr_configure_returns_iff self w) in H.
    destruct (wp_run _ _ _ (nextpnr_configure_returns self w) H)
      as (a & v & cmd & _ & _ & _ & _ & _ & Hw & _).
    eexists. exact Hw.
Qed.

Lemma configure_nextpnr_writes_iff self w :
  (exists g, written (exec (Symbiflow.configure_nextpnr self) w)
             = written w ++ [(path_join (Symbiflow.work_root self) "Makefile", g)])
  <-> nextpnr_ready self.
Proof.
  split.
  - intros [g Hg].
    destruct (run (Symbiflow.configure_nextpnr self) w) as [[] | e] eqn:Hr.
    + now apply (configure_nextpnr_returns_iff self w).
    + exfalso. pose proof (wp_run _ _ _ (configure_nextpnr_abort self w) e Hr) as Hw.
      cbv beta in Hw. destruct Hw as [Hw _].
      rewrite Hw in Hg. symmetry in Hg. now apply app_one_neq in Hg.
  - intros H. apply (configure_nextpnr_returns_iff self w) in H.
    destruct (wp_run _ _ _ (configure_nextpnr_returns self w) H)
      as (c & p & k & a & g & stages & _ & _ & _ & _ & _ & _ & _ & Hw & _).
    exists g. exact Hw.
Qed.

Lemma configure_vpr_writes_iff self w :
  (exists g, written (exec (Symbiflow.configure_vpr self) w)
             = written w ++ [(path_join (Symbiflow.work_root self) "Makefile", g)])
  <-> vpr_ready self.
Proof.
  split.
  - intros [g Hg].
    destruct (run (Symbiflow.configure_vpr self) w) as [[] | e] eqn:Hr.
    + now apply (configure_vpr_returns_iff self w).
    + exfalso. pose proof (wp_run _ _ _ (configure_vpr_abort self w) e Hr) as Hw.
      cbv beta in Hw. destruct Hw as [Hw _].
      rewrite Hw in Hg. symmetry in Hg. now apply app_one_neq in Hg.
  - intros H. apply (configure_vpr_returns_iff self w) in H.
    destruct (wp_run _ _ _ (configure_vpr_returns self w) H)
      as (g & stages & _ & _ & Hw & _).
    exists g. exact Hw.
Qed.

(** A run either leaves the written files as they are or adds the
    [Makefile]. *)
Lemma written_or_not {A} (m : M A) (w : world) (path : string) :
  (forall e, run m w = Raise e -> written (exec m w) = written w) ->
  (forall a, run m w = Ok a -> exists g, written (exec m w) = written w ++ [(path, g)]) ->
  written (exec m w) = written w
  \/ exists g, written (exec m w) = written w ++ [(path, g)].
Proof.
  intros Hab Hok. destruct (run m w) as [a | e].
  - right. exact (Hok a eq_refl).
  - left. exact (Hab e eq_refl).
Qed.

(** [split_head] keeps what comes before the first separator. *)
Lemma split_head_no_sep (k : string) : contains "-" (split_head "-" k) = false.
Proof.
  induction k as [| c k IH]; [ reflexivity | ].
  cbn [split_head]. destruct (Ascii.eqb_spec c "-") as [-> | Hc]; [ reflexivity | ].
  cbn [contains String.prefix]. rewrite IH.
  destruct (ascii_dec "-" c) as [E | _]; [ exfalso; apply Hc; now rewrite E | reflexivity ].
Qed.

Lemma split_head_prefix (k : string) : exists rest, k = split_head "-" k +:+ rest.
Proof.
  induction k as [| c k [rest IH]]; [ now exists EmptyString | ].
  cbn [split_head]. destruct (Ascii.eqb c "-").
  - now exists (String c k).
  - exists rest. cbn [String.append]. now rewrite <- IH.
Qed.

(** ** The further properties *)

(** X1.  Over files that all have a name, the loop of
    [Nextpnr.configure_main] ends without error exactly when no tag among
    CST, LPF, PDC, PCF, XDC, QSF and jsonNetlist occurs twice and no netlist
    has the format that the variant refuses: jsonNetlist under
    fpga_interchange, fpgaInterchangeNetlist under the others. *)
Theorem X1_classify_succeeds_iff (ic : bool) (fs : list File.t) :
  named fs = true ->
  (exists v, Nextpnr.classify ic fs = Ok v) <-> classifiable ic fs.
Proof. exact (classify_succeeds ic fs). Qed.

Lemma X1_classify_succeeds_iff_witness :
  (exists v, Nextpnr.classify false (Nextpnr.files pcf_self) = Ok v)
  <-> classifiable false (Nextpnr.files pcf_self).
Proof. exact (X1_classify_succeeds_iff false (Nextpnr.files pcf_self) eq_refl). Defined.

(** X2.  When the loop of [Nextpnr.configure_main] ends without error, each
    constraint slot holds the name of the last file with its tag (the empty
    string when there is none), [unused_files] holds, in order, the files
    whose tag is not QSF, jsonNetlist or fpgaInterchangeNetlist, and the
    netlist slot holds the last jsonNetlist name, except under
    fpga_interchange, where it is always empty. *)
Theorem X2_classify_result (ic : bool) (fs : list File.t) (v : Nextpnr.locals) :
  Nextpnr.classify ic fs = Ok v ->
  v = Nextpnr.mkLocals (last_name "CST" fs) (last_name "LPF" fs) (last_name "PCF" fs)
                       (last_name "XDC" fs) (last_name "PDC" fs) (last_name "QSF" fs)
                       (if ic then EmptyString else last_name "jsonNetlist" fs)
                       (filter leaves_unused fs).
Proof. exact (classify_result ic fs v). Qed.

Lemma X2_classify_result_witness :
  Nextpnr.mkLocals EmptyString EmptyString EmptyString "pins.xdc" EmptyString EmptyString
                   EmptyString [File.mk "pins.xdc" "XDC"]
  = Nextpnr.mkLocals (last_name "CST" (Nextpnr.files interchange_ok_self))
                     (last_name "LPF" (Nextpnr.files interchange_ok_self))
                     (last_name "PCF" (Nextpnr.files interchange_ok_self))
                     (last_name "XDC" (Nextpnr.files interchange_ok_self))
                     (last_name "PDC" (Nextpnr.files interchange_ok_self))
                     (last_name "QSF" (Nextpnr.files interchange_ok_self))
                     EmptyString
                     (filter leaves_unused (Nextpnr.files interchange_ok_self)).
Proof.
  exact (X2_classify_result true (Nextpnr.files interchange_ok_self) _ eq_refl).
Defined.

(** X3.  [Nextpnr.configure_main] gets to write the [Makefile] exactly
    when [flow_config] has the [arch] key, the chip database is given under
    fpga_interchange, the files classify without error, and the [device]
    option is a non-empty string for mistral, nexus and gowin. *)
Theorem X3_nextpnr_writes_iff (self : Nextpnr.t) (w : world) :
  (exists g, written (exec (Nextpnr.configure_main self) w)
             = written w ++ [(path_join (Nextpnr.work_root self) "Makefile", g)])
  <-> nextpnr_configurable self.
Proof. exact (nextpnr_configure_writes_iff self w). Qed.



(** X5.  Whatever the architecture, a run of [Nextpnr.configure_main] that
    returns leaves in [self.edam["files"]] the files whose tag is not QSF,
    jsonNetlist or fpgaInterchangeNetlist, in order, followed by
    [<name>.asc] of type iceboxAscii, while the default target of the graph
    is [<name>] with the extension of the architecture's row ([.config]
    for ecp5, [.rbf] for mistral, [.fasm] for nexus, [.pack] for gowin,
    [.phys] for fpga_interchange, [.asc] for any other). *)
Theorem X5_nextpnr_edam_output (self : Nextpnr.t) (w : world) :
  run (Nextpnr.configure_main self) w = Ok tt ->
  edam_files (exec (Nextpnr.configure_main self) w) = edam_output self
  /\ exists a g,
       Nextpnr.flow_config_arch self = Some a
       /\ written (exec (Nextpnr.configure_main self) w)
          = written w ++ [(path_join (Nextpnr.work_root self) "Makefile", g)]
       /\ EdaCommands.default_target g = Some (Nextpnr.name self +:+ arch_ext a).
Proof.
  intros Hr.
  destruct (wp_run _ _ _ (nextpnr_configure_returns self w) Hr)
    as (a & v & cmd & Ha & _ & Hv & _ & _ & Hw & He & _).
  split.
  - rewrite He. unfold edam_output. now rewrite (classify_unused _ _ _ Hv).
  - exists a. eexists. split; [ exact Ha | ]. split; [ exact Hw | reflexivity ].
Qed.

Lemma X5_nextpnr_edam_output_witness :
  edam_files (exec (Nextpnr.configure_main ecp5_self) world0) = edam_output ecp5_self
  /\ exists a g,
       Nextpnr.flow_config_arch ecp5_self = Some a
       /\ written (exec (Nextpnr.configure_main ecp5_self) world0)
          = written world0 ++ [(path_join (Nextpnr.work_root ecp5_self) "Makefile", g)]
       /\ EdaCommands.default_target g = Some (Nextpnr.name ecp5_self +:+ arch_ext a).
Proof. exact (X5_nextpnr_edam_output ecp5_self world0 eq_refl). Defined.

(** X6.  A run of [Nextpnr.configure_main] that aborts has logged, rendered
    and written nothing and has left [self.commands] as it was.
    [self.edam["files"]] is as it was too, unless the abort is the
    missing-[device] error of mistral, nexus or gowin: that check comes
    after line 126, so the file list has been replaced already. *)
Theorem X6_nextpnr_abort_state (self : Nextpnr.t) (w : world) (e : exn) :
  run (Nextpnr.configure_main self) w = Raise e ->
  log (exec (Nextpnr.configure_main self) w) = log w
  /\ rendered (exec (Nextpnr.configure_main self) w) = rendered w
  /\ self_commands (exec (Nextpnr.configure_main self) w) = self_commands w
  /\ written (exec (Nextpnr.configure_main self) w) = written w
  /\ (edam_files (exec (Nextpnr.configure_main self) w) = edam_files w
      \/ (exists a, e = Nextpnr.missing_device a)
         /\ edam_files (exec (Nextpnr.configure_main self) w) = edam_output self).
Proof.
  intros Hr.
  destruct (wp_run _ _ _ (nextpnr_configure_abort_state self w) e Hr)
    as (Hl & Hrd & Hs & Hw & He).
  repeat (split; [ assumption | ]).
  destruct He as [He | (a & v & -> & Hv & He)]; [ now left | right ].
  split; [ now exists a | ].
  rewrite He. unfold edam_output. now rewrite (classify_unused _ _ _ Hv).
Qed.

Lemma X6_nextpnr_abort_state_witness :
  log (exec (Nextpnr.configure_main gowin_self) world0) = log world0
  /\ rendered (exec (Nextpnr.configure_main gowin_self) world0) = rendered world0
  /\ self_commands (exec (Nextpnr.configure_main gowin_self) world0) = self_commands world0
  /\ written (exec (Nextpnr.configure_main gowin_self) world0) = written world0
  /\ (edam_files (exec (Nextpnr.configure_main gowin_self) world0) = edam_files world0
      \/ (exists a, Nextpnr.missing_device "gowin" = Nextpnr.missing_device a)
         /\ edam_files (exec (Nextpnr.configure_main gowin_self) world0)
            = edam_output gowin_self).
Proof.
  exact (X6_nextpnr_abort_state gowin_self world0 (Nextpnr.missing_device "gowin") eq_refl).
Defined.

(** X7.  Under fpga_interchange, a run of [Nextpnr.configure_main] that
    returns has registered two stages whose only dependency is the empty
    string and whose command passes [--netlist] with an empty argument:
    the netlist slot is never filled in that variant.  [--xdc] is always
    passed, with the name of the XDC file or an empty argument, then
    [--chipdb] with the chip database, [--package] when the option is
    there, and [--phys <name>.phys]. *)
Theorem X7_nextpnr_interchange_command (self : Nextpnr.t) (w : world) :
  Nextpnr.flow_config_arch self = Some "fpga_interchange" ->
  run (Nextpnr.configure_main self) w = Ok tt ->
  exists db,
    Nextpnr.chipdb (Nextpnr.options self) = Some db
    /\ map depends (self_commands (exec (Nextpnr.configure_main self) w))
       = [ [EmptyString]; [EmptyString] ]
    /\ map command (self_commands (exec (Nextpnr.configure_main self) w))
       = let cmd :=
           toks ["nextpnr-fpga_interchange"; "-l"; "next.log"]
           ++ match Nextpnr.nextpnr_options (Nextpnr.options self) with
              | Some l => toks l
              | None => []
              end
           ++ toks ["--xdc"; last_name "XDC" (Nextpnr.files self);
                    "--netlist"; EmptyString; "--chipdb"; db]
           ++ match Nextpnr.package (Nextpnr.options self) with
              | Some p => toks ["--package"; p]
              | None => []
              end
           ++ toks ["--phys"; Nextpnr.name self +:+ ".phys"] in
         [cmd; cmd ++ toks ["--gui"]].
Proof.
  intros Ha Hr. exact (wp_run _ _ _ (nextpnr_configure_interchange self w Ha) Hr).
Qed.

Lemma X7_nextpnr_interchange_command_witness :
  exists db,
    Nextpnr.chipdb (Nextpnr.options interchange_ok_self) = Some db
    /\ map depends (self_commands (exec (Nextpnr.configure_main interchange_ok_self) world0))
       = [ [EmptyString]; [EmptyString] ]
    /\ map command (self_commands (exec (Nextpnr.configure_main interchange_ok_self) world0))
       = [toks ["nextpnr-fpga_interchange"; "-l"; "next.log"; "--xdc"; "pins.xdc";
                "--netlist"; EmptyString; "--chipdb"; db; "--package"; "cpg236";
                "--phys"; "top.phys"];
          toks ["nextpnr-fpga_interchange"; "-l"; "next.log"; "--xdc"; "pins.xdc";
                "--netlist"; EmptyString; "--chipdb"; db; "--package"; "cpg236";
                "--phys"; "top.phys"; "--gui"]].
Proof.
  exact (X7_nextpnr_interchange_command interchange_ok_self world0 eq_refl eq_refl).
Defined.

(** X8.  [Symbiflow.configure_nextpnr] gets to write the [Makefile]
    exactly when Yosys configures, [part] is a string that contains xc7a,
    xc7z or xc7k, [package] and [arch] are strings, there is exactly one
    xdc file when [arch] is fpga_interchange, and [dbroot] is given when
    fasm2bels is enabled.  The conditions that the configurator reports
    with [logger.error] (a supported [arch], a non-empty [package], a chip
    database, a device file) are not among them. *)
Theorem X8_configure_nextpnr_writes_iff (self : Symbiflow.t) (w : world) :
  (exists g, written (exec (Symbiflow.configure_nextpnr self) w)
             = written w ++ [(path_join (Symbiflow.work_root self) "Makefile", g)])
  <-> nextpnr_ready self.
Proof. exact (configure_nextpnr_writes_iff self w). Qed.

(** X9.  A run of [Symbiflow.configure_nextpnr] that returns has written a
    graph that starts with the stages of Yosys, in their order, and goes on
    with the stages of the configurator: [.fasm] and [.bit], or under
    fpga_interchange [.netlist], [.phys], [.fasm], [.dcp], [.timing] and
    [.bit], then with fasm2bels [<toplevel>.bit.v] and
    [timing_summary.rpt].  Every dependency of these stages is [<name>.json]
    or the output of an earlier one of them, and the default target is
    [<name>.bit], or [timing_summary.rpt] with fasm2bels: under
    fpga_interchange the [.dcp] and [.timing] stages are not on the way to
    the default target. *)
Theorem X9_configure_nextpnr_stages (self : Symbiflow.t) (w : world) :
  run (Symbiflow.configure_nextpnr self) w = Ok tt ->
  exists c g stages,
    Symbiflow.yosys self = Ok c
    /\ written (exec (Symbiflow.configure_nextpnr self) w)
       = written w ++ [(path_join (Symbiflow.work_root self) "Makefile", g)]
    /\ EdaCommands.commands g = c ++ stages
    /\ map targets stages = map (fun t => [t]) (nextpnr_stage_targets self)
    /\ closed_chain [Symbiflow.name self +:+ ".json"] stages
    /\ EdaCommands.default_target g = Some (nextpnr_default_target self).
Proof.
  intros Hr.
  destruct (wp_run _ _ _ (configure_nextpnr_returns self w) Hr)
    as (c & p & k & a & g & stages & Hy & _ & _ & _ & _ & _ & _
        & Hw & Hc & Ht & Hch & Hd & _).
  exists c, g, stages. by_parts.
Qed.

Lemma X9_configure_nextpnr_stages_witness :
  exists c g stages,
    Symbiflow.yosys interchange_one_xdc_self = Ok c
    /\ written (exec (Symbiflow.configure_nextpnr interchange_one_xdc_self) world0)
       = written world0
         ++ [(path_join (Symbiflow.work_root interchange_one_xdc_self) "Makefile", g)]
    /\ EdaCommands.commands g = c ++ stages
    /\ map targets stages
       = map (fun t => [t]) (nextpnr_stage_targets interchange_one_xdc_self)
    /\ closed_chain [Symbiflow.name interchange_one_xdc_self +:+ ".json"] stages
    /\ EdaCommands.default_target g
       = Some (nextpnr_default_target interchange_one_xdc_self).
Proof. exact (X9_configure_nextpnr_stages interchange_one_xdc_self world0 eq_refl). Defined.



(** X11.  A run of [Symbiflow.configure_nextpnr] that returns has rendered
    [interchange.tcl] and [vivado.sh] under fpga_interchange, then
    [fasm2bels.tcl] and [vivado.sh] with fasm2bels, and nothing else: with
    both, [vivado.sh] is rendered twice, the second rendering for
    fasm2bels. *)
Theorem X11_configure_nextpnr_renderings (self : Symbiflow.t) (w : world) :
  run (Symbiflow.configure_nextpnr self) w = Ok tt ->
  map outfile (rendered (exec (Symbiflow.configure_nextpnr self) w))
  = map outfile (rendered w) ++ nextpnr_outfiles self.
Proof.
  intros Hr.
  destruct (wp_run _ _ _ (configure_nextpnr_returns self w) Hr)
    as (c & p & k & a & g & stages & _ & _ & _ & _ & _ & _ & _
        & _ & _ & _ & _ & _ & _ & _ & Ho).
  exact Ho.
Qed.

Lemma X11_configure_nextpnr_renderings_witness :
  map outfile (rendered (exec (Symbiflow.configure_nextpnr interchange_one_xdc_self) world0))
  = map outfile (rendered world0) ++ nextpnr_outfiles interchange_one_xdc_self.
Proof.
  exact (X11_configure_nextpnr_renderings interchange_one_xdc_self world0 eq_refl).
Defined.

(** X12.  The bitstream stage of [Symbiflow.configure_nextpnr] is
    [symbiflow_write_bitstream -d <family> -f <name>.fasm -p <part><package>
    -b <name>.bit], made from [<name>.fasm].  The family is kintex7 when
    [part] contains xc7k, else zynq7 when it contains xc7z, else artix7,
    and the part name keeps the whole [package] option. *)
Theorem X12_configure_nextpnr_bitstream (self : Symbiflow.t) (w : world) :
  run (Symbiflow.configure_nextpnr self) w = Ok tt ->
  exists p k g,
    Symbiflow.part (Symbiflow.options self) = Some p
    /\ Symbiflow.package (Symbiflow.options self) = Some k
    /\ written (exec (Symbiflow.configure_nextpnr self) w)
       = written w ++ [(path_join (Symbiflow.work_root self) "Makefile", g)]
    /\ In (mkCommand
             (toks ["symbiflow_write_bitstream"; "-d"; bitstream_family p;
                    "-f"; Symbiflow.name self +:+ ".fasm";
                    "-p"; p +:+ k;
                    "-b"; Symbiflow.name self +:+ ".bit"])
             [Symbiflow.name self +:+ ".bit"] [Symbiflow.name self +:+ ".fasm"])
          (EdaCommands.commands g).
Proof.
  intros Hr.
  destruct (wp_run _ _ _ (configure_nextpnr_commands self w) Hr)
    as (p & k & a & g & Hp & Hk & _ & Hw & Hb & _).
  exists p, k, g. by_parts.
Qed.

Lemma X12_configure_nextpnr_bitstream_witness :
  exists p k g,
    Symbiflow.part (Symbiflow.options artix_self) = Some p
    /\ Symbiflow.package (Symbiflow.options artix_self) = Some k
    /\ written (exec (Symbiflow.configure_nextpnr artix_self) world0)
       = written world0 ++ [(path_join (Symbiflow.work_root artix_self) "Makefile", g)]
    /\ In (mkCommand
             (toks ["symbiflow_write_bitstream"; "-d"; bitstream_family p;
                    "-f"; Symbiflow.name artix_self +:+ ".fasm";
                    "-p"; p +:+ k;
                    "-b"; Symbiflow.name artix_self +:+ ".bit"])
             [Symbiflow.name artix_self +:+ ".bit"] [Symbiflow.name artix_self +:+ ".fasm"])
          (EdaCommands.commands g).
Proof. exact (X12_configure_nextpnr_bitstream artix_self world0 eq_refl). Defined.

(** X13.  For an [arch] other than fpga_interchange, the place-and-route
    stage of [Symbiflow.configure_nextpnr] is [nextpnr-<arch> --chipdb
    <chipdb>], then [--xdc <file>] for every xdc file in the order of the
    files, then [--json <name>.json --write <name>.routed.json --fasm
    <name>.fasm --log nextpnr.log] and the [nextpnr_options] string, which
    is an empty argument when the option is absent.  The chip database is
    the last bba file. *)
Theorem X13_configure_nextpnr_route_command (self : Symbiflow.t) (w : world) (a : string) :
  Symbiflow.arch (Symbiflow.options self) = Some a ->
  (a =? "fpga_interchange") = false ->
  run (Symbiflow.configure_nextpnr self) w = Ok tt ->
  exists g,
    written (exec (Symbiflow.configure_nextpnr self) w)
    = written w ++ [(path_join (Symbiflow.work_root self) "Makefile", g)]
    /\ In (mkCommand
             ([Some ("nextpnr-" +:+ a); Some "--chipdb";
               Symbiflow.chipdb (Symbiflow.nextpnr_classify (Symbiflow.src_files self))]
              ++ toks (flat_map (fun x => ["--xdc"; x])
                                (names_of "xdc" (Symbiflow.src_files self)))
              ++ toks ["--json"; Symbiflow.name self +:+ ".json";
                       "--write"; Symbiflow.name self +:+ ".routed.json";
                       "--fasm"; Symbiflow.name self +:+ ".fasm";
                       "--log"; "nextpnr.log";
                       match Symbiflow.nextpnr_options (Symbiflow.options self) with
                       | Some s => s
                       | None => EmptyString
                       end])
             [Symbiflow.name self +:+ ".fasm"] [Symbiflow.name self +:+ ".json"])
          (EdaCommands.commands g).
Proof.
  intros Ha Hne Hr. apply String.eqb_neq in Hne.
  destruct (wp_run _ _ _ (configure_nextpnr_commands self w) Hr)
    as (p & k & a' & g & _ & _ & Ha' & Hw & _ & Hx & _).
  assert (a' = a) by congruence. subst a'.
  exists g. split; [ exact Hw | exact (Hx Hne) ].
Qed.

Lemma X13_configure_nextpnr_route_command_witness :
  exists g,
    written (exec (Symbiflow.configure_nextpnr artix_self) world0)
    = written world0 ++ [(path_join (Symbiflow.work_root artix_self) "Makefile", g)]
    /\ In (mkCommand
             ([Some ("nextpnr-" +:+ "xilinx"); Some "--chipdb";
               Symbiflow.chipdb (Symbiflow.nextpnr_classify (Symbiflow.src_files artix_self))]
              ++ toks (flat_map (fun x => ["--xdc"; x])
                                (names_of "xdc" (Symbiflow.src_files artix_self)))
              ++ toks ["--json"; Symbiflow.name artix_self +:+ ".json";
                       "--write"; Symbiflow.name artix_self +:+ ".routed.json";
                       "--fasm"; Symbiflow.name artix_self +:+ ".fasm";
                       "--log"; "nextpnr.log";
                       match Symbiflow.nextpnr_options (Symbiflow.options artix_self) with
                       | Some s => s
                       | None => EmptyString
                       end])
             [Symbiflow.name artix_self +:+ ".fasm"] [Symbiflow.name artix_self +:+ ".json"])
          (EdaCommands.commands g).
Proof.
  exact (X13_configure_nextpnr_route_command artix_self world0 "xilinx"
           eq_refl eq_refl eq_refl).
Defined.

(** X14.  Under fpga_interchange, the place-and-route stage of
    [Symbiflow.configure_nextpnr] passes as [--package] the [package]
    option cut before its first "-" (the speed grade is dropped: what is
    passed has no "-" and is a prefix of the option), and passes the one
    xdc file; the [.dcp] stage reads the same xdc file. *)
Theorem X14_configure_nextpnr_interchange_package (self : Symbiflow.t) (w : world) :
  Symbiflow.arch (Symbiflow.options self) = Some "fpga_interchange" ->
  run (Symbiflow.configure_nextpnr self) w = Ok tt ->
  exists k x g,
    Symbiflow.package (Symbiflow.options self) = Some k
    /\ names_of "xdc" (Symbiflow.src_files self) = [x]
    /\ contains "-" (split_head "-" k) = false
    /\ (exists rest, k = split_head "-" k +:+ rest)
    /\ written (exec (Symbiflow.configure_nextpnr self) w)
       = written w ++ [(path_join (Symbiflow.work_root self) "Makefile", g)]
    /\ In (mkCommand
             ([Some "nextpnr-fpga_interchange"; Some "--chipdb";
               Symbiflow.chipdb (Symbiflow.nextpnr_classify (Symbiflow.src_files self));
               Some "--package"; Some (split_head "-" k)]
              ++ toks ["--xdc"; x;
                       "--netlist"; Symbiflow.name self +:+ ".netlist";
                       "--write"; Symbiflow.name self +:+ ".routed.json";
                       "--phys"; Symbiflow.name self +:+ ".phys";
                       match Symbiflow.nextpnr_options (Symbiflow.options self) with
                       | Some s => s
                       | None => EmptyString
                       end])
             [Symbiflow.name self +:+ ".phys"] [Symbiflow.name self +:+ ".netlist"])
          (EdaCommands.commands g)
    /\ In (mkCommand
             (toks ["RAPIDWRIGHT_PATH=${RAPIDWRIGHT_PATH} ${RAPIDWRIGHT_PATH}/scripts/invoke_rapidwright.sh com.xilinx.rapidwright.interchange.PhysicalNetlistToDcp";
                    Symbiflow.name self +:+ ".netlist"; Symbiflow.name self +:+ ".phys"; x;
                    Symbiflow.name self +:+ ".dcp"])
             [Symbiflow.name self +:+ ".dcp"] [Symbiflow.name self +:+ ".fasm"])
          (EdaCommands.commands g).
Proof.
  intros Ha Hr.
  destruct (wp_run _ _ _ (configure_nextpnr_commands self w) Hr)
    as (p & k & a & g & _ & Hk & Ha' & Hw & _ & _ & Hi).
  assert (a = "fpga_interchange") by congruence. subst a.
  destruct (Hi eq_refl) as (x & Hx & Hphys & Hdcp).
  exists k, x, g.
  split; [ exact Hk | ]. split; [ exact Hx | ].
  split; [ apply split_head_no_sep | ]. split; [ apply split_head_prefix | ].
  by_parts.
Qed.

Lemma X14_configure_nextpnr_interchange_package_witness :
  exists k x g,
    Symbiflow.package (Symbiflow.options interchange_one_xdc_self) = Some k
    /\ names_of "xdc" (Symbiflow.src_files interchange_one_xdc_self) = [x]
    /\ contains "-" (split_head "-" k) = false
    /\ (exists rest, k = split_head "-" k +:+ rest)
    /\ written (exec (Symbiflow.configure_nextpnr interchange_one_xdc_self) world0)
       = written world0
         ++ [(path_join (Symbiflow.work_root interchange_one_xdc_self) "Makefile", g)]
    /\ In (mkCommand
             ([Some "nextpnr-fpga_interchange"; Some "--chipdb";
               Symbiflow.chipdb
                 (Symbiflow.nextpnr_classify (Symbiflow.src_files interchange_one_xdc_self));
               Some "--package"; Some (split_head "-" k)]
              ++ toks ["--xdc"; x;
                       "--netlist"; Symbiflow.name interchange_one_xdc_self +:+ ".netlist";
                       "--write"; Symbiflow.name interchange_one_xdc_self +:+ ".routed.json";
                       "--phys"; Symbiflow.name interchange_one_xdc_self +:+ ".phys";
                       match Symbiflow.nextpnr_options
                               (Symbiflow.options interchange_one_xdc_self) with
                       | Some s => s
                       | None => EmptyString
                       end])
             [Symbiflow.name interchange_one_xdc_self +:+ ".phys"]
             [Symbiflow.name interchange_one_xdc_self +:+ ".netlist"])
          (EdaCommands.commands g)
    /\ In (mkCommand
             (toks ["RAPIDWRIGHT_PATH=${RAPIDWRIGHT_PATH} ${RAPIDWRIGHT_PATH}/scripts/invoke_rapidwright.sh com.xilinx.rapidwright.interchange.PhysicalNetlistToDcp";
                    Symbiflow.name interchange_one_xdc_self +:+ ".netlist";
                    Symbiflow.name interchange_one_xdc_self +:+ ".phys"; x;
                    Symbiflow.name interchange_one_xdc_self +:+ ".dcp"])
             [Symbiflow.name interchange_one_xdc_self +:+ ".dcp"]
             [Symbiflow.name interchange_one_xdc_self +:+ ".fasm"])
          (EdaCommands.commands g).
Proof.
  exact (X14_configure_nextpnr_interchange_package interchange_one_xdc_self world0
           eq_refl eq_refl).
Defined.

(** X15.  [Symbiflow.configure_vpr] gets to write the [Makefile] exactly
    when the vendor is xilinx, [part] is a string that contains xc7a, xc7z
    or xc7k and [package] is a string, or the vendor is quicklogic and
    [part] is a string; and, with fasm2bels enabled, [dbroot] is given. *)
Theorem X15_configure_vpr_writes_iff (self : Symbiflow.t) (w : world) :
  (exists g, written (exec (Symbiflow.configure_vpr self) w)
             = written w ++ [(path_join (Symbiflow.work_root self) "Makefile", g)])
  <-> vpr_ready self.
Proof. exact (configure_vpr_writes_iff self w). Qed.

(** X16.  With a vendor other than xilinx and quicklogic (or none),
    [Symbiflow.configure_vpr] always ends with a [NameError] and writes
    nothing: on [partname] when fasm2bels is enabled, on [bitstream_device]
    otherwise; the vendor itself is never reported. *)
Theorem X16_configure_vpr_other_vendor (self : Symbiflow.t) (w : world) :
  eq_lit (Symbiflow.vendor (Symbiflow.options self)) "xilinx" = false ->
  eq_lit (Symbiflow.vendor (Symbiflow.options self)) "quicklogic" = false ->
  run (Symbiflow.configure_vpr self) w
  = Raise (NameError (if fasm2bels_enabled self then "partname" else "bitstream_device"))
  /\ written (exec (Symbiflow.configure_vpr self) w) = written w.
Proof.
  intros Hx Hq. exact (wp_run _ _ _ (configure_vpr_other_vendor self w Hx Hq)).
Qed.

Lemma X16_configure_vpr_other_vendor_witness :
  run (Symbiflow.configure_vpr lattice_vpr_self) world0
  = Raise (NameError (if fasm2bels_enabled lattice_vpr_self then "partname"
                      else "bitstream_device"))
  /\ written (exec (Symbiflow.configure_vpr lattice_vpr_self) world0) = written world0.
Proof. exact (X16_configure_vpr_other_vendor lattice_vpr_self world0 eq_refl eq_refl). Defined.



(** X18.  For the xilinx vendor, a run of [Symbiflow.configure_vpr] that
    returns exports the vendor and the part, and names the device of the
    pack, place, route and write-fasm stages [<part>_test], where the part
    xc7a35t is replaced by xc7a50t in both; the bitstream stage keeps the
    part as given: [symbiflow_write_bitstream -d <family> -f
    <toplevel>.fasm -p <part><package> -b <toplevel>.bit]. *)
Theorem X18_configure_vpr_xilinx_device (self : Symbiflow.t) (w : world) :
  Symbiflow.vendor (Symbiflow.options self) = Some "xilinx" ->
  run (Symbiflow.configure_vpr self) w = Ok tt ->
  exists g p k,
    Symbiflow.part (Symbiflow.options self) = Some p
    /\ Symbiflow.package (Symbiflow.options self) = Some k
    /\ written (exec (Symbiflow.configure_vpr self) w)
       = written w ++ [(path_join (Symbiflow.work_root self) "Makefile", g)]
    /\ EdaCommands.variables g
       = ["export EDALIZE_VENDOR=xilinx"; "export EDALIZE_PART=" +:+ device_part p]
    /\ (forall tool ext dep,
           In (tool, ext, dep) vpr_flow_stages ->
           exists post,
             In (mkCommand
                   (toks [tool; "-e"; Symbiflow.toplevel self +:+ ".eblif";
                          "-d"; device_part p +:+ "_test"] ++ post)
                   [Symbiflow.toplevel self +:+ ext]
                   [Symbiflow.toplevel self +:+ dep])
                (EdaCommands.commands g))
    /\ In (mkCommand
             (toks ["symbiflow_write_bitstream"; "-d"; bitstream_family p;
                    "-f"; Symbiflow.toplevel self +:+ ".fasm";
                    "-p"; p +:+ k;
                    "-b"; Symbiflow.toplevel self +:+ ".bit"])
             [Symbiflow.toplevel self +:+ ".bit"]
             [Symbiflow.toplevel self +:+ ".fasm"])
          (EdaCommands.commands g).
Proof.
  intros Hv Hr. exact (wp_run _ _ _ (configure_vpr_xilinx_commands self w Hv) Hr).
Qed.

Lemma X18_configure_vpr_xilinx_device_witness :
  exists g p k,
    Symbiflow.part (Symbiflow.options no_fasm2bels_self) = Some p
    /\ Symbiflow.package (Symbiflow.options no_fasm2bels_self) = Some k
    /\ written (exec (Symbiflow.configure_vpr no_fasm2bels_self) world0)
       = written world0
         ++ [(path_join (Symbiflow.work_root no_fasm2bels_self) "Makefile", g)]
    /\ EdaCommands.variables g
       = ["export EDALIZE_VENDOR=xilinx"; "export EDALIZE_PART=" +:+ device_part p]
    /\ (forall tool ext dep,
           In (tool, ext, dep) vpr_flow_stages ->
           exists post,
             In (mkCommand
                   (toks [tool; "-e"; Symbiflow.toplevel no_fasm2bels_self +:+ ".eblif";
                          "-d"; device_part p +:+ "_test"] ++ post)
                   [Symbiflow.toplevel no_fasm2bels_self +:+ ext]
                   [Symbiflow.toplevel no_fasm2bels_self +:+ dep])
                (EdaCommands.commands g))
    /\ In (mkCommand
             (toks ["symbiflow_write_bitstream"; "-d"; bitstream_family p;
                    "-f"; Symbiflow.toplevel no_fasm2bels_self +:+ ".fasm";
                    "-p"; p +:+ k;
                    "-b"; Symbiflow.toplevel no_fasm2bels_self +:+ ".bit"])
             [Symbiflow.toplevel no_fasm2bels_self +:+ ".bit"]
             [Symbiflow.toplevel no_fasm2bels_self +:+ ".fasm"])
          (EdaCommands.commands g).
Proof.
  exact (X18_configure_vpr_xilinx_device no_fasm2bels_self world0 eq_refl eq_refl).
Defined.

(** X19.  For the quicklogic vendor, a run of [Symbiflow.configure_vpr]
    that returns exports the vendor and the part as given, names the device
    of the pack, place, route and write-fasm stages and of the bitstream
    stage [<part>_wlcsp], and passes the [package] option after [-P] in the
    bitstream stage. *)
Theorem X19_configure_vpr_quicklogic_device (self : Symbiflow.t) (w : world) :
  Symbiflow.vendor (Symbiflow.options self) = Some "quicklogic" ->
  run (Symbiflow.configure_vpr self) w = Ok tt ->
  exists g p,
    Symbiflow.part (Symbiflow.options self) = Some p
    /\ written (exec (Symbiflow.configure_vpr self) w)
       = written w ++ [(path_join (Symbiflow.work_root self) "Makefile", g)]
    /\ EdaCommands.variables g
       = ["export EDALIZE_VENDOR=quicklogic"; "export EDALIZE_PART=" +:+ p]
    /\ (forall tool ext dep,
           In (tool, ext, dep) vpr_flow_stages ->
           exists post,
             In (mkCommand
                   (toks [tool; "-e"; Symbiflow.toplevel self +:+ ".eblif";
                          "-d"; p +:+ "_wlcsp"] ++ post)
                   [Symbiflow.toplevel self +:+ ext]
                   [Symbiflow.toplevel self +:+ dep])
                (EdaCommands.commands g))
    /\ In (mkCommand
             [Some "symbiflow_write_bitstream"; Some "-d"; Some (p +:+ "_wlcsp");
              Some "-f"; Some (Symbiflow.toplevel self +:+ ".fasm");
              Some "-P"; Symbiflow.package (Symbiflow.options self);
              Some "-b"; Some (Symbiflow.toplevel self +:+ ".bit")]
             [Symbiflow.toplevel self +:+ ".bit"]
             [Symbiflow.toplevel self +:+ ".fasm"])
          (EdaCommands.commands g).
Proof.
  intros Hv Hr. exact (wp_run _ _ _ (configure_vpr_quicklogic_commands self w Hv) Hr).
Qed.

Lemma X19_configure_vpr_quicklogic_device_witness :
  exists g p,
    Symbiflow.part (Symbiflow.options quicklogic_self) = Some p
    /\ written (exec (Symbiflow.configure_vpr quicklogic_self) world0)
       = written world0
         ++ [(path_join (Symbiflow.work_root quicklogic_self) "Makefile", g)]
    /\ EdaCommands.variables g
       = ["export EDALIZE_VENDOR=quicklogic"; "export EDALIZE_PART=" +:+ p]
    /\ (forall tool ext dep,
           In (tool, ext, dep) vpr_flow_stages ->
           exists post,
             In (mkCommand
                   (toks [tool; "-e"; Symbiflow.toplevel quicklogic_self +:+ ".eblif";
                          "-d"; p +:+ "_wlcsp"] ++ post)
                   [Symbiflow.toplevel quicklogic_self +:+ ext]
                   [Symbiflow.toplevel quicklogic_self +:+ dep])
                (EdaCommands.commands g))
    /\ In (mkCommand
             [Some "symbiflow_write_bitstream"; Some "-d"; Some (p +:+ "_wlcsp");
              Some "-f"; Some (Symbiflow.toplevel quicklogic_self +:+ ".fasm");
              Some "-P"; Symbiflow.package (Symbiflow.options quicklogic_self);
              Some "-b"; Some (Symbiflow.toplevel quicklogic_self +:+ ".bit")]
             [Symbiflow.toplevel quicklogic_self +:+ ".bit"]
             [Symbiflow.toplevel quicklogic_self +:+ ".fasm"])
          (EdaCommands.commands g).
Proof.
  exact (X19_configure_vpr_quicklogic_device quicklogic_self world0 eq_refl eq_refl).
Defined.

(** X20.  A run of [Symbiflow.configure_vpr] that returns has rendered
    nothing without fasm2bels, and with fasm2bels [fasm2bels.tcl] and
    [vivado.sh] twice each, as lines 426-441 are repeated at lines
    449-464. *)
Theorem X20_configure_vpr_renderings (self : Symbiflow.t) (w : world) :
  run (Symbiflow.configure_vpr self) w = Ok tt ->
  map outfile (rendered (exec (Symbiflow.configure_vpr self) w))
  = map outfile (rendered w) ++ vpr_outfiles self.
Proof.
  intros Hr.
  destruct (wp_run _ _ _ (configure_vpr_returns self w) Hr)
    as (g & stages & _ & _ & _ & _ & _ & _ & _ & _ & _ & Ho).
  exact Ho.
Qed.

Lemma X20_configure_vpr_renderings_witness :
  map outfile (rendered (exec (Symbiflow.configure_vpr fasm2bels_no_rr_graph_self) world0))
  = map outfile (rendered world0) ++ vpr_outfiles fasm2bels_no_rr_graph_self.
Proof.
  exact (X20_configure_vpr_renderings fasm2bels_no_rr_graph_self world0 eq_refl).
Defined.

(** X21.  The loop of [Symbiflow.configure_vpr] sorts the files by type:
    the Verilog sources, the SDC, PCF and xdc constraints are the names of
    the files with that type, in the order of the files; the routing graph,
    the grid and the capnp schema are the last file of their type, [None]
    when there is none.  Files of any other type leave no trace. *)
Theorem X21_vpr_classify_by_type (fs : list File.t) :
  Symbiflow.vpr_classify fs
  = Symbiflow.mkVprLocals (names_of "verilogSource" fs) (names_of "SDC" fs)
                          (names_of "PCF" fs) (names_of "xdc" fs)
                          (last_of "VPRGrid" fs) (last_of "RRGraph" fs)
                          (last_of "capnp" fs).
Proof. exact (vpr_classify_fold fs Symbiflow.vpr_locals0). Qed.

(** X22.  The loop of [Symbiflow.configure_nextpnr] does the same with its
    [elif] chain: the chip database, the device, the grid, the routing
    graph and the capnp schema are the last file of their type, [None] when
    there is none, and the placement constraints are the names of the xdc
    files in order. *)
Theorem X22_nextpnr_classify_by_type (fs : list File.t) :
  Symbiflow.nextpnr_classify fs
  = Symbiflow.mkNextpnrLocals (last_of "bba" fs) (last_of "device" fs)
                              (names_of "xdc" fs) (last_of "VPRGrid" fs)
                              (last_of "RRGraph" fs) (last_of "capnp" fs).
Proof. exact (nextpnr_classify_fold fs Symbiflow.nextpnr_locals0). Qed.

(** X23.  [Symbiflow.configure_main] gets to write a file exactly when
    [pnr] selects a configurator (nextpnr, vtr or vpr) and the inputs
    satisfy that configurator; a run leaves the written files as they were
    or adds the [Makefile] of the work root, and nothing else. *)
Theorem X23_symbiflow_writes_iff (self : Symbiflow.t) (w : world) :
  ((exists g, written (exec (Symbiflow.configure_main self) w)
              = written w ++ [(path_join (Symbiflow.work_root self) "Makefile", g)])
   <-> supported_pnr self = true /\ symbiflow_ready self)
  /\ (written (exec (Symbiflow.configure_main self) w) = written w
      \/ exists g, written (exec (Symbiflow.configure_main self) w)
                   = written w ++ [(path_join (Symbiflow.work_root self) "Makefile", g)]).
Proof.
  unfold symbiflow_ready, supported_pnr, Symbiflow.configure_main.
  destruct (eq_lit (Symbiflow.pnr (Symbiflow.options self)) "nextpnr");
    [ | destruct (mem (Symbiflow.pnr (Symbiflow.options self)) ["vtr"; "vpr"]) ];
    cbn [orb]; cbv iota.
  - split.
    + rewrite (configure_nextpnr_writes_iff self w). tauto.
    + apply written_or_not.
      * intros e He. exact (proj1 (wp_run _ _ _ (configure_nextpnr_abort self w) e He)).
      * intros [] Hr. apply (configure_nextpnr_writes_iff self w).
        now apply (configure_nextpnr_returns_iff self w).
  - split.
    + rewrite (configure_vpr_writes_iff self w). tauto.
    + apply written_or_not.
      * intros e He. exact (proj1 (wp_run _ _ _ (configure_vpr_abort self w) e He)).
      * intros [] Hr. apply (configure_vpr_writes_iff self w).
        now apply (configure_vpr_returns_iff self w).
  - split; [ | now left ].
    split.
    + intros [g Hg]. cbn in Hg. symmetry in Hg. now apply app_one_neq in Hg.
    + intros [H _]. discriminate H.
Qed.

(** X24.  Under fpga_interchange, a run of [Symbiflow.configure_nextpnr]
    that fails the assertion on [xdcs] (no xdc file, or more than one) has
    rendered [interchange.tcl] and [vivado.sh] before it fails, and has
    written no [Makefile]. *)
Theorem X24_configure_nextpnr_assertion_state
  (self : Symbiflow.t) (c : list Command) (w : world) (p k : string) :
  Symbiflow.yosys self = Ok c ->
  Symbiflow.arch (Symbiflow.options self) = Some "fpga_interchange" ->
  Symbiflow.part (Symbiflow.options self) = Some p ->
  Symbiflow.package (Symbiflow.options self) = Some k ->
  Nat.eqb (count_xdc (Symbiflow.src_files self)) 1 = false ->
  map (fun x => (template x, outfile x))
      (rendered (exec (Symbiflow.configure_nextpnr self) w))
  = map (fun x => (template x, outfile x)) (rendered w)
    ++ [("interchange-tcl.j2", "interchange.tcl"); ("vivado-sh.j2", "vivado.sh")]
  /\ written (exec (Symbiflow.configure_nextpnr self) w) = written w.
Proof.
  intros Hy Ha Hp Hk Hx. apply Nat.eqb_neq in Hx.
  exact (wp_run _ _ _ (configure_nextpnr_assertion_state self c w p k Hy Ha Hp Hk Hx)).
Qed.

Lemma X24_configure_nextpnr_assertion_state_witness :
  map (fun x => (template x, outfile x))
      (rendered (exec (Symbiflow.configure_nextpnr interchange_two_xdc_self) world0))
  = map (fun x => (template x, outfile x)) (rendered world0)
    ++ [("interchange-tcl.j2", "interchange.tcl"); ("vivado-sh.j2", "vivado.sh")]
  /\ written (exec (Symbiflow.configure_nextpnr interchange_two_xdc_self) world0)
     = written world0.
Proof.
  exact (X24_configure_nextpnr_assertion_state interchange_two_xdc_self [] world0
           "xc7a35t" "cpg236-1" eq_refl eq_refl eq_refl eq_refl eq_refl).
Defined.

(** X25.  The dependency of the two stages of [Nextpnr.configure_main] is
    the name of the last jsonNetlist file; nothing checks that there is
    one: without a netlist the run returns all the same, and the stages
    depend on the empty string, as they always do under fpga_interchange. *)
Theorem X25_nextpnr_netlist_dependency (self : Nextpnr.t) (w : world) (a : string) :
  Nextpnr.flow_config_arch self = Some a ->
  run (Nextpnr.configure_main self) w = Ok tt ->
  map depends (self_commands (exec (Nextpnr.configure_main self) w))
  = let d := if a =? "fpga_interchange" then EmptyString
             else last_name "jsonNetlist" (Nextpnr.files self) in
    [ [d]; [d] ].
Proof.
  intros Ha Hr.
  destruct (wp_run _ _ _ (nextpnr_configure_returns self w) Hr)
    as (a' & v & cmd & Ha' & _ & Hv & _ & Hs & _).
  assert (a' = a) by congruence. subst a'.
  rewrite Hs. cbn [map depends].
  rewrite (classify_result _ _ _ Hv). reflexivity.
Qed.

Lemma X25_nextpnr_netlist_dependency_witness :
  map depends (self_commands (exec (Nextpnr.configure_main no_netlist_self) world0))
  = [ [EmptyString]; [EmptyString] ].
Proof.
  exact (X25_nextpnr_netlist_dependency no_netlist_self world0 "ice40" eq_refl eq_refl).
Defined.
